(** * Upload pipeline: key validation, dispatch, metadata writer, compliance scanner

    A shallow embedding of the three Lambda entry points of the repository

    - [lambda_trigger/index.py]           (module [lambda_trigger])
    - [lambda_writer/index.py]            (module [lambda_writer])
    - [lambda_security_monitor/index.py]  (module [lambda_security_monitor])

    together with the properties of the pipeline specification that concern
    them.  Python code is embedded as functions in a state-and-exception
    monad; the AWS collaborators (Step Functions, DynamoDB, S3, SNS) are
    section variables, so every theorem holds for every behaviour of the
    collaborator unless a hypothesis says otherwise. *)

From Stdlib Require Import ZArith NArith Lia Ascii String DecimalString.
From stdpp Require Import base option list gmap.

Set Default Proof Using "Type".

(** ** The fragment of the Python runtime the handlers use *)

Module Py.

(** A Python [str] is a sequence of Unicode code points. *)
Abbreviation char := N (only parsing).
Abbreviation str := (list N) (only parsing).

(** An ASCII literal of the source, as a [str]. *)
Definition py (s : String.string) : str :=
  map N_of_ascii (list_ascii_of_string s).
Arguments py s%_string : simpl never.

(** [len(s)] *)
Definition len {A} (s : list A) : Z := Z.of_nat (length s).

(** [str(n)] for an integer, as an f-string interpolates it. *)
Definition str_of_int (z : Z) : str :=
  py (NilEmpty.string_of_int (Z.to_int z)).

(** [s.startswith(prefix)] *)
Fixpoint startswith (s prefix : str) {struct prefix} : bool :=
  match prefix, s with
  | [], _ => true
  | _ :: _, [] => false
  | p :: prefix', c :: s' => (c =? p)%N && startswith s' prefix'
  end.

(** [sub in s] *)
Fixpoint contains (sub s : str) : bool :=
  startswith s sub ||
  match s with
  | [] => false
  | _ :: s' => contains sub s'
  end.

(** [c.isspace()] for one code point: the table of CPython's
    [_PyUnicode_IsWhitespace]. *)
Definition isspace (c : char) : bool :=
  ((0x09 <=? c) && (c <=? 0x0D) || (0x1C <=? c) && (c <=? 0x20)
   || (c =? 0x85) || (c =? 0xA0) || (c =? 0x1680)
   || (0x2000 <=? c) && (c <=? 0x200A)
   || (c =? 0x2028) || (c =? 0x2029) || (c =? 0x202F) || (c =? 0x205F)
   || (c =? 0x3000))%N.

(** [s.lstrip()], [s.rstrip()], [s.strip()] without argument. *)
Fixpoint lstrip (s : str) : str :=
  match s with
  | [] => []
  | c :: s' => if isspace c then lstrip s' else s
  end.

Definition rstrip (s : str) : str := rev (lstrip (rev s)).

Definition strip (s : str) : str := rstrip (lstrip s).

(** [not s] for a sequence: true on the empty one. *)
Definition not_ {A} (s : list A) : bool :=
  match s with
  | [] => true
  | _ :: _ => false
  end.

(** [sep.join(parts)] *)
Fixpoint join (sep : str) (parts : list str) : str :=
  match parts with
  | [] => []
  | [p] => p
  | p :: rest => p ++ sep ++ join sep rest
  end.

(** The exceptions the handlers raise or meet.  Every one is a subclass of
    [Exception]; [ClientError] carries [e.response['Error']['Code']], and
    each exception carries the text [str(e)] renders. *)
Inductive exn : Type :=
| ValueError (msg : str)
| KeyError (key : str)
| IndexError (msg : str)
| ClientError (code : str) (msg : str)
| BotoCoreError (msg : str).

(** [str(e)] *)
Definition str_of_exn (e : exn) : str :=
  match e with
  | ValueError msg => msg
  | KeyError key => py "'" ++ key ++ py "'"
  | IndexError msg => msg
  | ClientError _ msg => msg
  | BotoCoreError msg => msg
  end.

Definition is_ClientError (e : exn) : bool :=
  match e with
  | ClientError _ _ => true
  | _ => false
  end.

(** The outcome of running a piece of code: a value, or a raised exception. *)
Inductive res (A : Type) : Type :=
| Ok (a : A)
| Raise (e : exn).
Arguments Ok {A} a.
Arguments Raise {A} e.

Definition raised {A} (r : res A) : bool :=
  match r with
  | Ok _ => false
  | Raise _ => true
  end.

(** Code running over a world [S]: what it changed survives an exception. *)
Definition M (S A : Type) : Type := S -> res A * S.

Definition ret {S A} (a : A) : M S A := fun w => (Ok a, w).

Definition raise {S A} (e : exn) : M S A := fun w => (Raise e, w).

Definition bind {S A B} (m : M S A) (k : A -> M S B) : M S B :=
  fun w =>
    match m w with
    | (Ok a, w') => k a w'
    | (Raise e, w') => (Raise e, w')
    end.

(** [try: body except Exception as e: handler(e)]; a handler that does not
    apply to [e] re-raises it. *)
Definition try_except {S A} (body : M S A) (handler : exn -> M S A) : M S A :=
  fun w =>
    match body w with
    | (Ok a, w') => (Ok a, w')
    | (Raise e, w') => handler e w'
    end.

(** The value of a pure expression that may raise. *)
Definition lift {S A} (r : res A) : M S A := fun w => (r, w).

(** [d[k]] on a dict. *)
Definition getitem (d : gmap str str) (k : str) : res str :=
  match d !! k with
  | Some v => Ok v
  | None => Raise (KeyError k)
  end.

(** [for x in xs: body], the loop's local variables threaded through. *)
Fixpoint for_in {S X L} (xs : list X) (body : X -> L -> M S L) (locals : L)
  : M S L :=
  match xs with
  | [] => ret locals
  | x :: xs' => bind (body x locals) (for_in xs' body)
  end.

(** The values the handlers hand to [json.dumps]. *)
#[local] Unset Elimination Schemes.
Inductive json : Type :=
| JStr (s : str)
| JInt (z : Z)
| JList (l : list json)
| JDict (l : list (str * json)).
#[local] Set Elimination Schemes.

(** The [logging] module: records go to the root logger. *)
Inductive level : Type := INFO | WARNING | ERROR.

Definition log_record : Type := level * str.

Class Logger (S : Type) : Type := emit : log_record -> S -> S.

Definition logger_info {S} `{!Logger S} (msg : str) : M S unit :=
  fun w => (Ok tt, emit (INFO, msg) w).

Definition logger_warning {S} `{!Logger S} (msg : str) : M S unit :=
  fun w => (Ok tt, emit (WARNING, msg) w).

Definition logger_error {S} `{!Logger S} (msg : str) : M S unit :=
  fun w => (Ok tt, emit (ERROR, msg) w).

End Py.

Export Py.

Notation "'do' x <- m ; k" := (bind m (fun x => k))
  (at level 10, x name, m at level 100, k at level 200,
   format "'[v' 'do'  x  <-  m ; '/' k ']'").
Notation "'do_' m ; k" := (bind m (fun _ => k))
  (at level 10, m at level 100, k at level 200,
   format "'[v' 'do_'  m ; '/' k ']'").

(** ** The identifier rules of the specification

    The rejection rules as the specification words them: an identifier is
    unsafe when it is empty or whitespace-only, longer than 1024 characters,
    contains the substring [..], begins with [/], or contains a null
    character. *)

Definition whitespace_only (s : str) : Prop :=
  Forall (fun c => isspace c = true) s.

Definition unsafe_identifier (s : str) : Prop :=
  s = [] \/ whitespace_only s \/ (1024 < length s)%nat \/
  (exists a b, s = a ++ py ".." ++ b) \/ (exists t, s = py "/" ++ t) \/
  In 0%N s.

(** The four tests both validators perform, in any order. *)
Definition traversal_test (s : str) : bool :=
  contains (py "..") s || startswith s (py "/").
Definition null_test (s : str) : bool := contains [0%N] s.
Definition length_test (s : str) : bool := (len s >? 1024)%Z.
Definition empty_test (s : str) : bool := not_ s || not_ (strip s).

(** ** [lambda_trigger/index.py]: the Dispatch stage *)

Module lambda_trigger.

(** One entry of [event['Records']]: the fields the handler reads,
    [record['s3']['bucket']['name']], [record['s3']['object']['key']] and
    [record['eventTime']]. *)
Record S3EventRecord : Type := {
  s3_bucket_name : str;
  s3_object_key : str;
  eventTime : str
}.

Record Event : Type := { Records : list S3EventRecord }.

(** The event as the dict the runtime hands over, for [json.dumps(event)]. *)
Definition record_json (record : S3EventRecord) : json :=
  JDict [(py "s3",
          JDict [(py "bucket", JDict [(py "name", JStr (s3_bucket_name record))]);
                 (py "object", JDict [(py "key", JStr (s3_object_key record))])]);
         (py "eventTime", JStr (eventTime record))].

Definition event_json (event : Event) : json :=
  JDict [(py "Records", JList (map record_json (Records event)))].

(** The keyword arguments of [stepfunctions.start_execution]. *)
Record StartExecutionInput : Type := {
  stateMachineArn : str;
  input : str
}.

(** The dict a handler returns. *)
Record Response : Type := {
  statusCode : Z;
  body : str
}.

(** The world of one process: every call made to Step Functions with what
    it answered ([response['executionArn']], or the exception raised), the
    number of clock reads so far, and the log. *)
Record World : Type := {
  sfn_calls : list (StartExecutionInput * res str);
  clock : nat;
  log : list log_record
}.

#[global] Instance World_logger : Logger World := fun r w =>
  {| sfn_calls := sfn_calls w; clock := clock w; log := log w ++ [r] |}.

(** The executions the orchestrator started: the calls it answered. *)
Definition started (w : World) : list (StartExecutionInput * res str) :=
  List.filter (fun c => negb (raised (snd c))) (sfn_calls w).

Definition validate_s3_key (key : str) : M World bool :=
  (* 1. Path Traversal Check *)
  if contains (py "..") key || startswith key (py "/") then
    raise (ValueError (py "Invalid key path (path traversal attempt): " ++ key))
  (* 2. Null Byte Check *)
  else if contains [0%N] key then
    raise (ValueError (py "Key contains null bytes: " ++ key))
  (* 3. Length Check *)
  else if (len key >? 1024)%Z then
    raise (ValueError (py "Key too long: " ++ str_of_int (len key)
                       ++ py " characters (max: 1024)"))
  else if not_ key || not_ (strip key) then
    raise (ValueError (py "Key cannot be empty"))
  else
    do_ logger_info (py "Key validation passed: " ++ key);
    ret true.

Section Handler.

(** [json.dumps] *)
Variable json_dumps : json -> str.
(** [os.environ] *)
Variable environ : gmap str str.
(** [datetime.now(UTC).isoformat()] at the n-th read of the clock. *)
Variable utcnow_isoformat : nat -> str.
(** What Step Functions answers to a [start_execution] call, given the calls
    made before: the [executionArn] of the response, or an exception. *)
Variable stepfunctions_start_execution :
  list (StartExecutionInput * res str) -> StartExecutionInput -> res str.

Definition datetime_now_isoformat : M World str := fun w =>
  (Ok (utcnow_isoformat (clock w)),
   {| sfn_calls := sfn_calls w; clock := S (clock w); log := log w |}).

Definition start_execution (request : StartExecutionInput) : M World str :=
  fun w =>
    let response := stepfunctions_start_execution (sfn_calls w) request in
    (response,
     {| sfn_calls := sfn_calls w ++ [(request, response)];
        clock := clock w; log := log w |}).

(** The dict literal [step_function_input]. *)
Definition step_function_input (bucket key timestamp event_time : str) : json :=
  JDict [(py "bucket", JStr bucket);
         (py "key", JStr key);
         (py "timestamp", JStr timestamp);
         (py "event_time", JStr event_time)].

(** The call the handler makes for [record] when the clock reads
    [timestamp], and the calls it makes for a run of records read from the
    [n]-th clock read on. *)
Definition execution_request (arn : str) (record : S3EventRecord)
    (timestamp : str) : StartExecutionInput :=
  {| stateMachineArn := arn;
     input := json_dumps
       (step_function_input (s3_bucket_name record) (s3_object_key record)
          timestamp (eventTime record)) |}.

Fixpoint execution_requests (arn : str) (n : nat) (records : list S3EventRecord)
  : list StartExecutionInput :=
  match records with
  | [] => []
  | record :: rest =>
      execution_request arn record (utcnow_isoformat n)
      :: execution_requests arn (S n) rest
  end.

(** The body of [for record in event['Records']], with the local
    [execution_arns] it appends to. *)
Definition handler_record (record : S3EventRecord) (execution_arns : list str)
  : M World (list str) :=
  let bucket := s3_bucket_name record in
  let key := s3_object_key record in
  let event_time := eventTime record in
  do_ logger_info (py "Processing file: " ++ key ++ py " from bucket: " ++ bucket);
  (* Validate the S3 key. *)
  do_ validate_s3_key key;
  (* Prepare input for Step Functions *)
  do timestamp <- datetime_now_isoformat;
  (* Start Step Function execution *)
  do arn <- lift (getitem environ (py "STATE_MACHINE_ARN"));
  do execution_arn <- start_execution
      {| stateMachineArn := arn;
         input := json_dumps (step_function_input bucket key timestamp event_time) |};
  do_ logger_info (py "Successfully started Step Function execution: "
                   ++ execution_arn);
  ret (execution_arns ++ [execution_arn]).

(** [handler(event, context)]; [context] is not used. *)
Definition handler (event : Event) : M World Response :=
  try_except
    (do_ logger_info (py "Received event: " ++ json_dumps (event_json event));
     do execution_arns <- for_in (Records event) handler_record [];
     ret {| statusCode := 200;
            body := json_dumps
              (JDict [(py "message", JStr (py "Successfully triggered Step Functions"));
                      (py "executions", JList (map JStr execution_arns))]) |})
    (fun e =>
       match e with
       | ValueError _ =>
           (* Log the error, but return a successful status (200) to S3 to
              halt gracefully. *)
           do_ logger_error (py "Validation error: " ++ str_of_exn e
                             ++ py ". Pipeline execution halted gracefully.");
           ret {| statusCode := 200;
                  body := json_dumps
                    (JDict [(py "message",
                             JStr (py "Validation failed, pipeline halted: "
                                   ++ str_of_exn e))]) |}
       | _ =>
           do_ logger_error (py "Unexpected error: " ++ str_of_exn e);
           raise e (* Still raise for true system errors *)
       end).

End Handler.

End lambda_trigger.

(** ** [lambda_writer/index.py]: the Metadata Writer *)

Module lambda_writer.

(** A DynamoDB item, and the event dict of the handler: attribute or field
    name to string value. *)
Abbreviation Item := (gmap str str) (only parsing).

(** The condition expressions the store evaluates on a put. *)
Inductive Condition : Type :=
| attribute_not_exists (attribute : str)
| AND (c1 c2 : Condition).

(** The dict the handler returns; [bucket] is absent from the 409 result. *)
Record Response : Type := {
  statusCode : Z;
  filename : str;
  timestamp : str;
  bucket : option str;
  message : str
}.

(** The world of one process and its store: the module globals [dynamodb]
    (the resource, with the endpoint it was built for) and [table] (the
    table handle, with the name it is bound to), the records of the
    metadata table, the number of clock reads so far, and the log. *)
Record World : Type := {
  dynamodb : option (option str);
  table : option str;
  items : list (gmap str str);
  clock : nat;
  log : list log_record
}.

#[global] Instance World_logger : Logger World := fun r w =>
  {| dynamodb := dynamodb w; table := table w; items := items w;
     clock := clock w; log := log w ++ [r] |}.

(** Modelled from the spec: the key schema of the metadata table is declared
    outside the Python sources.  Primary key = composite ([Filename],
    [UploadTimestamp]). *)
Definition primary_key (item : gmap str str) : option str * option str :=
  (item !! py "Filename", item !! py "UploadTimestamp").

Definition same_key (a b : gmap str str) : bool :=
  bool_decide (primary_key a = primary_key b).

(** A condition is evaluated on the stored item that has the key of the item
    being put, if there is one. *)
Fixpoint eval_condition (c : Condition) (existing : option (gmap str str))
  : bool :=
  match c with
  | attribute_not_exists a =>
      match existing with
      | None => true
      | Some old => bool_decide (old !! a = None)
      end
  | AND c1 c2 => eval_condition c1 existing && eval_condition c2 existing
  end.

(** Modelled from the spec: the store's conditional put,
    [conditionalPut(record, condition) -> success | fails ConditionFailed].
    When the condition holds the item takes the place of any stored item of
    the same key; when it fails the table is left as it is. *)
Definition conditional_put (stored : list (gmap str str))
    (item : gmap str str) (condition : Condition)
  : res unit * list (gmap str str) :=
  if eval_condition condition (List.find (same_key item) stored) then
    (Ok tt, List.filter (fun old => negb (same_key item old)) stored ++ [item])
  else
    (Raise (ClientError (py "ConditionalCheckFailedException")
              (py "An error occurred (ConditionalCheckFailedException) when calling the PutItem operation: The conditional request failed")),
     stored).

Definition validate_filename (filename : str) : M World bool :=
  if not_ filename || not_ (strip filename) then
    raise (ValueError (py "Filename cannot be empty"))
  else if (len filename >? 1024)%Z then
    raise (ValueError (py "Filename too long: " ++ str_of_int (len filename)
                       ++ py " characters (max: 1024)"))
  else if contains (py "..") filename || startswith filename (py "/") then
    raise (ValueError (py "Invalid filename (path traversal attempt): "
                       ++ filename))
  else if contains [0%N] filename then
    raise (ValueError (py "Filename contains null bytes: " ++ filename))
  else
    do_ logger_info (py "Filename validation passed: " ++ filename);
    ret true.

Section Handler.

(** [json.dumps] and [str] on a dict of strings. *)
Variable json_dumps : gmap str str -> str.
Variable dict_str : gmap str str -> str.
(** [os.environ] *)
Variable environ : gmap str str.
(** [datetime.now(UTC).isoformat()] at the n-th read of the clock. *)
Variable utcnow_isoformat : nat -> str.
(** [StoreError]: a failure of the store that is not the condition's, which
    a [put_item] on this table content and item meets, if any. *)
Variable store_fault : list (gmap str str) -> gmap str str -> option exn.

Definition datetime_now_isoformat : M World str := fun w =>
  (Ok (utcnow_isoformat (clock w)),
   {| dynamodb := dynamodb w; table := table w; items := items w;
      clock := S (clock w); log := log w |}).

(** Initializes global Boto3 clients and table lazily on first call. *)
Definition get_dynamodb_table : M World str := fun w =>
  (* Only initialize if it hasn't been done yet *)
  match table w with
  | Some t => (Ok t, w)
  | None =>
      let endpoint_url := environ !! py "AWS_ENDPOINT_URL" in
      let w1 := {| dynamodb := Some endpoint_url; table := table w;
                   items := items w; clock := clock w; log := log w |} in
      match getitem environ (py "TABLE_NAME") with
      | Ok name =>
          (Ok name,
           {| dynamodb := dynamodb w1; table := Some name; items := items w1;
              clock := clock w1; log := log w1 |})
      | Raise e => (Raise e, w1)
      end
  end.

(** [ddb_table.put_item(Item=item, ConditionExpression=condition)] *)
Definition put_item (ddb_table : str) (item : gmap str str)
    (condition : Condition) : M World unit := fun w =>
  match store_fault (items w) item with
  | Some e => (Raise e, w)
  | None =>
      let (outcome, stored) := conditional_put (items w) item condition in
      (outcome,
       {| dynamodb := dynamodb w; table := table w; items := stored;
          clock := clock w; log := log w |})
  end.

(** [handler(event, context)]; [context] is not used. *)
Definition handler (event : gmap str str) : M World Response :=
  try_except
    (do ddb_table <- get_dynamodb_table;
     do_ logger_info (py "Received event: " ++ json_dumps event);
     (* Extract data from event *)
     do filename <- lift (getitem event (py "key"));
     do now <- datetime_now_isoformat;
     let timestamp := default now (event !! py "timestamp") in
     do bucket <- lift (getitem event (py "bucket"));
     let event_time := default timestamp (event !! py "event_time") in
     (* Validate inputs *)
     do_ validate_filename filename;
     (* Prepare DynamoDB item *)
     let item : gmap str str :=
       <[py "Filename" := filename]>
         (<[py "UploadTimestamp" := timestamp]>
            (<[py "Bucket" := bucket]>
               (<[py "EventTime" := event_time]> ∅))) in
     do_ logger_info (py "Writing to DynamoDB: " ++ dict_str item);
     (* Write to DynamoDB with conditional expression *)
     try_except
       (do_ put_item ddb_table item
              (AND (attribute_not_exists (py "Filename"))
                   (attribute_not_exists (py "UploadTimestamp")));
        do_ logger_info (py "Successfully wrote to DynamoDB: " ++ filename);
        ret {| statusCode := 200; filename := filename;
               timestamp := timestamp; bucket := Some bucket;
               message := py "Successfully written to DynamoDB" |})
       (fun e =>
          match e with
          | ClientError code _ =>
              if bool_decide (code = py "ConditionalCheckFailedException") then
                do_ logger_warning (py "Duplicate entry attempted: " ++ filename
                                    ++ py " at " ++ timestamp);
                ret {| statusCode := 409; filename := filename;
                       timestamp := timestamp; bucket := None;
                       message := py "Duplicate entry - item already exists" |}
              else raise e
          | _ => raise e
          end))
    (fun e =>
       match e with
       | ValueError _ =>
           do_ logger_error (py "Validation error: " ++ str_of_exn e);
           raise e
       | ClientError _ _ =>
           do_ logger_error (py "DynamoDB client error: " ++ str_of_exn e);
           raise e
       | _ =>
           do_ logger_error (py "Unexpected error writing to DynamoDB: "
                             ++ str_of_exn e);
           raise e
       end).

(** Successive invocations in one process, the results dropped. *)
Fixpoint invocations (events : list (gmap str str)) (w : World) : World :=
  match events with
  | [] => w
  | event :: rest => invocations rest (handler event w).2
  end.

(** The process can reach its table: the handle is bound already, or
    [TABLE_NAME] is set. *)
Definition configured (w : World) : Prop :=
  is_Some (table w) \/ is_Some (environ !! py "TABLE_NAME").

End Handler.

(** The item the handler builds, and the condition it puts under. *)
Definition metadata_item (filename timestamp bucket event_time : str)
  : gmap str str :=
  <[py "Filename" := filename]>
    (<[py "UploadTimestamp" := timestamp]>
       (<[py "Bucket" := bucket]>
          (<[py "EventTime" := event_time]> ∅))).

Definition not_exists : Condition :=
  AND (attribute_not_exists (py "Filename"))
      (attribute_not_exists (py "UploadTimestamp")).

(** The table holds at most one record per primary key. *)
Definition unique_keys (stored : list (gmap str str)) : Prop :=
  NoDup (map primary_key stored).

End lambda_writer.

(** ** [lambda_security_monitor/index.py]: the Compliance Scanner *)

Module lambda_security_monitor.

(** The responses of the collaborators, with the fields the scanner reads. *)
Record Bucket : Type := { Name : str }.

(** [s3.list_buckets()]: [response.get('Buckets', [])]. *)
Record ListBucketsOutput : Type := { Buckets : option (list Bucket) }.

Record ServerSideEncryptionByDefault : Type := { SSEAlgorithm : str }.

Record ServerSideEncryptionRule : Type := {
  ApplyServerSideEncryptionByDefault : option ServerSideEncryptionByDefault
}.

(** [s3.get_bucket_encryption(Bucket=name)]:
    [encryption['ServerSideEncryptionConfiguration']['Rules']]. *)
Record GetBucketEncryptionOutput : Type := {
  Rules : list ServerSideEncryptionRule
}.

(** [dynamodb.list_tables()]: [response.get('TableNames', [])]. *)
Record ListTablesOutput : Type := { TableNames : option (list str) }.

(** [dynamodb.describe_table(TableName=name)]:
    [table_desc['Table'].get('SSEDescription')], a dict. *)
Record DescribeTableOutput : Type := {
  SSEDescription : option (gmap str str)
}.

(** The keyword arguments of [sns.publish]. *)
Record PublishInput : Type := {
  TopicArn : str;
  Subject : str;
  Message : str
}.

(** An entry of [s3_issues]. *)
Record Issue : Type := { name : str; reason : str }.

(** The dict the handler returns. *)
Record Response : Type := {
  statusCode : Z;
  issues_found : Z;
  body : str
}.

(** The world of one scan: every call made to [sns.publish] with what it
    answered ([response['MessageId']], or the exception raised), and the
    log. *)
Record World : Type := {
  sns_calls : list (PublishInput * res str);
  log : list log_record
}.

#[global] Instance World_logger : Logger World := fun r w =>
  {| sns_calls := sns_calls w; log := log w ++ [r] |}.

(** The alerts that went out: the publish calls the channel accepted. *)
Definition published (w : World) : list PublishInput :=
  map fst (List.filter (fun c => negb (raised (snd c))) (sns_calls w)).

(** [rules[0]] *)
Definition first_rule (rules : list ServerSideEncryptionRule)
  : res ServerSideEncryptionRule :=
  match rules with
  | rule :: _ => Ok rule
  | [] => Raise (IndexError (py "list index out of range"))
  end.

(** [rule['ApplyServerSideEncryptionByDefault']] *)
Definition default_encryption (rule : ServerSideEncryptionRule)
  : res ServerSideEncryptionByDefault :=
  match ApplyServerSideEncryptionByDefault rule with
  | Some by_default => Ok by_default
  | None => Raise (KeyError (py "ApplyServerSideEncryptionByDefault"))
  end.

(** [not sse_desc] on what [.get('SSEDescription')] returned: true on
    [None] and on the empty dict. *)
Definition not_dict (d : option (gmap str str)) : bool :=
  match d with
  | None => true
  | Some m => bool_decide (m = ∅)
  end.

(** The bullet [U+2022] of the alert lines, and the sign [U+26A0 U+FE0F] of
    the failure subject. *)
Definition bullet : str := [0x2022%N].
Definition warning_sign : str := [0x26A0%N; 0xFE0F%N].

Definition newline : str := [10%N].

Section Handler.

(** [json.dumps] *)
Variable json_dumps : json -> str.
(** [os.environ] *)
Variable environ : gmap str str.
(** The object store and the table store, as the scan sees them. *)
Variable s3_list_buckets : res ListBucketsOutput.
Variable s3_get_bucket_encryption : str -> res GetBucketEncryptionOutput.
Variable dynamodb_list_tables : res ListTablesOutput.
Variable dynamodb_describe_table : str -> res DescribeTableOutput.
(** What the notification channel answers to a [publish] call, given the
    calls made before: the [MessageId] of the response, or an exception. *)
Variable sns_publish : list (PublishInput * res str) -> PublishInput -> res str.

Definition publish (request : PublishInput) : M World str := fun w =>
  let response := sns_publish (sns_calls w) request in
  (response,
   {| sns_calls := sns_calls w ++ [(request, response)]; log := log w |}).

(** The body of [for bucket in buckets], with the local [s3_issues] it
    appends to. *)
Definition check_bucket (bucket : Bucket) (s3_issues : list Issue)
  : M World (list Issue) :=
  let bucket_name := Name bucket in
  try_except
    ((* Get bucket encryption configuration *)
     do encryption <- lift (s3_get_bucket_encryption bucket_name);
     let rules := Rules encryption in
     do rule <- lift (first_rule rules);
     do by_default <- lift (default_encryption rule);
     let algorithm := SSEAlgorithm by_default in
     (* Logic: If it's not KMS, it's non-compliant *)
     if negb (bool_decide (algorithm = py "aws:kms")) then
       do_ logger_warning (py "ALERT: Bucket '" ++ bucket_name
                           ++ py "' is not using KMS (using " ++ algorithm
                           ++ py ")");
       ret (s3_issues ++
            [{| name := bucket_name;
                reason := py "is not encrypted with a KMS key (uses default "
                          ++ algorithm ++ py " encryption)." |}])
     else
       do_ logger_info (py "Bucket '" ++ bucket_name
                        ++ py "' is compliant (using KMS)");
       ret s3_issues)
    (fun e =>
       match e with
       | ClientError error_code _ =>
           if bool_decide
                (error_code = py "ServerSideEncryptionConfigurationNotFoundError")
           then
             (* This means the bucket has no encryption configuration at all *)
             do_ logger_warning (py "ALERT: Bucket '" ++ bucket_name
                                 ++ py "' has NO encryption configuration!");
             ret (s3_issues ++
                  [{| name := bucket_name;
                      reason := py "has no encryption configuration at all." |}])
           else
             (* Some other error, like permission denied *)
             do_ logger_error (py "Error checking bucket '" ++ bucket_name
                               ++ py "': " ++ str_of_exn e);
             ret s3_issues
       | _ => raise e
       end).

(** Check all S3 buckets for encryption compliance. *)
Definition check_s3_encryption : M World (list Issue) :=
  try_except
    (do_ logger_info (py "Starting S3 encryption check...");
     do response <- lift s3_list_buckets;
     let buckets := default [] (Buckets response) in
     do_ logger_info (py "Found " ++ str_of_int (len buckets)
                      ++ py " S3 buckets to check");
     do s3_issues <- for_in buckets check_bucket [];
     ret s3_issues)
    (fun e =>
       match e with
       | ClientError _ _ =>
           do_ logger_error (py "Error listing S3 buckets: " ++ str_of_exn e);
           raise e
       | _ =>
           do_ logger_error (py "Unexpected error checking S3 encryption: "
                             ++ str_of_exn e);
           raise e
       end).

(** The body of [for table_name in table_names], with the local
    [unencrypted_tables] it appends to. *)
Definition check_table (table_name : str) (unencrypted_tables : list str)
  : M World (list str) :=
  try_except
    (do table_desc <- lift (dynamodb_describe_table table_name);
     let sse_desc := SSEDescription table_desc in
     (* Check if encryption is enabled (Status must be ENABLED) *)
     if not_dict sse_desc
        || negb (bool_decide ((sse_desc ≫= fun d => d !! py "Status")
                              = Some (py "ENABLED")))
     then
       do_ logger_warning (py "ALERT: Table '" ++ table_name
                           ++ py "' is NOT encrypted!");
       ret (unencrypted_tables ++ [table_name])
     else
       do_ logger_info (py "Table '" ++ table_name ++ py "' is encrypted");
       ret unencrypted_tables)
    (fun e =>
       match e with
       | ClientError _ _ =>
           do_ logger_error (py "Error checking table '" ++ table_name
                             ++ py "': " ++ str_of_exn e);
           ret unencrypted_tables
       | _ => raise e
       end).

(** Check all DynamoDB tables for encryption configuration. *)
Definition check_dynamodb_encryption : M World (list str) :=
  try_except
    (do_ logger_info (py "Starting DynamoDB encryption check...");
     do response <- lift dynamodb_list_tables;
     let table_names := default [] (TableNames response) in
     do_ logger_info (py "Found " ++ str_of_int (len table_names)
                      ++ py " DynamoDB tables to check");
     do unencrypted_tables <- for_in table_names check_table [];
     ret unencrypted_tables)
    (fun e =>
       match e with
       | ClientError _ _ =>
           do_ logger_error (py "Error listing DynamoDB tables: "
                             ++ str_of_exn e);
           raise e
       | _ =>
           do_ logger_error (py "Unexpected error checking DynamoDB encryption: "
                             ++ str_of_exn e);
           raise e
       end).

Definition subject : str :=
  py "Audit Complete: Resources Need KMS Encryption Review".

Definition message_intro : str :=
  py "Hi team," ++ newline ++ newline
  ++ py "Our automated security auditor just finished its daily scan and found a few resources that don't seem to be using our preferred KMS encryption. Don't panic! Most of these are probably just using default AWS encryption, but our policy is to use KMS for everything."
  ++ newline ++ newline ++ py "Here's a breakdown of what it found:"
  ++ newline ++ newline.

Definition message_body (issues_list : list str) : str :=
  join newline (map (fun issue => bullet ++ py " " ++ issue) issues_list).

Definition message_footer : str :=
  newline ++ newline
  ++ py "Please take a look at these when you get a chance so we can stay compliant. If these are low-priority or dev resources, no rush."
  ++ newline ++ newline ++ py "Thanks!" ++ newline ++ newline
  ++ py "- Your Friendly Security Bot".

(** Send SNS alert with security issues. *)
Definition send_alert (issues_list : list str) : M World unit :=
  let full_message :=
    message_intro ++ message_body issues_list ++ message_footer in
  do topic <- lift (getitem environ (py "SNS_TOPIC_ARN"));
  do message_id <- publish {| TopicArn := topic; Subject := subject;
                              Message := full_message |};
  logger_info (py "Conversational alert sent successfully. MessageId: "
               ++ message_id).

(** The two formatting loops of the handler. *)
Definition format_bucket_issue (issue : Issue) : str :=
  py "S3 Bucket '" ++ name issue ++ py "' " ++ reason issue.

Definition format_table_issue (table_name : str) : str :=
  py "DynamoDB Table '" ++ table_name ++ py "' is not encrypted.".

(** The body of the handler's [try]. *)
Definition scan : M World Response :=
  do_ logger_info (py "Starting security scan...");
  (* This will be our master list of nicely formatted strings *)
  let all_issues : list str := [] in
  (* Check S3 buckets *)
  do s3_results <- check_s3_encryption;
  let all_issues := all_issues ++ map format_bucket_issue s3_results in
  (* Check DynamoDB tables *)
  do dynamo_results <- check_dynamodb_encryption;
  let all_issues := all_issues ++ map format_table_issue dynamo_results in
  (* Send alert if issues found *)
  do_ (if negb (not_ all_issues) then
         do_ logger_warning (py "Found " ++ str_of_int (len all_issues)
                             ++ py " security issues");
         send_alert all_issues
       else
         logger_info (py "Security scan completed. No issues found."));
  ret {| statusCode := 200;
         issues_found := len all_issues;
         body := json_dumps
           (JDict [(py "message", JStr (py "Security scan completed"));
                   (py "issues", JList (map JStr all_issues))]) |}.

(** [handler(event, context)]; neither argument is used. *)
Definition handler : M World Response :=
  try_except scan
    (fun e =>
       do_ logger_error (py "Security scan failed: " ++ str_of_exn e);
       (* Try to send alert about scan failure *)
       do_ try_except
             (do topic <- lift (getitem environ (py "SNS_TOPIC_ARN"));
              do_ publish
                    {| TopicArn := topic;
                       Subject := warning_sign ++ py " Security Scan FAILED";
                       Message :=
                         py "The scheduled security scan encountered a critical error and could not complete:"
                         ++ newline ++ newline ++ str_of_exn e |};
              ret tt)
             (fun _ => ret tt);
       raise e).

(** The two requests the scanner publishes: the alert on a list of issues,
    and the alert on a scan that failed with [e]. *)
Definition issues_alert (topic : str) (issues_list : list str) : PublishInput :=
  {| TopicArn := topic; Subject := subject;
     Message := message_intro ++ message_body issues_list ++ message_footer |}.

Definition failure_alert (topic : str) (e : exn) : PublishInput :=
  {| TopicArn := topic;
     Subject := warning_sign ++ py " Security Scan FAILED";
     Message :=
       py "The scheduled security scan encountered a critical error and could not complete:"
       ++ newline ++ newline ++ str_of_exn e |}.

(** The classification of the specification (section 4.4), resource by
    resource.  A bucket: no encryption configuration, one issue; a first
    rule whose default algorithm is not the key-management one, one issue
    naming the algorithm; otherwise none.  A table: no encryption-status
    descriptor or a status other than the enabled one, one issue; otherwise
    none.  An inspection that fails otherwise contributes no issue. *)
Definition bucket_issues (bucket_name : str) : list Issue :=
  match s3_get_bucket_encryption bucket_name with
  | Ok encryption =>
      match Rules encryption with
      | {| ApplyServerSideEncryptionByDefault := Some by_default |} :: _ =>
          if bool_decide (SSEAlgorithm by_default = py "aws:kms") then []
          else [{| name := bucket_name;
                   reason := py "is not encrypted with a KMS key (uses default "
                             ++ SSEAlgorithm by_default ++ py " encryption)." |}]
      | _ => []
      end
  | Raise (ClientError code _) =>
      if bool_decide (code = py "ServerSideEncryptionConfigurationNotFoundError")
      then [{| name := bucket_name;
               reason := py "has no encryption configuration at all." |}]
      else []
  | Raise _ => []
  end.

Definition table_issues (table_name : str) : list str :=
  match dynamodb_describe_table table_name with
  | Ok {| SSEDescription := Some sse_desc |} =>
      if bool_decide (sse_desc !! py "Status" = Some (py "ENABLED")) then []
      else [table_name]
  | Ok {| SSEDescription := None |} => [table_name]
  | Raise _ => []
  end.

(** The inspections the per-resource handlers deal with: an answer with a
    first rule that has a default-encryption block, or a [ClientError]. *)
Definition inspectable_bucket (bucket : Bucket) : Prop :=
  match s3_get_bucket_encryption (Name bucket) with
  | Ok encryption =>
      exists by_default rest,
        Rules encryption
        = {| ApplyServerSideEncryptionByDefault := Some by_default |} :: rest
  | Raise e => is_ClientError e = true
  end.

Definition inspectable_table (table_name : str) : Prop :=
  match dynamodb_describe_table table_name with
  | Ok _ => True
  | Raise e => is_ClientError e = true
  end.

End Handler.

End lambda_security_monitor.

(** ** Collaborators for the worked examples

    A plain JSON renderer, a clock, and collaborators that accept every
    request: the instances at which the examples below run the handlers. *)

Module Fixtures.

Definition quote : str := [34%N].

Fixpoint dumps (j : json) : str :=
  match j with
  | JStr s => quote ++ s ++ quote
  | JInt z => str_of_int z
  | JList l => py "[" ++ join (py ", ") (map dumps l) ++ py "]"
  | JDict l =>
      py "{"
      ++ join (py ", ")
           (map (fun kv => quote ++ fst kv ++ quote ++ py ": " ++ dumps (snd kv)) l)
      ++ py "}"
  end.

Definition dumps_dict (d : gmap str str) : str :=
  dumps (JDict (map (fun kv => (fst kv, JStr (snd kv))) (map_to_list d))).

Definition utcnow_isoformat (n : nat) : str :=
  py "2025-01-01T00:00:0" ++ str_of_int (Z.of_nat n).

Definition trigger_environ : gmap str str :=
  {[ py "STATE_MACHINE_ARN" :=
       py "arn:aws:states:eu-central-1:123456789012:stateMachine:test" ]}.

(** An orchestrator that starts every execution asked for. *)
Definition start_execution_ok
    (calls : list (lambda_trigger.StartExecutionInput * res str))
    (request : lambda_trigger.StartExecutionInput) : res str :=
  Ok (py "arn:aws:states:eu-central-1:123456789012:execution:test:"
      ++ str_of_int (len calls)).

Definition trigger_world : lambda_trigger.World :=
  {| lambda_trigger.sfn_calls := []; lambda_trigger.clock := 0;
     lambda_trigger.log := [] |}.

Definition trigger_handler (event : lambda_trigger.Event)
  : res lambda_trigger.Response * lambda_trigger.World :=
  lambda_trigger.handler dumps trigger_environ utcnow_isoformat
    start_execution_ok event trigger_world.

Definition traversal_record : lambda_trigger.S3EventRecord :=
  {| lambda_trigger.s3_bucket_name := py "test-bucket";
     lambda_trigger.s3_object_key := py "../../../etc/passwd";
     lambda_trigger.eventTime := py "2025-01-01T00:00:00Z" |}.

Definition report_record : lambda_trigger.S3EventRecord :=
  {| lambda_trigger.s3_bucket_name := py "test-bucket";
     lambda_trigger.s3_object_key := py "reports/q1.csv";
     lambda_trigger.eventTime := py "2025-01-01T00:00:00Z" |}.

(** A process of the Writer with its table name set, an empty table, and a
    store without faults. *)
Definition writer_environ : gmap str str :=
  {[ py "TABLE_NAME" := py "test-table" ]}.

Definition no_fault (stored : list (gmap str str)) (item : gmap str str)
  : option exn := None.

Definition writer_world : lambda_writer.World :=
  {| lambda_writer.dynamodb := None; lambda_writer.table := None;
     lambda_writer.items := []; lambda_writer.clock := 0;
     lambda_writer.log := [] |}.

Definition writer_handler (event : gmap str str) (w : lambda_writer.World)
  : res lambda_writer.Response * lambda_writer.World :=
  lambda_writer.handler dumps_dict dumps_dict writer_environ utcnow_isoformat
    no_fault event w.

Definition report_event : gmap str str :=
  list_to_map [(py "bucket", py "test-bucket");
               (py "key", py "reports/q1.csv");
               (py "timestamp", py "2025-01-01T00:00:00");
               (py "event_time", py "2025-01-01T00:00:00Z")].

(** The same key and timestamp again, as a retry delivers them. *)
Definition retry_event : gmap str str :=
  list_to_map [(py "bucket", py "test-bucket");
               (py "key", py "reports/q1.csv");
               (py "timestamp", py "2025-01-01T00:00:00")].

Definition traversal_event : gmap str str :=
  list_to_map [(py "bucket", py "test-bucket");
               (py "key", py "../../../etc/passwd");
               (py "timestamp", py "2025-01-01T00:00:00")].

Definition keyless_event : gmap str str :=
  list_to_map [(py "bucket", py "test-bucket");
               (py "timestamp", py "2025-01-01T00:00:00")].

(** A scanner with its topic set, one bucket on [AES256], one table without
    [SSEDescription], and a channel that accepts every message.  Two more
    buckets and one more table fail on inspection: one bucket with a
    [ClientError], one with a connection error raised by the SDK, the table
    with a [ClientError]. *)
Definition monitor_environ : gmap str str :=
  {[ py "SNS_TOPIC_ARN" := py "arn:aws:sns:eu-central-1:123456789012:test" ]}.

Definition aes256_bucket : lambda_security_monitor.Bucket :=
  {| lambda_security_monitor.Name := py "non-compliant-bucket" |}.

Definition denied_bucket : lambda_security_monitor.Bucket :=
  {| lambda_security_monitor.Name := py "denied-bucket" |}.

Definition unreachable_bucket : lambda_security_monitor.Bucket :=
  {| lambda_security_monitor.Name := py "unreachable-bucket" |}.

Definition access_denied : exn :=
  ClientError (py "AccessDenied")
    (py "An error occurred (AccessDenied) when calling the GetBucketEncryption operation: Access Denied").

Definition connection_error : exn :=
  BotoCoreError (py "Could not connect to the endpoint URL").

Definition get_bucket_encryption (bucket_name : str)
  : res lambda_security_monitor.GetBucketEncryptionOutput :=
  if bool_decide (bucket_name = py "denied-bucket") then Raise access_denied
  else if bool_decide (bucket_name = py "unreachable-bucket") then
    Raise connection_error
  else
    Ok {| lambda_security_monitor.Rules :=
            [{| lambda_security_monitor.ApplyServerSideEncryptionByDefault :=
                  Some {| lambda_security_monitor.SSEAlgorithm := py "AES256" |}
             |}] |}.

Definition list_buckets (buckets : list lambda_security_monitor.Bucket)
  : res lambda_security_monitor.ListBucketsOutput :=
  Ok {| lambda_security_monitor.Buckets := Some buckets |}.

Definition throttled : exn :=
  ClientError (py "ThrottlingException")
    (py "An error occurred (ThrottlingException) when calling the DescribeTable operation: Rate exceeded").

Definition describe_table (table_name : str)
  : res lambda_security_monitor.DescribeTableOutput :=
  if bool_decide (table_name = py "throttled-table") then Raise throttled
  else Ok {| lambda_security_monitor.SSEDescription := None |}.

Definition list_tables (table_names : list str)
  : res lambda_security_monitor.ListTablesOutput :=
  Ok {| lambda_security_monitor.TableNames := Some table_names |}.

Definition publish_ok
    (calls : list (lambda_security_monitor.PublishInput * res str))
    (request : lambda_security_monitor.PublishInput) : res str :=
  Ok (py "12345").

Definition channel_down : exn :=
  ClientError (py "InternalError")
    (py "An error occurred (InternalError) when calling the Publish operation: Internal error").

Definition publish_down
    (calls : list (lambda_security_monitor.PublishInput * res str))
    (request : lambda_security_monitor.PublishInput) : res str :=
  Raise channel_down.

Definition monitor_world : lambda_security_monitor.World :=
  {| lambda_security_monitor.sns_calls := [];
     lambda_security_monitor.log := [] |}.

Definition monitor_handler (buckets : list lambda_security_monitor.Bucket)
    (table_names : list str)
  : res lambda_security_monitor.Response * lambda_security_monitor.World :=
  lambda_security_monitor.handler dumps monitor_environ
    (list_buckets buckets) get_bucket_encryption
    (list_tables table_names) describe_table publish_ok monitor_world.

End Fixtures.

(** ** The workflow input as the Writer's event

    The dict [lambda_trigger] serialises for the state machine, read back
    as the event of [lambda_writer]: the string fields of a JSON object, a
    later field with the same name replacing an earlier one. *)

Definition as_event (j : json) : gmap str str :=
  match j with
  | JDict fields =>
      foldl (fun event field =>
               match snd field with
               | JStr s => <[fst field := s]> event
               | _ => event
               end) ∅ fields
  | _ => ∅
  end.

(** ** Collaborators that fail

    An orchestrator that runs out of executions after the first, a store
    that is out of capacity, answers on a bucket's encryption that carry
    no rule or no default-encryption block, and a table the scan cannot
    reach. *)

Module Scenarios.

Definition execution_limit : exn :=
  ClientError (py "ExecutionLimitExceeded")
    (py "An error occurred (ExecutionLimitExceeded) when calling the StartExecution operation: Maximum number of running executions reached").

Definition start_execution_once
    (calls : list (lambda_trigger.StartExecutionInput * res str))
    (request : lambda_trigger.StartExecutionInput) : res str :=
  if (length calls =? 1)%nat then Raise execution_limit
  else Fixtures.start_execution_ok calls request.

Definition invoice_record : lambda_trigger.S3EventRecord :=
  {| lambda_trigger.s3_bucket_name := py "test-bucket";
     lambda_trigger.s3_object_key := py "invoices/2025/01.pdf";
     lambda_trigger.eventTime := py "2025-01-01T00:00:05Z" |}.

(** An input of the Writer without [timestamp] and [event_time]. *)
Definition unstamped_event : gmap str str :=
  list_to_map [(py "bucket", py "test-bucket");
               (py "key", py "reports/q1.csv")].

Definition out_of_capacity : exn :=
  ClientError (py "ProvisionedThroughputExceededException")
    (py "An error occurred (ProvisionedThroughputExceededException) when calling the PutItem operation: The level of configured provisioned throughput for the table was exceeded").

Definition store_out_of_capacity (stored : list (gmap str str))
    (item : gmap str str) : option exn :=
  Some out_of_capacity.

Definition ruleless_bucket : lambda_security_monitor.Bucket :=
  {| lambda_security_monitor.Name := py "ruleless-bucket" |}.

Definition blockless_bucket : lambda_security_monitor.Bucket :=
  {| lambda_security_monitor.Name := py "blockless-bucket" |}.

Definition get_bucket_encryption (bucket_name : str)
  : res lambda_security_monitor.GetBucketEncryptionOutput :=
  if bool_decide (bucket_name = py "ruleless-bucket") then
    Ok {| lambda_security_monitor.Rules := [] |}
  else if bool_decide (bucket_name = py "blockless-bucket") then
    Ok {| lambda_security_monitor.Rules :=
            [{| lambda_security_monitor.ApplyServerSideEncryptionByDefault :=
                  None |}] |}
  else Fixtures.get_bucket_encryption bucket_name.

Definition describe_table (table_name : str)
  : res lambda_security_monitor.DescribeTableOutput :=
  if bool_decide (table_name = py "unreachable-table") then
    Raise Fixtures.connection_error
  else Fixtures.describe_table table_name.

End Scenarios.

(** * Proofs *)

(** ** Facts about the string primitives and the identifier rules *)

Section StrFacts.

Lemma startswith_spec (s prefix : str) :
  startswith s prefix = true <-> exists t, s = prefix ++ t.
Proof.
  revert s; induction prefix as [|p prefix IH]; intros s; simpl.
  - split; [intros _; by exists s | done].
  - destruct s as [|c s]; simpl.
    + split; [done | intros [t Ht]; discriminate].
    + rewrite andb_true_iff, N.eqb_eq, IH. split.
      * intros [-> [t ->]]. by exists t.
      * intros [t Ht]. injection Ht as -> ->. split; [done | by exists t].
Qed.

Lemma contains_spec (sub s : str) :
  contains sub s = true <-> exists a b, s = a ++ sub ++ b.
Proof.
  induction s as [|c s IH]; simpl.
  - rewrite orb_false_r, startswith_spec. split.
    + intros [t Ht]. by exists [], t.
    + intros (a & b & Hab). destruct a; [by exists b | discriminate].
  - rewrite orb_true_iff, startswith_spec, IH. split.
    + intros [[t Ht] | (a & b & ->)].
      * by exists [], t.
      * by exists (c :: a), b.
    + intros (a & b & Hab). destruct a as [|c' a]; simpl in Hab.
      * left. by exists b.
      * right. injection Hab as -> ->. by exists a, b.
Qed.

Lemma contains_singleton (c : N) (s : str) :
  contains [c] s = true <-> In c s.
Proof.
  rewrite contains_spec. split.
  - intros (a & b & ->). apply in_or_app. right. by left.
  - intros Hin. apply in_split in Hin as (a & b & ->). by exists a, b.
Qed.

Lemma lstrip_nil (s : str) :
  lstrip s = [] <-> Forall (fun c => isspace c = true) s.
Proof.
  induction s as [|c s IH]; simpl.
  - split; [constructor | done].
  - destruct (isspace c) eqn:Hc.
    + rewrite IH. split; [by constructor | by inversion 1].
    + split; [done | inversion 1; congruence].
Qed.

Lemma lstrip_Forall (s : str) :
  Forall (fun c => isspace c = true) s -> lstrip s = [].
Proof. apply lstrip_nil. Qed.

Lemma lstrip_suffix (s : str) : exists a, s = a ++ lstrip s /\
  Forall (fun c => isspace c = true) a.
Proof.
  induction s as [|c s (a & Ha & Hsp)]; simpl.
  - by exists [].
  - destruct (isspace c) eqn:Hc.
    + exists (c :: a). split; [simpl; congruence | by constructor].
    + by exists [].
Qed.

Lemma strip_nil (s : str) :
  strip s = [] <-> Forall (fun c => isspace c = true) s.
Proof.
  unfold strip, rstrip. split.
  - intros H. apply (f_equal (@rev N)) in H. rewrite rev_involutive in H.
    simpl in H. apply lstrip_nil in H.
    destruct (lstrip_suffix s) as (a & Ha & Hsp).
    rewrite Ha. apply Forall_app. split; [done|].
    apply List.Forall_forall. intros c Hc.
    rewrite List.Forall_forall in H. apply H. by apply in_rev in Hc.
  - intros H. apply lstrip_Forall in H. by rewrite H.
Qed.

Lemma tests_unsafe (s : str) :
  traversal_test s || null_test s || length_test s || empty_test s = true
  <-> unsafe_identifier s.
Proof.
  unfold traversal_test, null_test, length_test, empty_test, unsafe_identifier.
  rewrite !orb_true_iff, !contains_spec, startswith_spec.
  assert (Hlen : (len s >? 1024)%Z = true <-> (1024 < length s)%nat)
    by (unfold len; rewrite Z.gtb_lt; lia).
  assert (Hnull : (exists a b, s = a ++ [0%N] ++ b) <-> In 0%N s)
    by (rewrite <- contains_spec; apply contains_singleton).
  assert (Hemp : not_ s = true <-> s = []) by (destruct s; simpl; split; done).
  assert (Hws : not_ (strip s) = true <-> whitespace_only s).
  { unfold whitespace_only. rewrite <- strip_nil.
    destruct (strip s); simpl; split; done. }
  rewrite Hlen, Hnull, Hemp, Hws. tauto.
Qed.

End StrFacts.

(** ** The two validators *)

Section Validators.

(** What [validate_s3_key] does, by the outcome of the four tests. *)
Lemma validate_s3_key_run (key : str) (w : lambda_trigger.World) :
  if traversal_test key || null_test key || length_test key || empty_test key
  then exists msg, lambda_trigger.validate_s3_key key w = (Raise (ValueError msg), w)
  else lambda_trigger.validate_s3_key key w
       = (Ok true, emit (INFO, py "Key validation passed: " ++ key) w).
Proof.
  unfold lambda_trigger.validate_s3_key, traversal_test, null_test,
    length_test, empty_test.
  destruct (contains (py "..") key || startswith key (py "/")); cbn [orb];
    [by eexists|].
  destruct (contains [0%N] key); cbn [orb]; [by eexists|].
  destruct (len key >? 1024)%Z; cbn [orb]; [by eexists|].
  destruct (not_ key || not_ (strip key)); cbn [orb]; [by eexists | done].
Qed.

(** What [validate_filename] does, by the outcome of the same tests. *)
Lemma validate_filename_run (filename : str) (w : lambda_writer.World) :
  if traversal_test filename || null_test filename || length_test filename
     || empty_test filename
  then exists msg,
      lambda_writer.validate_filename filename w = (Raise (ValueError msg), w)
  else lambda_writer.validate_filename filename w
       = (Ok true, emit (INFO, py "Filename validation passed: " ++ filename) w).
Proof.
  unfold lambda_writer.validate_filename, traversal_test, null_test,
    length_test, empty_test.
  destruct (not_ filename || not_ (strip filename)); cbn [orb].
  { rewrite ?orb_true_r; cbn [orb]. by eexists. }
  destruct (len filename >? 1024)%Z; cbn [orb].
  { rewrite ?orb_true_r; cbn [orb]. by eexists. }
  destruct (contains (py "..") filename || startswith filename (py "/")); cbn [orb];
    [by eexists|].
  destruct (contains [0%N] filename); cbn [orb]; [by eexists | done].
Qed.

Lemma validate_s3_key_unsafe (key : str) (w : lambda_trigger.World) :
  unsafe_identifier key ->
  exists msg, lambda_trigger.validate_s3_key key w = (Raise (ValueError msg), w).
Proof.
  intros H%tests_unsafe. pose proof (validate_s3_key_run key w) as Hrun.
  by rewrite H in Hrun.
Qed.

Lemma validate_s3_key_safe (key : str) (w : lambda_trigger.World) :
  ~ unsafe_identifier key ->
  lambda_trigger.validate_s3_key key w
  = (Ok true, emit (INFO, py "Key validation passed: " ++ key) w).
Proof.
  intros H. pose proof (validate_s3_key_run key w) as Hrun.
  rewrite <- tests_unsafe in H. apply not_true_is_false in H.
  by rewrite H in Hrun.
Qed.

Lemma validate_filename_unsafe (filename : str) (w : lambda_writer.World) :
  unsafe_identifier filename ->
  exists msg,
    lambda_writer.validate_filename filename w = (Raise (ValueError msg), w).
Proof.
  intros H%tests_unsafe. pose proof (validate_filename_run filename w) as Hrun.
  by rewrite H in Hrun.
Qed.

Lemma validate_filename_safe (filename : str) (w : lambda_writer.World) :
  ~ unsafe_identifier filename ->
  lambda_writer.validate_filename filename w
  = (Ok true, emit (INFO, py "Filename validation passed: " ++ filename) w).
Proof.
  intros H. pose proof (validate_filename_run filename w) as Hrun.
  rewrite <- tests_unsafe in H. apply not_true_is_false in H.
  by rewrite H in Hrun.
Qed.

Lemma unsafe_identifier_dec (s : str) :
  unsafe_identifier s \/ ~ unsafe_identifier s.
Proof.
  rewrite <- tests_unsafe.
  destruct (traversal_test s || null_test s || length_test s || empty_test s);
    [by left | by right].
Qed.

(** C3.  The Dispatch validator rejects an identifier, with a [ValueError],
    exactly when it is empty or whitespace-only, longer than 1024
    characters, contains [..], begins with [/] or contains a null
    character; it accepts, returning [True], exactly when none of these
    holds; and it has no effect on the world beyond the log: no call to the
    orchestrator, no clock read. *)
Theorem validate_s3_key_rejects_exactly_unsafe
    (key : str) (w : lambda_trigger.World) :
  ((exists msg, (lambda_trigger.validate_s3_key key w).1 = Raise (ValueError msg))
   <-> unsafe_identifier key) /\
  ((lambda_trigger.validate_s3_key key w).1 = Ok true
   <-> ~ unsafe_identifier key) /\
  lambda_trigger.sfn_calls (lambda_trigger.validate_s3_key key w).2
  = lambda_trigger.sfn_calls w /\
  lambda_trigger.clock (lambda_trigger.validate_s3_key key w).2
  = lambda_trigger.clock w.
Proof.
  destruct (unsafe_identifier_dec key) as [Hu | Hs].
  - destruct (validate_s3_key_unsafe key w Hu) as [msg ->]. simpl.
    repeat split; try done. by exists msg.
  - rewrite (validate_s3_key_safe key w Hs). simpl.
    repeat split; try done. by intros [msg ?].
Qed.

(** C6.  The Dispatch stage's key validator and the Metadata Writer's
    filename validator reject the same strings: on every string, in every
    world, one raises exactly when the other does, and what is raised is a
    [ValueError] in both. *)
Theorem validators_agree
    (s : str) (wt : lambda_trigger.World) (ww : lambda_writer.World) :
  raised (lambda_trigger.validate_s3_key s wt).1
  = raised (lambda_writer.validate_filename s ww).1 /\
  ((lambda_trigger.validate_s3_key s wt).1 = Ok true
   <-> (lambda_writer.validate_filename s ww).1 = Ok true) /\
  ((exists msg, (lambda_trigger.validate_s3_key s wt).1 = Raise (ValueError msg))
   <-> (exists msg,
          (lambda_writer.validate_filename s ww).1 = Raise (ValueError msg))).
Proof.
  destruct (unsafe_identifier_dec s) as [Hu | Hs].
  - destruct (validate_s3_key_unsafe s wt Hu) as [m1 ->].
    destruct (validate_filename_unsafe s ww Hu) as [m2 ->]. simpl.
    repeat split; try done; intros _; by eexists.
  - rewrite (validate_s3_key_safe s wt Hs), (validate_filename_safe s ww Hs).
    simpl. repeat split; try done; by intros [msg ?].
Qed.

End Validators.

(** ** Loops *)

Lemma for_in_app {S X L} (xs ys : list X) (body : X -> L -> M S L)
    (locals : L) (w : S) :
  for_in (xs ++ ys) body locals w
  = bind (for_in xs body locals) (for_in ys body) w.
Proof.
  revert locals w; induction xs as [|x xs IH]; intros locals w; [reflexivity|].
  cbn [for_in app]. unfold bind.
  destruct (body x locals w) as [[l | e] w1]; [|done].
  rewrite IH. done.
Qed.

(** ** The Dispatch stage *)

Section Dispatch.

Import lambda_trigger.

Variable json_dumps : json -> str.
Variable environ : gmap str str.
Variable utcnow_isoformat : nat -> str.
Variable stepfunctions_start_execution :
  list (StartExecutionInput * res str) -> StartExecutionInput -> res str.

#[local] Abbreviation handler_record :=
  (handler_record json_dumps environ utcnow_isoformat
     stepfunctions_start_execution).
#[local] Abbreviation handler :=
  (handler json_dumps environ utcnow_isoformat stepfunctions_start_execution).
#[local] Abbreviation execution_request := (execution_request json_dumps).
#[local] Abbreviation execution_requests :=
  (execution_requests json_dumps utcnow_isoformat).

Lemma length_execution_requests (arn : str) (n : nat)
    (records : list S3EventRecord) :
  length (execution_requests arn n records) = length records.
Proof.
  revert n; induction records as [|record records IH]; intros n; cbn;
    [done | by rewrite IH].
Qed.

Lemma handler_record_valid (record : S3EventRecord) (execution_arns : list str)
    (arn : str) (w : World) :
  environ !! py "STATE_MACHINE_ARN" = Some arn ->
  (forall calls request,
      raised (stepfunctions_start_execution calls request) = false) ->
  ~ unsafe_identifier (s3_object_key record) ->
  exists execution_arn w',
    handler_record record execution_arns w
    = (Ok (execution_arns ++ [execution_arn]), w') /\
    sfn_calls w'
    = sfn_calls w
      ++ [(execution_request arn record (utcnow_isoformat (clock w)),
           Ok execution_arn)] /\
    clock w' = S (clock w).
Proof.
  intros Henv Hsfn Hsafe.
  unfold lambda_trigger.handler_record, bind.
  unfold logger_info at 1.
  rewrite (validate_s3_key_safe _ _ Hsafe).
  unfold datetime_now_isoformat, lift, getitem. rewrite Henv.
  unfold start_execution, emit, World_logger. cbn [sfn_calls clock log].
  match goal with
  | |- context [stepfunctions_start_execution ?c ?r] =>
      pose proof (Hsfn c r) as Hok;
      destruct (stepfunctions_start_execution c r) as [a | e]; [|done]
  end.
  unfold logger_info, ret, emit, World_logger. cbn [sfn_calls clock log].
  eexists _, _. split; [reflexivity|]. done.
Qed.

Lemma handler_record_unsafe (record : S3EventRecord)
    (execution_arns : list str) (w : World) :
  unsafe_identifier (s3_object_key record) ->
  exists msg w',
    handler_record record execution_arns w = (Raise (ValueError msg), w') /\
    sfn_calls w' = sfn_calls w /\ clock w' = clock w.
Proof.
  intros Hunsafe.
  unfold lambda_trigger.handler_record, bind.
  unfold logger_info at 1.
  match goal with
  | |- context [validate_s3_key ?k ?w0] =>
      destruct (validate_s3_key_unsafe k w0 Hunsafe) as [msg ->]
  end.
  by eexists _, _.
Qed.

(** A run of records with safe keys, on an orchestrator that accepts every
    request: one execution is started per record, in order, and the local
    [execution_arns] grows by their handles. *)
Lemma for_in_valid (records : list S3EventRecord) (arn : str) :
  environ !! py "STATE_MACHINE_ARN" = Some arn ->
  (forall calls request,
      raised (stepfunctions_start_execution calls request) = false) ->
  Forall (fun record => ~ unsafe_identifier (s3_object_key record)) records ->
  forall (execution_arns : list str) (w : World),
  exists arns w',
    for_in records handler_record execution_arns w
    = (Ok (execution_arns ++ arns), w') /\
    sfn_calls w'
    = sfn_calls w ++ zip (execution_requests arn (clock w) records)
                         (map Ok arns) /\
    clock w' = (clock w + length records)%nat /\
    length arns = length records.
Proof.
  intros Henv Hsfn Hsafe.
  induction Hsafe as [|record records Hrec _ IH]; intros execution_arns w.
  - exists [], w. cbn. rewrite !app_nil_r. repeat split; lia.
  - destruct (handler_record_valid record execution_arns arn w Henv Hsfn Hrec)
      as (a & w1 & Hrun & Hcalls & Hclock).
    destruct (IH (execution_arns ++ [a]) w1) as (arns & w2 & Hrest & Hc2 & Hk2 & Hlen).
    exists (a :: arns), w2. cbn [for_in]. unfold bind. rewrite Hrun, Hrest.
    rewrite <- app_assoc. split; [done|].
    rewrite Hc2, Hcalls, Hk2, Hclock, <- app_assoc. cbn.
    repeat split; try done; lia.
Qed.

(** A batch whose keys are all safe: the result lists the handle of every
    execution started, one per notification. *)
Lemma handler_all_valid (records : list S3EventRecord) (arn : str) (w : World) :
  environ !! py "STATE_MACHINE_ARN" = Some arn ->
  (forall calls request,
      raised (stepfunctions_start_execution calls request) = false) ->
  Forall (fun record => ~ unsafe_identifier (s3_object_key record)) records ->
  exists arns w',
    handler {| Records := records |} w
    = (Ok {| statusCode := 200;
             body := json_dumps
               (JDict [(py "message",
                        JStr (py "Successfully triggered Step Functions"));
                       (py "executions", JList (map JStr arns))]) |}, w') /\
    sfn_calls w'
    = sfn_calls w ++ zip (execution_requests arn (clock w) records)
                         (map Ok arns) /\
    length arns = length records.
Proof.
  intros Henv Hsfn Hsafe.
  unfold lambda_trigger.handler, try_except, bind. unfold logger_info at 1.
  cbn [Records].
  match goal with
  | |- context [for_in records _ [] ?w0] =>
      destruct (for_in_valid records arn Henv Hsfn Hsafe [] w0)
        as (arns & w1 & -> & Hcalls & _ & Hlen)
  end.
  exists arns, w1. unfold ret. cbn [app]. by repeat split.
Qed.

(** C1, as the code has it.  The handler takes the notifications in order
    and halts at the first one whose key fails validation: an execution is
    started for each notification before it and for none after it, and the
    result has status 200 with the message "Validation failed, pipeline
    halted" and no list of execution handles.  Stated for a configured
    state machine and an orchestrator that accepts every request. *)
Theorem handler_halts_at_first_invalid_key
    (pre post : list S3EventRecord) (bad : S3EventRecord) (arn : str)
    (w : World) :
  environ !! py "STATE_MACHINE_ARN" = Some arn ->
  (forall calls request,
      raised (stepfunctions_start_execution calls request) = false) ->
  Forall (fun record => ~ unsafe_identifier (s3_object_key record)) pre ->
  unsafe_identifier (s3_object_key bad) ->
  exists msg arns w',
    handler {| Records := pre ++ bad :: post |} w
    = (Ok {| statusCode := 200;
             body := json_dumps
               (JDict [(py "message",
                        JStr (py "Validation failed, pipeline halted: "
                              ++ msg))]) |}, w') /\
    sfn_calls w'
    = sfn_calls w ++ zip (execution_requests arn (clock w) pre) (map Ok arns) /\
    length arns = length pre /\
    length (started w') = (length (started w) + length pre)%nat.
Proof.
  intros Henv Hsfn Hpre Hbad.
  unfold lambda_trigger.handler, try_except, bind. unfold logger_info at 1.
  cbn [Records]. rewrite for_in_app. unfold bind.
  match goal with
  | |- context [for_in pre _ [] ?w0] =>
      destruct (for_in_valid pre arn Henv Hsfn Hpre [] w0)
        as (arns & w1 & -> & Hcalls & _ & Hlen)
  end.
  cbn [for_in app]. unfold bind.
  destruct (handler_record_unsafe bad arns w1 Hbad) as (msg & w2 & -> & Hc2 & _).
  exists msg, arns. eexists. unfold logger_error, ret.
  split; [reflexivity|].
  assert (Hfinal : sfn_calls (emit (ERROR, py "Validation error: " ++ msg
             ++ py ". Pipeline execution halted gracefully.") w2)
           = sfn_calls w
             ++ zip (execution_requests arn (clock w) pre) (map Ok arns)).
  { unfold emit, World_logger in *. cbn [sfn_calls] in *. by rewrite Hc2, Hcalls. }
  split; [exact Hfinal|]. split; [done|].
  unfold started. cbn [str_of_exn]. rewrite Hfinal.
  rewrite List.filter_app, length_app. f_equal.
  rewrite forallb_filter_id;
    [rewrite length_zip, length_map, length_execution_requests; lia|].
  apply forallb_forall. intros [request answer] Hin.
  apply in_combine_r in Hin. apply in_map_iff in Hin as (a & <- & _).
  reflexivity.
Qed.

End Dispatch.

(** The halting theorem at a batch of one valid notification followed by
    one invalid notification. *)
Lemma handler_halts_at_first_invalid_key_witness :
  exists msg arns w',
    lambda_trigger.handler Fixtures.dumps Fixtures.trigger_environ
      Fixtures.utcnow_isoformat Fixtures.start_execution_ok
      {| lambda_trigger.Records :=
           [Fixtures.report_record] ++ Fixtures.traversal_record :: [] |}
      Fixtures.trigger_world
    = (Ok {| lambda_trigger.statusCode := 200;
             lambda_trigger.body := Fixtures.dumps
               (JDict [(py "message",
                        JStr (py "Validation failed, pipeline halted: "
                              ++ msg))]) |}, w') /\
    lambda_trigger.sfn_calls w'
    = lambda_trigger.sfn_calls Fixtures.trigger_world
      ++ zip (lambda_trigger.execution_requests Fixtures.dumps
                Fixtures.utcnow_isoformat
                (py "arn:aws:states:eu-central-1:123456789012:stateMachine:test")
                (lambda_trigger.clock Fixtures.trigger_world)
                [Fixtures.report_record])
             (map Ok arns) /\
    length arns = length [Fixtures.report_record] /\
    length (lambda_trigger.started w')
    = (length (lambda_trigger.started Fixtures.trigger_world)
       + length [Fixtures.report_record])%nat.
Proof.
  apply (handler_halts_at_first_invalid_key Fixtures.dumps
           Fixtures.trigger_environ Fixtures.utcnow_isoformat
           Fixtures.start_execution_ok
           [Fixtures.report_record] [] Fixtures.traversal_record
           (py "arn:aws:states:eu-central-1:123456789012:stateMachine:test") Fixtures.trigger_world).
  - vm_compute. reflexivity.
  - intros calls request. reflexivity.
  - constructor; [|constructor].
    intros H. apply tests_unsafe in H. vm_compute in H. discriminate H.
  - apply tests_unsafe. vm_compute. reflexivity.
Defined.

(** C1 fails on the code.  With the invalid notification first, no execution
    is started at all; with the valid notification first, one execution is
    started but the result does not list its handle.  In both orders the
    body is only the "Validation failed, pipeline halted" message. *)
Lemma dispatch_batch_counterexample :
  let halted :=
    Ok {| lambda_trigger.statusCode := 200;
          lambda_trigger.body := Fixtures.dumps
            (JDict [(py "message",
                     JStr (py "Validation failed, pipeline halted: Invalid key path (path traversal attempt): ../../../etc/passwd"))]) |} in
  let invalid_first :=
    Fixtures.trigger_handler
      {| lambda_trigger.Records :=
           [Fixtures.traversal_record; Fixtures.report_record] |} in
  let valid_first :=
    Fixtures.trigger_handler
      {| lambda_trigger.Records :=
           [Fixtures.report_record; Fixtures.traversal_record] |} in
  invalid_first.1 = halted /\
  lambda_trigger.started invalid_first.2 = [] /\
  length (lambda_trigger.started invalid_first.2) <> 1%nat /\
  valid_first.1 = halted /\
  map snd (lambda_trigger.started valid_first.2)
  = [Ok (py "arn:aws:states:eu-central-1:123456789012:execution:test:0")].
Proof.
  vm_compute. repeat split; try reflexivity. discriminate.
Qed.

(** ** The Metadata Writer *)

Section Writer.

Import lambda_writer.

Variable json_dumps : gmap str str -> str.
Variable dict_str : gmap str str -> str.
Variable environ : gmap str str.
Variable utcnow_isoformat : nat -> str.
Variable store_fault : list (gmap str str) -> gmap str str -> option exn.

#[local] Abbreviation handler :=
  (handler json_dumps dict_str environ utcnow_isoformat store_fault).
#[local] Abbreviation get_dynamodb_table := (get_dynamodb_table environ).
#[local] Abbreviation configured := (configured environ).
#[local] Abbreviation invocations :=
  (invocations json_dumps dict_str environ utcnow_isoformat store_fault).

Lemma primary_key_metadata_item (f t b e : str) :
  primary_key (metadata_item f t b e) = (Some f, Some t).
Proof. vm_compute. reflexivity. Qed.

(** *** The store *)

Lemma eval_condition_None (c : Condition) : eval_condition c None = true.
Proof. induction c as [a | c1 IH1 c2 IH2]; cbn; [done | by rewrite IH1, IH2]. Qed.

Lemma find_same_key_None (item : gmap str str) (stored : list (gmap str str)) :
  List.find (same_key item) stored = None <->
  Forall (fun old => primary_key old <> primary_key item) stored.
Proof.
  induction stored as [|old stored IH]; cbn.
  - split; [constructor | done].
  - unfold same_key at 1. destruct (bool_decide_reflect
      (primary_key item = primary_key old)) as [Heq | Hne].
    + split; [done | inversion 1; congruence].
    + rewrite IH. split; [by constructor | by inversion 1].
Qed.

Lemma filter_other_keys (item : gmap str str) (stored : list (gmap str str)) :
  List.find (same_key item) stored = None ->
  List.filter (fun old => negb (same_key item old)) stored = stored.
Proof.
  induction stored as [|old stored IH]; cbn; [done|].
  destruct (same_key item old); [done|]. cbn. intros H. by rewrite IH.
Qed.

(** On a table that holds no record of the item's key, the put appends. *)
Lemma conditional_put_absent (stored : list (gmap str str))
    (item : gmap str str) (c : Condition) :
  List.find (same_key item) stored = None ->
  conditional_put stored item c = (Ok tt, stored ++ [item]).
Proof.
  intros Hnone. unfold conditional_put.
  by rewrite Hnone, eval_condition_None, filter_other_keys.
Qed.

(** On a table that holds a record of the item's key, the handler's
    condition fails and the table is left as it is. *)
Lemma conditional_put_present (stored : list (gmap str str))
    (f t b e : str) (old : gmap str str) :
  List.find (same_key (metadata_item f t b e)) stored = Some old ->
  exists msg,
    conditional_put stored (metadata_item f t b e) not_exists
    = (Raise (ClientError (py "ConditionalCheckFailedException") msg), stored).
Proof.
  intros Hold. unfold conditional_put. rewrite Hold.
  apply find_some in Hold as [_ Hkey]. unfold same_key in Hkey.
  apply bool_decide_eq_true in Hkey.
  rewrite primary_key_metadata_item in Hkey. unfold primary_key in Hkey.
  injection Hkey as Hf Ht.
  unfold not_exists. cbn [eval_condition]. rewrite <- Hf.
  rewrite bool_decide_eq_false_2 by done. cbn [andb]. by eexists.
Qed.

(** A put, whatever its condition and outcome, keeps the keys distinct. *)
Lemma conditional_put_unique_keys (stored : list (gmap str str))
    (item : gmap str str) (c : Condition) :
  unique_keys stored -> unique_keys (conditional_put stored item c).2.
Proof.
  unfold unique_keys, conditional_put. intros Hnd.
  destruct (eval_condition c _); cbn [snd]; [|done].
  rewrite map_app. cbn [map]. apply NoDup_app. repeat split.
  - clear -Hnd. induction stored as [|old stored IH]; cbn; [constructor|].
    apply NoDup_cons in Hnd as [Hnotin Hnd].
    destruct (negb (same_key item old)); cbn; [|by apply IH].
    apply NoDup_cons. split; [|by apply IH].
    intros Hin. apply Hnotin.
    apply list_elem_of_In, in_map_iff in Hin as (x & Hx & Hin).
    apply filter_In in Hin as [Hin _].
    apply list_elem_of_In, in_map_iff. by exists x.
  - intros k Hin Hk. apply list_elem_of_In in Hk as [<- | []].
    apply list_elem_of_In, in_map_iff in Hin as (x & Hx & Hin).
    apply filter_In in Hin as [_ Hneg].
    unfold same_key in Hneg. apply negb_true_iff, bool_decide_eq_false in Hneg.
    congruence.
  - apply NoDup_singleton.
Qed.

(** *** The handler *)

Lemma get_dynamodb_table_ok (w : World) :
  configured w ->
  exists t w0,
    get_dynamodb_table w = (Ok t, w0) /\ items w0 = items w /\
    clock w0 = clock w /\ table w0 = Some t.
Proof.
  unfold lambda_writer.configured, lambda_writer.get_dynamodb_table, getitem.
  intros [[t Ht] | [t Ht]].
  - rewrite Ht. by exists t, w.
  - destruct (table w) as [t'|] eqn:Et; [by exists t', w|].
    rewrite Ht. by eexists _, _.
Qed.

Lemma get_dynamodb_table_frame (w : World) :
  items (get_dynamodb_table w).2 = items w /\
  clock (get_dynamodb_table w).2 = clock w /\
  log (get_dynamodb_table w).2 = log w.
Proof.
  unfold lambda_writer.get_dynamodb_table, getitem.
  destruct (table w); [done|]. by destruct (environ !! py "TABLE_NAME").
Qed.

(** A well-formed input with a safe key, on a store without faults: the
    outcome is decided by whether the table holds a record of the key. *)
Lemma handler_run (event : gmap str str) (w : World) (f b : str) :
  configured w ->
  event !! py "key" = Some f ->
  event !! py "bucket" = Some b ->
  ~ unsafe_identifier f ->
  let ts := default (utcnow_isoformat (clock w)) (event !! py "timestamp") in
  let item := metadata_item f ts b (default ts (event !! py "event_time")) in
  store_fault (items w) item = None ->
  exists w',
    configured w' /\
    match List.find (same_key item) (items w) with
    | None =>
        handler event w
        = (Ok {| statusCode := 200; filename := f; timestamp := ts;
                 bucket := Some b;
                 message := py "Successfully written to DynamoDB" |}, w') /\
        items w' = items w ++ [item]
    | Some _ =>
        handler event w
        = (Ok {| statusCode := 409; filename := f; timestamp := ts;
                 bucket := None;
                 message := py "Duplicate entry - item already exists" |}, w') /\
        items w' = items w
    end.
Proof.
  intros Hcfg Hkey Hbucket Hsafe ts item Hfault.
  destruct (get_dynamodb_table_ok w Hcfg)
    as (t & w0 & Hget & Hitems & Hclock & Htable).
  assert (Hcfg' : forall d i k l,
             configured {| dynamodb := d; table := table w0; items := i;
                           clock := k; log := l |}).
  { intros. left. cbn [table]. by rewrite Htable. }
  subst item ts. unfold metadata_item in *.
  destruct (List.find _ (items w)) as [old|] eqn:Hfind;
    unfold lambda_writer.handler, try_except, bind;
    rewrite Hget; unfold logger_info at 1, lift, getitem;
    rewrite Hkey; unfold datetime_now_isoformat;
    unfold emit, World_logger; cbn [items clock log table dynamodb];
    rewrite Hbucket, (validate_filename_safe _ _ Hsafe);
    unfold logger_info at 1, emit, World_logger;
    cbn [items clock log table dynamodb];
    unfold put_item; cbn [items clock log table dynamodb];
    rewrite Hitems, Hclock, Hfault.
  - destruct (conditional_put_present _ f _ b _ old Hfind) as [msg Hput].
    unfold metadata_item, not_exists in Hput. rewrite Hput.
    rewrite bool_decide_eq_true_2 by done.
    unfold logger_warning, ret, emit, World_logger.
    cbn [items clock log table dynamodb].
    eexists. split; [apply Hcfg'|]. split; reflexivity.
  - pose proof (conditional_put_absent _ _ not_exists Hfind) as Hput.
    unfold not_exists in Hput. rewrite Hput.
    unfold logger_info, ret, emit, World_logger.
    cbn [items clock log table dynamodb].
    eexists. split; [apply Hcfg'|]. split; reflexivity.
Qed.

(** The outcomes of an invocation, whatever the input, the world and the
    faults of the store: it raises or returns 409, and the table is as it
    was; or it returns 200 for the key it was given, and the table is what a
    successful put of the item under the condition makes of it. *)
Lemma handler_cases (event : gmap str str) (w w' : World)
    (r : res Response) :
  handler event w = (r, w') ->
  let ts := default (utcnow_isoformat (clock w)) (event !! py "timestamp") in
  (exists e, r = Raise e /\ items w' = items w) \/
  (exists f,
      event !! py "key" = Some f /\
      r = Ok {| statusCode := 409; filename := f; timestamp := ts;
                bucket := None;
                message := py "Duplicate entry - item already exists" |} /\
      items w' = items w) \/
  (exists f b,
      event !! py "key" = Some f /\
      r = Ok {| statusCode := 200; filename := f; timestamp := ts;
                bucket := Some b;
                message := py "Successfully written to DynamoDB" |} /\
      conditional_put (items w)
        (metadata_item f ts b (default ts (event !! py "event_time")))
        not_exists
      = (Ok tt, items w')).
Proof.
  intros Hrun ts. subst ts.
  unfold lambda_writer.handler, try_except, bind in Hrun.
  pose proof (get_dynamodb_table_frame w) as (Hitems & Hclock & _).
  destruct (get_dynamodb_table w) as [[t | e] w0]; cbn [snd] in Hitems, Hclock.
  2: { left. destruct e; injection Hrun as <- <-; eexists; by split. }
  unfold logger_info at 1, lift, getitem in Hrun.
  destruct (event !! py "key") as [f|];
    [|left; injection Hrun as <- <-; eexists; by split].
  unfold datetime_now_isoformat, emit, World_logger in Hrun.
  cbn [items clock log table dynamodb] in Hrun.
  destruct (event !! py "bucket") as [b|];
    [|left; injection Hrun as <- <-; eexists; by split].
  match type of Hrun with
  | context [validate_filename f ?w1] =>
      pose proof (validate_filename_run f w1) as Hval
  end.
  destruct (_ || _) in Hval.
  { destruct Hval as [msg Hval]. rewrite Hval in Hrun.
    left. injection Hrun as <- <-. eexists; by split. }
  rewrite Hval in Hrun. unfold logger_info at 1, emit, World_logger in Hrun.
  cbn [items clock log table dynamodb] in Hrun.
  unfold put_item in Hrun. cbn [items clock log table dynamodb] in Hrun.
  rewrite Hitems, Hclock in Hrun.
  destruct (store_fault _ _) as [e|].
  { destruct e as [| | |code msg|];
      try (left; injection Hrun as <- <-; eexists; by split).
    destruct (bool_decide (code = _)).
    - right; left. injection Hrun as <- <-. exists f. by repeat split.
    - left. injection Hrun as <- <-. eexists; by split. }
  unfold metadata_item, not_exists.
  destruct (conditional_put _ _ _) as [[[] | e] stored] eqn:Hput.
  - right; right. injection Hrun as <- <-. exists f, b. by repeat split.
  - pose proof Hput as Hsame. unfold conditional_put in Hsame.
    destruct (eval_condition _ _); [done|]. injection Hsame as <- <-.
    rewrite bool_decide_eq_true_2 in Hrun by done.
    right; left. injection Hrun as <- <-. exists f. by repeat split.
Qed.

Lemma conditional_put_ok (stored stored' : list (gmap str str))
    (f t b e : str) :
  conditional_put stored (metadata_item f t b e) not_exists = (Ok tt, stored') ->
  List.find (same_key (metadata_item f t b e)) stored = None /\
  stored' = stored ++ [metadata_item f t b e].
Proof.
  intros Hput.
  destruct (List.find (same_key (metadata_item f t b e)) stored)
    as [old|] eqn:Hfind.
  - destruct (conditional_put_present _ _ _ _ _ _ Hfind) as [msg Hraise].
    congruence.
  - rewrite (conditional_put_absent _ _ not_exists Hfind) in Hput.
    by injection Hput as <-.
Qed.

(** A record, once in the table, stays: an invocation removes no key. *)
Lemma handler_keeps_keys (event : gmap str str) (w : World)
    (k : option str * option str) :
  In k (map primary_key (items w)) ->
  In k (map primary_key (items (handler event w).2)).
Proof.
  intros Hin. destruct (handler event w) as [r w'] eqn:Hrun. cbn [snd].
  destruct (handler_cases _ _ _ _ Hrun)
    as [(e & _ & ->) | [(f & _ & _ & ->) | (f & b & _ & _ & Hput)]];
    [done | done |].
  apply conditional_put_ok in Hput as [_ ->].
  rewrite map_app. apply in_or_app. by left.
Qed.

Lemma invocations_keep_keys (events : list (gmap str str)) (w : World)
    (k : option str * option str) :
  In k (map primary_key (items w)) ->
  In k (map primary_key (items (invocations events w))).
Proof.
  revert w; induction events as [|event events IH]; intros w Hin; [done|].
  cbn [lambda_writer.invocations]. by apply IH, handler_keeps_keys.
Qed.

(** An invocation that returns 200 leaves a record of its key in the
    table. *)
Lemma written_present (event : gmap str str) (w w' : World) (r : Response) :
  handler event w = (Ok r, w') ->
  statusCode r = 200%Z ->
  In (Some (filename r), Some (timestamp r)) (map primary_key (items w')).
Proof.
  intros Hrun Hstatus.
  destruct (handler_cases _ _ _ _ Hrun)
    as [(e & ? & _) | [(f & _ & Hr & _) | (f & b & _ & Hr & Hput)]];
    [done | |]; injection Hr as ->; [done|].
  apply conditional_put_ok in Hput as [_ ->]. cbn [filename timestamp].
  rewrite map_app. apply in_or_app. right. left.
  apply primary_key_metadata_item.
Qed.

(** An invocation on a key the table holds does not return 200. *)
Lemma present_rejected (event : gmap str str) (w w' : World) (r : Response)
    (f ts : str) :
  event !! py "key" = Some f ->
  event !! py "timestamp" = Some ts ->
  In (Some f, Some ts) (map primary_key (items w)) ->
  handler event w = (Ok r, w') ->
  statusCode r = 409%Z.
Proof.
  intros Hkey Hts Hin Hrun.
  destruct (handler_cases _ _ _ _ Hrun)
    as [(e & ? & _) | [(f' & _ & Hr & _) | (f' & b & Hkey' & Hr & Hput)]];
    [done | by injection Hr as -> |].
  exfalso. rewrite Hts in Hput. cbn [default from_option id] in Hput.
  assert (f' = f) as -> by congruence.
  apply conditional_put_ok in Hput as [Hnone _].
  apply find_same_key_None in Hnone.
  rewrite primary_key_metadata_item in Hnone.
  apply in_map_iff in Hin as (old & Hold & Hin).
  rewrite List.Forall_forall in Hnone. by apply (Hnone old Hin).
Qed.

(** Never two Written: once an invocation has returned 200 for a key, no
    later invocation of the process that carries that key returns 200,
    whatever was invoked in between and whatever the store's faults. *)
Lemma never_two_written (e1 e2 : gmap str str) (between : list (gmap str str))
    (w w1 w2 : World) (r1 r2 : Response) :
  handler e1 w = (Ok r1, w1) ->
  statusCode r1 = 200%Z ->
  e2 !! py "key" = Some (filename r1) ->
  e2 !! py "timestamp" = Some (timestamp r1) ->
  handler e2 (invocations between w1) = (Ok r2, w2) ->
  statusCode r2 = 409%Z.
Proof.
  intros Hrun1 Hstatus Hkey Hts Hrun2.
  eapply present_rejected; [exact Hkey | exact Hts | | exact Hrun2].
  by apply invocations_keep_keys, (written_present e1 w).
Qed.

(** Whatever the input, the world and the store's faults, an invocation
    keeps the keys of the table distinct. *)
Lemma handler_unique_keys (event : gmap str str) (w : World) :
  unique_keys (items w) -> unique_keys (items (handler event w).2).
Proof.
  intros Hnd.
  unfold lambda_writer.handler, try_except, bind.
  pose proof (get_dynamodb_table_frame w) as [Hitems _].
  destruct (get_dynamodb_table w) as [[t | e] w0]; cbn [snd] in Hitems.
  2: { destruct e; cbn; by rewrite Hitems. }
  unfold logger_info at 1, lift, getitem.
  destruct (event !! py "key") as [f|]; [|cbn; by rewrite Hitems].
  unfold datetime_now_isoformat, emit, World_logger.
  cbn [items clock log table dynamodb].
  destruct (event !! py "bucket") as [b|]; [|cbn; by rewrite Hitems].
  match goal with
  | |- context [validate_filename f ?w1] =>
      pose proof (validate_filename_run f w1) as Hval
  end.
  destruct (_ || _) in Hval.
  { destruct Hval as [msg ->]. cbn. by rewrite Hitems. }
  rewrite Hval. unfold logger_info at 1, emit, World_logger.
  cbn [items clock log table dynamodb].
  unfold put_item. cbn [items clock log table dynamodb].
  destruct (store_fault _ _) as [e|].
  { destruct e as [| | |code msg|]; try (cbn; by rewrite Hitems).
    destruct (bool_decide (code = _)); cbn; by rewrite Hitems. }
  match goal with
  | |- context [conditional_put ?s ?i ?c] =>
      pose proof (conditional_put_unique_keys s i c) as Hput;
      destruct (conditional_put s i c) as [[[] | e] stored]
  end; cbn [snd] in Hput; rewrite Hitems in Hput.
  - cbn. by apply Hput.
  - destruct e as [| | |code msg|]; try (cbn; by apply Hput).
    destruct (bool_decide (code = _)); cbn; by apply Hput.
Qed.

Lemma invocations_unique_keys (events : list (gmap str str)) (w : World) :
  unique_keys (items w) -> unique_keys (items (invocations events w)).
Proof.
  revert w; induction events as [|event events IH]; intros w Hnd; [done|].
  cbn [lambda_writer.invocations]. by apply IH, handler_unique_keys.
Qed.

(** C2.  Two invocations that carry the same ([Filename],
    [UploadTimestamp]) key, a safe filename and a bucket, run one after the
    other on a store without faults whose table does not hold the key yet:
    the first returns status 200 and appends its record, the second returns
    status 409 and leaves the table as the first left it, whichever of the
    two inputs comes first.  And whatever the inputs and the store's
    faults: after any sequence of invocations the keys of the table are
    still distinct, at most one record per ([Filename], [UploadTimestamp]);
    and once an invocation has returned 200 for a key, no later invocation
    that carries the key returns 200. *)
Theorem writer_idempotent (e1 e2 : gmap str str) (f ts b1 b2 : str) (w : World) :
  configured w ->
  (forall stored item, store_fault stored item = None) ->
  e1 !! py "key" = Some f -> e1 !! py "timestamp" = Some ts ->
  e1 !! py "bucket" = Some b1 ->
  e2 !! py "key" = Some f -> e2 !! py "timestamp" = Some ts ->
  e2 !! py "bucket" = Some b2 ->
  ~ unsafe_identifier f ->
  Forall (fun old => primary_key old <> (Some f, Some ts)) (items w) ->
  (exists w1 w2,
      handler e1 w
      = (Ok {| statusCode := 200; filename := f; timestamp := ts;
               bucket := Some b1;
               message := py "Successfully written to DynamoDB" |}, w1) /\
      handler e2 w1
      = (Ok {| statusCode := 409; filename := f; timestamp := ts;
               bucket := None;
               message := py "Duplicate entry - item already exists" |}, w2) /\
      items w1
      = items w ++ [metadata_item f ts b1 (default ts (e1 !! py "event_time"))] /\
      items w2 = items w1) /\
  (exists w1 w2,
      handler e2 w
      = (Ok {| statusCode := 200; filename := f; timestamp := ts;
               bucket := Some b2;
               message := py "Successfully written to DynamoDB" |}, w1) /\
      handler e1 w1
      = (Ok {| statusCode := 409; filename := f; timestamp := ts;
               bucket := None;
               message := py "Duplicate entry - item already exists" |}, w2) /\
      items w1
      = items w ++ [metadata_item f ts b2 (default ts (e2 !! py "event_time"))] /\
      items w2 = items w1) /\
  (forall events w0,
      unique_keys (items w0) -> unique_keys (items (invocations events w0))) /\
  (forall ea eb between wa wb wc ra rb,
      handler ea wa = (Ok ra, wb) -> statusCode ra = 200%Z ->
      eb !! py "key" = Some (filename ra) ->
      eb !! py "timestamp" = Some (timestamp ra) ->
      handler eb (invocations between wb) = (Ok rb, wc) ->
      statusCode rb = 409%Z).
Proof.
  intros Hcfg Hfault Hk1 Ht1 Hb1 Hk2 Ht2 Hb2 Hsafe Habsent.
  assert (Hpair : forall ea eb ba bb,
    ea !! py "key" = Some f -> ea !! py "timestamp" = Some ts ->
    ea !! py "bucket" = Some ba ->
    eb !! py "key" = Some f -> eb !! py "timestamp" = Some ts ->
    eb !! py "bucket" = Some bb ->
    exists w1 w2,
      handler ea w
      = (Ok {| statusCode := 200; filename := f; timestamp := ts;
               bucket := Some ba;
               message := py "Successfully written to DynamoDB" |}, w1) /\
      handler eb w1
      = (Ok {| statusCode := 409; filename := f; timestamp := ts;
               bucket := None;
               message := py "Duplicate entry - item already exists" |}, w2) /\
      items w1
      = items w ++ [metadata_item f ts ba (default ts (ea !! py "event_time"))] /\
      items w2 = items w1).
  { intros ea eb ba bb Hka Hta Hba Hkb Htb Hbb.
    destruct (handler_run ea w f ba Hcfg Hka Hba Hsafe (Hfault _ _))
      as (w1 & Hcfg1 & Hrun1).
    rewrite Hta in Hrun1. cbn [default from_option id] in Hrun1.
    rewrite (proj2 (find_same_key_None _ _)) in Hrun1.
    2: { by rewrite primary_key_metadata_item. }
    destruct Hrun1 as [Hrun1 Hitems1].
    destruct (handler_run eb w1 f bb Hcfg1 Hkb Hbb Hsafe (Hfault _ _))
      as (w2 & _ & Hrun2).
    rewrite Htb in Hrun2. cbn [default from_option id] in Hrun2.
    destruct (List.find _ (items w1)) as [old|] eqn:Hfind.
    - destruct Hrun2 as [Hrun2 Hitems2]. by exists w1, w2.
    - exfalso. apply find_same_key_None in Hfind.
      rewrite Hitems1, Forall_app, Forall_singleton in Hfind.
      destruct Hfind as [_ Hlast].
      by rewrite !primary_key_metadata_item in Hlast. }
  split; [by apply (Hpair e1 e2 b1 b2)|].
  split; [by apply (Hpair e2 e1 b2 b1)|].
  split; [intros events w0; apply invocations_unique_keys|].
  intros ea eb between wa wb wc ra rb. apply never_two_written.
Qed.

(** C8.  An input whose key fails filename validation: the invocation
    raises and writes nothing; and when the process can reach its table and
    the input carries a bucket, what is raised is the validator's
    [ValueError], logged as a validation error and raised again. *)
Theorem handler_surfaces_invalid_key (event : gmap str str) (f : str)
    (w : World) :
  event !! py "key" = Some f ->
  unsafe_identifier f ->
  (exists e w', handler event w = (Raise e, w') /\ items w' = items w) /\
  (configured w /\ is_Some (event !! py "bucket") ->
   exists msg w',
     handler event w = (Raise (ValueError msg), w') /\ items w' = items w /\
     last (log w') = Some (ERROR, py "Validation error: " ++ msg)).
Proof.
  intros Hkey Hunsafe.
  assert (Hgen : forall t w0 b,
    get_dynamodb_table w = (Ok t, w0) -> event !! py "bucket" = Some b ->
    exists msg w',
      handler event w = (Raise (ValueError msg), w') /\ items w' = items w0 /\
      last (log w') = Some (ERROR, py "Validation error: " ++ msg)).
  { intros t w0 b Hget Hbucket.
    unfold lambda_writer.handler, try_except, bind. rewrite Hget.
    unfold logger_info at 1, lift, getitem. rewrite Hkey.
    unfold datetime_now_isoformat, emit, World_logger.
    cbn [items clock log table dynamodb]. rewrite Hbucket.
    match goal with
    | |- context [validate_filename f ?w1] =>
        destruct (validate_filename_unsafe f w1 Hunsafe) as [msg ->]
    end.
    exists msg. eexists. unfold logger_error, raise, emit, World_logger.
    split; [reflexivity|]. cbn [items log str_of_exn].
    split; [done | by rewrite last_snoc]. }
  pose proof (get_dynamodb_table_frame w) as [Hitems _].
  split.
  - destruct (get_dynamodb_table w) as [[t | e] w0] eqn:Hget;
      cbn [snd] in Hitems.
    + destruct (event !! py "bucket") as [b|] eqn:Hbucket.
      * destruct (Hgen t w0 b eq_refl eq_refl) as (msg & w' & Hrun & Hi & _).
        exists (ValueError msg), w'. split; [done | congruence].
      * unfold lambda_writer.handler, try_except, bind. rewrite Hget.
        unfold logger_info at 1, lift, getitem. rewrite Hkey.
        unfold datetime_now_isoformat, emit, World_logger.
        cbn [items clock log table dynamodb]. rewrite Hbucket.
        eexists _, _. split; [reflexivity|]. by cbn.
    + unfold lambda_writer.handler, try_except, bind. rewrite Hget.
      exists e. destruct e; eexists; (split; [reflexivity|]); by cbn.
  - intros [Hcfg [b Hbucket]].
    destruct (get_dynamodb_table_ok w Hcfg) as (t & w0 & Hget & Hi0 & _).
    destruct (Hgen t w0 b Hget Hbucket) as (msg & w' & Hrun & Hi & Hlog).
    exists msg, w'. repeat split; [done | congruence | done].
Qed.

(** C10.  An input without the [key] field or without the [bucket] field:
    the invocation raises a [KeyError], handled by the catch-all clause
    (logged as an unexpected error, not as a validation error) and raised
    again, whether or not the key is safe; the table is as it was.  When
    the process can reach its table the missing field named is [key] if
    that is absent, else [bucket], and the log gains two records only, the
    event received and the unexpected error: the validator and the store
    were not reached. *)
Theorem handler_missing_field (event : gmap str str) (w : World) :
  event !! py "key" = None \/ event !! py "bucket" = None ->
  exists k w',
    handler event w = (Raise (KeyError k), w') /\
    items w' = items w /\
    last (log w')
    = Some (ERROR, py "Unexpected error writing to DynamoDB: "
                   ++ str_of_exn (KeyError k)) /\
    (k = py "TABLE_NAME" \/ k = py "key" \/ k = py "bucket") /\
    (configured w ->
     k = match event !! py "key" with
         | None => py "key"
         | Some _ => py "bucket"
         end /\
     log w'
     = log w ++ [(INFO, py "Received event: " ++ json_dumps event);
                 (ERROR, py "Unexpected error writing to DynamoDB: "
                         ++ str_of_exn (KeyError k))]).
Proof.
  intros Hmissing.
  pose proof (get_dynamodb_table_frame w) as (Hitems & _ & Hlog).
  unfold lambda_writer.handler, try_except, bind.
  destruct (get_dynamodb_table w) as [[t | e] w0] eqn:Hget;
    cbn [snd] in Hitems, Hlog.
  - unfold logger_info at 1, lift, getitem.
    destruct (event !! py "key") as [f|] eqn:Hkey.
    + destruct Hmissing as [? | Hbucket]; [done|].
      unfold datetime_now_isoformat, emit, World_logger.
      cbn [items clock log table dynamodb]. rewrite Hbucket.
      eexists _, _. split; [reflexivity|].
      unfold logger_error, raise, emit, World_logger. cbn [items log].
      split; [done|]. split; [by rewrite last_snoc|]. split; [tauto|].
      intros _. split; [done|]. by rewrite Hlog, <- app_assoc.
    + eexists _, _. split; [reflexivity|].
      unfold logger_error, raise, emit, World_logger. cbn [items log].
      split; [done|]. split; [by rewrite last_snoc|]. split; [tauto|].
      intros _. split; [done|]. by rewrite Hlog, <- app_assoc.
  - unfold lambda_writer.get_dynamodb_table, getitem in Hget.
    destruct (table w) eqn:Htable; [done|].
    destruct (environ !! py "TABLE_NAME") eqn:Henv; [done|].
    injection Hget as <- <-.
    eexists _, _. split; [reflexivity|].
    unfold logger_error, raise, emit, World_logger. cbn [items log].
    split; [done|]. split; [by rewrite last_snoc|]. split; [tauto|].
    intros [[? Ht] | [? He]]; congruence.
Qed.

End Writer.

(** The idempotence theorem at the report and its retry, on an empty table. *)
Lemma writer_idempotent_witness :
  exists w1 w2,
    Fixtures.writer_handler Fixtures.report_event Fixtures.writer_world
    = (Ok {| lambda_writer.statusCode := 200;
             lambda_writer.filename := py "reports/q1.csv";
             lambda_writer.timestamp := py "2025-01-01T00:00:00";
             lambda_writer.bucket := Some (py "test-bucket");
             lambda_writer.message := py "Successfully written to DynamoDB" |},
       w1) /\
    Fixtures.writer_handler Fixtures.retry_event w1
    = (Ok {| lambda_writer.statusCode := 409;
             lambda_writer.filename := py "reports/q1.csv";
             lambda_writer.timestamp := py "2025-01-01T00:00:00";
             lambda_writer.bucket := None;
             lambda_writer.message :=
               py "Duplicate entry - item already exists" |}, w2) /\
    lambda_writer.items w1
    = lambda_writer.items Fixtures.writer_world
      ++ [lambda_writer.metadata_item (py "reports/q1.csv")
            (py "2025-01-01T00:00:00") (py "test-bucket")
            (default (py "2025-01-01T00:00:00")
               (Fixtures.report_event !! py "event_time"))] /\
    lambda_writer.items w2 = lambda_writer.items w1.
Proof.
  refine (proj1 (writer_idempotent Fixtures.dumps_dict Fixtures.dumps_dict
    Fixtures.writer_environ Fixtures.utcnow_isoformat Fixtures.no_fault
    Fixtures.report_event Fixtures.retry_event
    (py "reports/q1.csv") (py "2025-01-01T00:00:00")
    (py "test-bucket") (py "test-bucket") Fixtures.writer_world
    _ _ _ _ _ _ _ _ _ _)).
  - right. exists (py "test-table"). vm_compute. reflexivity.
  - intros stored item. reflexivity.
  - vm_compute. reflexivity.
  - vm_compute. reflexivity.
  - vm_compute. reflexivity.
  - vm_compute. reflexivity.
  - vm_compute. reflexivity.
  - vm_compute. reflexivity.
  - intros H. apply tests_unsafe in H. vm_compute in H. discriminate H.
  - constructor.
Defined.

(** The theorem on invalid keys at a traversal key. *)
Lemma handler_surfaces_invalid_key_witness :
  exists e w',
    Fixtures.writer_handler Fixtures.traversal_event Fixtures.writer_world
    = (Raise e, w') /\
    lambda_writer.items w' = lambda_writer.items Fixtures.writer_world.
Proof.
  refine (proj1 (handler_surfaces_invalid_key Fixtures.dumps_dict
    Fixtures.dumps_dict Fixtures.writer_environ Fixtures.utcnow_isoformat
    Fixtures.no_fault Fixtures.traversal_event (py "../../../etc/passwd")
    Fixtures.writer_world _ _)).
  - vm_compute. reflexivity.
  - apply tests_unsafe. vm_compute. reflexivity.
Defined.

(** The theorem on missing fields at an input without [key]. *)
Lemma handler_missing_field_witness :
  exists k w',
    Fixtures.writer_handler Fixtures.keyless_event Fixtures.writer_world
    = (Raise (KeyError k), w') /\
    lambda_writer.items w' = lambda_writer.items Fixtures.writer_world /\
    last (lambda_writer.log w')
    = Some (ERROR, py "Unexpected error writing to DynamoDB: "
                   ++ str_of_exn (KeyError k)) /\
    (k = py "TABLE_NAME" \/ k = py "key" \/ k = py "bucket") /\
    (lambda_writer.configured Fixtures.writer_environ Fixtures.writer_world ->
     k = match Fixtures.keyless_event !! py "key" with
         | None => py "key"
         | Some _ => py "bucket"
         end /\
     lambda_writer.log w'
     = lambda_writer.log Fixtures.writer_world
       ++ [(INFO, py "Received event: "
                  ++ Fixtures.dumps_dict Fixtures.keyless_event);
           (ERROR, py "Unexpected error writing to DynamoDB: "
                   ++ str_of_exn (KeyError k))]).
Proof.
  refine (handler_missing_field Fixtures.dumps_dict Fixtures.dumps_dict
    Fixtures.writer_environ Fixtures.utcnow_isoformat Fixtures.no_fault
    Fixtures.keyless_event Fixtures.writer_world _).
  left. vm_compute. reflexivity.
Defined.

(** ** The Compliance Scanner *)

Section Scanner.

Import lambda_security_monitor.

Variable json_dumps : json -> str.
Variable environ : gmap str str.
Variable s3_list_buckets : res ListBucketsOutput.
Variable s3_get_bucket_encryption : str -> res GetBucketEncryptionOutput.
Variable dynamodb_list_tables : res ListTablesOutput.
Variable dynamodb_describe_table : str -> res DescribeTableOutput.
Variable sns_publish : list (PublishInput * res str) -> PublishInput -> res str.

#[local] Abbreviation check_bucket := (check_bucket s3_get_bucket_encryption).
#[local] Abbreviation check_table := (check_table dynamodb_describe_table).
#[local] Abbreviation check_s3_encryption :=
  (check_s3_encryption s3_list_buckets s3_get_bucket_encryption).
#[local] Abbreviation check_dynamodb_encryption :=
  (check_dynamodb_encryption dynamodb_list_tables dynamodb_describe_table).
#[local] Abbreviation send_alert := (send_alert environ sns_publish).
#[local] Abbreviation scan :=
  (scan json_dumps environ s3_list_buckets s3_get_bucket_encryption
     dynamodb_list_tables dynamodb_describe_table sns_publish).
#[local] Abbreviation handler :=
  (handler json_dumps environ s3_list_buckets s3_get_bucket_encryption
     dynamodb_list_tables dynamodb_describe_table sns_publish).
#[local] Abbreviation bucket_issues := (bucket_issues s3_get_bucket_encryption).
#[local] Abbreviation table_issues := (table_issues dynamodb_describe_table).
#[local] Abbreviation inspectable_bucket :=
  (inspectable_bucket s3_get_bucket_encryption).
#[local] Abbreviation inspectable_table :=
  (inspectable_table dynamodb_describe_table).

(** Unfolds one step of monadic code and its logging. *)
Ltac run :=
  unfold try_except, bind, lift, ret, raise, logger_info, logger_warning,
    logger_error, emit, World_logger;
  cbn [sns_calls log fst snd].

(** *** One bucket *)

(** C5, buckets and tables.  Examining one bucket, at any point of a scan:
    a first rule whose default algorithm is [aws:kms] adds no issue; any
    other algorithm adds exactly one issue, which names the bucket and the
    algorithm; the not-found error for the encryption configuration adds
    exactly one issue, which names the bucket, with the no-configuration
    reason.  Examining one table: a description whose [SSEDescription] has
    status [ENABLED] adds no issue; a missing [SSEDescription], a missing
    status or any other status adds exactly one issue, the table's name.
    In each case the examination returns normally and publishes nothing. *)
Theorem scanner_classifies_resources (bucket : Bucket) (s3_issues : list Issue)
    (table_name : str) (unencrypted_tables : list str) (w : World) :
  (forall encryption by_default rest,
      s3_get_bucket_encryption (Name bucket) = Ok encryption ->
      Rules encryption
      = {| ApplyServerSideEncryptionByDefault := Some by_default |} :: rest ->
      (SSEAlgorithm by_default = py "aws:kms" ->
       exists w', check_bucket bucket s3_issues w = (Ok s3_issues, w') /\
                  sns_calls w' = sns_calls w) /\
      (SSEAlgorithm by_default <> py "aws:kms" ->
       exists w',
         check_bucket bucket s3_issues w
         = (Ok (s3_issues ++
                [{| name := Name bucket;
                    reason := py "is not encrypted with a KMS key (uses default "
                              ++ SSEAlgorithm by_default
                              ++ py " encryption)." |}]), w') /\
         sns_calls w' = sns_calls w)) /\
  (forall msg,
      s3_get_bucket_encryption (Name bucket)
      = Raise (ClientError
                 (py "ServerSideEncryptionConfigurationNotFoundError") msg) ->
      exists w',
        check_bucket bucket s3_issues w
        = (Ok (s3_issues ++
               [{| name := Name bucket;
                   reason := py "has no encryption configuration at all." |}]),
           w') /\
        sns_calls w' = sns_calls w) /\
  (forall sse_desc,
      dynamodb_describe_table table_name
      = Ok {| SSEDescription := Some sse_desc |} ->
      sse_desc !! py "Status" = Some (py "ENABLED") ->
      exists w',
        check_table table_name unencrypted_tables w
        = (Ok unencrypted_tables, w') /\
        sns_calls w' = sns_calls w) /\
  (forall sse_desc,
      dynamodb_describe_table table_name = Ok {| SSEDescription := sse_desc |} ->
      (sse_desc ≫= fun d => d !! py "Status") <> Some (py "ENABLED") ->
      exists w',
        check_table table_name unencrypted_tables w
        = (Ok (unencrypted_tables ++ [table_name]), w') /\
        sns_calls w' = sns_calls w).
Proof.
  split; [|split; [|split]].
  - intros encryption by_default rest Hget Hrules. split.
    + intros Hkms. unfold lambda_security_monitor.check_bucket. run.
      rewrite Hget, Hrules.
      cbn [first_rule default_encryption ApplyServerSideEncryptionByDefault].
      rewrite bool_decide_eq_true_2 by done. cbn [negb]. by eexists.
    + intros Hother. unfold lambda_security_monitor.check_bucket. run.
      rewrite Hget, Hrules.
      cbn [first_rule default_encryption ApplyServerSideEncryptionByDefault].
      rewrite bool_decide_eq_false_2 by done. cbn [negb]. by eexists.
  - intros msg Hnf. unfold lambda_security_monitor.check_bucket. run.
    rewrite Hnf. rewrite bool_decide_eq_true_2 by done. by eexists.
  - intros sse_desc Hdesc Hstatus.
    unfold lambda_security_monitor.check_table. run.
    rewrite Hdesc. cbn [SSEDescription not_dict mbind option_bind].
    rewrite Hstatus.
    rewrite (bool_decide_eq_false_2 (sse_desc = ∅)).
    2: { intros ->. by rewrite lookup_empty in Hstatus. }
    rewrite bool_decide_eq_true_2 by done. cbn [negb orb]. by eexists.
  - intros sse_desc Hdesc Hstatus.
    unfold lambda_security_monitor.check_table. run.
    rewrite Hdesc. cbn [SSEDescription].
    rewrite (bool_decide_eq_false_2 _ Hstatus). cbn [negb].
    rewrite orb_true_r. by eexists.
Qed.

(** *** The loops *)

(** Examining an inspectable bucket returns normally, adds the issues of
    the classification, and publishes nothing. *)
Lemma check_bucket_inspectable (bucket : Bucket) (s3_issues : list Issue)
    (w : World) :
  inspectable_bucket bucket ->
  exists w',
    check_bucket bucket s3_issues w
    = (Ok (s3_issues ++ bucket_issues (Name bucket)), w') /\
    sns_calls w' = sns_calls w.
Proof.
  unfold lambda_security_monitor.inspectable_bucket,
    lambda_security_monitor.bucket_issues,
    lambda_security_monitor.check_bucket.
  run.
  destruct (s3_get_bucket_encryption (Name bucket)) as [encryption | e].
  - intros (by_default & rest & ->).
    cbn [first_rule default_encryption ApplyServerSideEncryptionByDefault].
    destruct (bool_decide (SSEAlgorithm by_default = py "aws:kms"));
      cbn [negb]; rewrite ?app_nil_r; by eexists.
  - destruct e as [| | |code msg|]; try done. intros _.
    destruct (bool_decide (code = _)); rewrite ?app_nil_r; by eexists.
Qed.

Lemma check_table_inspectable (table_name : str)
    (unencrypted_tables : list str) (w : World) :
  inspectable_table table_name ->
  exists w',
    check_table table_name unencrypted_tables w
    = (Ok (unencrypted_tables ++ table_issues table_name), w') /\
    sns_calls w' = sns_calls w.
Proof.
  unfold lambda_security_monitor.inspectable_table,
    lambda_security_monitor.table_issues,
    lambda_security_monitor.check_table.
  run.
  destruct (dynamodb_describe_table table_name) as [[sse_desc] | e].
  - intros _. cbn [SSEDescription]. destruct sse_desc as [d|].
    + cbn [not_dict mbind option_bind].
      destruct (bool_decide_reflect (d !! py "Status" = Some (py "ENABLED")))
        as [Hen | Hne].
      * rewrite (bool_decide_eq_false_2 (d = ∅)).
        2: { intros ->. by rewrite lookup_empty in Hen. }
        cbn [negb orb]. rewrite app_nil_r. by eexists.
      * cbn [negb]. rewrite orb_true_r. by eexists.
    + cbn [not_dict orb]. by eexists.
  - destruct e as [| | |code msg|]; try done. intros _.
    rewrite app_nil_r. by eexists.
Qed.

(** A loop over inspectable buckets returns normally with the issues of the
    classification, in the order of the enumeration. *)
Lemma for_in_buckets (buckets : list Bucket) :
  Forall inspectable_bucket buckets ->
  forall (s3_issues : list Issue) (w : World),
  exists w',
    for_in buckets check_bucket s3_issues w
    = (Ok (s3_issues ++ flat_map (fun b => bucket_issues (Name b)) buckets),
       w') /\
    sns_calls w' = sns_calls w.
Proof.
  induction 1 as [|bucket buckets Hb _ IH]; intros s3_issues w.
  - exists w. cbn. by rewrite app_nil_r.
  - destruct (check_bucket_inspectable bucket s3_issues w Hb)
      as (w1 & Hrun & Hcalls).
    destruct (IH (s3_issues ++ bucket_issues (Name bucket)) w1)
      as (w2 & Hrest & Hcalls2).
    exists w2. cbn [for_in flat_map]. unfold bind. rewrite Hrun, Hrest.
    rewrite <- app_assoc. split; [done | congruence].
Qed.

Lemma for_in_tables (table_names : list str) :
  Forall inspectable_table table_names ->
  forall (unencrypted_tables : list str) (w : World),
  exists w',
    for_in table_names check_table unencrypted_tables w
    = (Ok (unencrypted_tables ++ flat_map table_issues table_names), w') /\
    sns_calls w' = sns_calls w.
Proof.
  induction 1 as [|table_name table_names Ht _ IH];
    intros unencrypted_tables w.
  - exists w. cbn. by rewrite app_nil_r.
  - destruct (check_table_inspectable table_name unencrypted_tables w Ht)
      as (w1 & Hrun & Hcalls).
    destruct (IH (unencrypted_tables ++ table_issues table_name) w1)
      as (w2 & Hrest & Hcalls2).
    exists w2. cbn [for_in flat_map]. unfold bind. rewrite Hrun, Hrest.
    rewrite <- app_assoc. split; [done | congruence].
Qed.

(** The two checks, on an enumeration of inspectable resources. *)
Lemma check_s3_encryption_inspectable (response : ListBucketsOutput)
    (w : World) :
  s3_list_buckets = Ok response ->
  Forall inspectable_bucket (default [] (Buckets response)) ->
  exists w',
    check_s3_encryption w
    = (Ok (flat_map (fun b => bucket_issues (Name b))
             (default [] (Buckets response))), w') /\
    sns_calls w' = sns_calls w.
Proof.
  intros Hlist Hall. unfold lambda_security_monitor.check_s3_encryption.
  run. rewrite Hlist.
  match goal with
  | |- context [for_in _ _ [] ?w0] =>
      destruct (for_in_buckets _ Hall [] w0) as (w1 & -> & Hcalls)
  end.
  by exists w1.
Qed.

Lemma check_dynamodb_encryption_inspectable (response : ListTablesOutput)
    (w : World) :
  dynamodb_list_tables = Ok response ->
  Forall inspectable_table (default [] (TableNames response)) ->
  exists w',
    check_dynamodb_encryption w
    = (Ok (flat_map table_issues (default [] (TableNames response))), w') /\
    sns_calls w' = sns_calls w.
Proof.
  intros Hlist Hall. unfold lambda_security_monitor.check_dynamodb_encryption.
  run. rewrite Hlist.
  match goal with
  | |- context [for_in _ _ [] ?w0] =>
      destruct (for_in_tables _ Hall [] w0) as (w1 & -> & Hcalls)
  end.
  by exists w1.
Qed.

(** *** Failures of one resource *)

(** C4, as the code has it.  A failure of one inspection that the store
    reports as a [ClientError] (for a bucket: other than the not-found error
    of the encryption configuration) is logged at error level, the resource
    is skipped, and the examination returns normally; the check then
    completes with the issues of the other resources, in order.  Exceptions
    of other kinds are not covered: the per-resource handlers catch
    [ClientError] only. *)
Theorem client_errors_isolated (w : World) :
  (forall bucket s3_issues code msg,
      s3_get_bucket_encryption (Name bucket) = Raise (ClientError code msg) ->
      code <> py "ServerSideEncryptionConfigurationNotFoundError" ->
      check_bucket bucket s3_issues w
      = (Ok s3_issues,
         emit (ERROR, py "Error checking bucket '" ++ Name bucket
                      ++ py "': " ++ msg) w)) /\
  (forall pre bucket post code msg,
      s3_list_buckets = Ok {| Buckets := Some (pre ++ bucket :: post) |} ->
      s3_get_bucket_encryption (Name bucket) = Raise (ClientError code msg) ->
      code <> py "ServerSideEncryptionConfigurationNotFoundError" ->
      Forall inspectable_bucket pre -> Forall inspectable_bucket post ->
      exists w',
        check_s3_encryption w
        = (Ok (flat_map (fun b => bucket_issues (Name b)) pre
               ++ flat_map (fun b => bucket_issues (Name b)) post), w')) /\
  (forall table_name unencrypted_tables code msg,
      dynamodb_describe_table table_name = Raise (ClientError code msg) ->
      check_table table_name unencrypted_tables w
      = (Ok unencrypted_tables,
         emit (ERROR, py "Error checking table '" ++ table_name
                      ++ py "': " ++ msg) w)) /\
  (forall pre table_name post code msg,
      dynamodb_list_tables
      = Ok {| TableNames := Some (pre ++ table_name :: post) |} ->
      dynamodb_describe_table table_name = Raise (ClientError code msg) ->
      Forall inspectable_table pre -> Forall inspectable_table post ->
      exists w',
        check_dynamodb_encryption w
        = (Ok (flat_map table_issues pre ++ flat_map table_issues post), w')).
Proof.
  split; [|split; [|split]].
  - intros bucket s3_issues code msg Hget Hcode.
    unfold lambda_security_monitor.check_bucket. run. rewrite Hget.
    by rewrite bool_decide_eq_false_2.
  - intros pre bucket post code msg Hlist Hget Hcode Hpre Hpost.
    assert (Hb : inspectable_bucket bucket).
    { unfold lambda_security_monitor.inspectable_bucket. by rewrite Hget. }
    assert (Hall : Forall inspectable_bucket
                     (default [] (Buckets {| Buckets := Some (pre ++ bucket :: post) |}))).
    { cbn. apply Forall_app. split; [done | by constructor]. }
    destruct (check_s3_encryption_inspectable _ w Hlist Hall) as (w' & Hrun & _).
    exists w'. rewrite Hrun. cbn [Buckets default from_option id].
    rewrite flat_map_app. cbn [flat_map].
    unfold lambda_security_monitor.bucket_issues at 2. rewrite Hget.
    by rewrite bool_decide_eq_false_2.
  - intros table_name unencrypted_tables code msg Hget.
    unfold lambda_security_monitor.check_table. run. by rewrite Hget.
  - intros pre table_name post code msg Hlist Hget Hpre Hpost.
    assert (Ht : inspectable_table table_name).
    { unfold lambda_security_monitor.inspectable_table. by rewrite Hget. }
    assert (Hall : Forall inspectable_table
                     (default [] (TableNames
                        {| TableNames := Some (pre ++ table_name :: post) |}))).
    { cbn. apply Forall_app. split; [done | by constructor]. }
    destruct (check_dynamodb_encryption_inspectable _ w Hlist Hall)
      as (w' & Hrun & _).
    exists w'. rewrite Hrun. cbn [TableNames default from_option id].
    rewrite flat_map_app. cbn [flat_map].
    unfold lambda_security_monitor.table_issues at 2. by rewrite Hget.
Qed.

(** *** Alerting *)

Lemma join_In (sep part : str) (parts : list str) :
  In part parts -> exists before after, join sep parts = before ++ part ++ after.
Proof.
  induction parts as [|p rest IH]; [done|]. intros [-> | Hin].
  - destruct rest as [|q rest'].
    + exists [], []. cbn. by rewrite app_nil_r.
    + by exists [], (sep ++ join sep (q :: rest')).
  - destruct (IH Hin) as (before & after & Heq).
    destruct rest as [|q rest']; [done|].
    exists (p ++ sep ++ before), after.
    change (join sep (p :: q :: rest')) with (p ++ sep ++ join sep (q :: rest')).
    rewrite Heq. by rewrite <- !app_assoc.
Qed.

(** Every issue has its line in the alert: the bullet, a space, the issue. *)
Lemma issues_alert_lines (topic issue : str) (issues_list : list str) :
  In issue issues_list ->
  exists before after,
    Message (issues_alert topic issues_list)
    = before ++ (bullet ++ py " " ++ issue) ++ after.
Proof.
  intros Hin. unfold issues_alert, message_body. cbn [Message].
  destruct (join_In newline (bullet ++ py " " ++ issue)
              (map (fun issue => bullet ++ py " " ++ issue) issues_list))
    as (before & after & ->).
  { apply in_map_iff. by exists issue. }
  exists (message_intro ++ before), (after ++ message_footer).
  by rewrite <- !app_assoc.
Qed.

(** The alert goes out when the channel accepts it. *)
Lemma send_alert_answered (topic : str) (issues_list : list str)
    (message_id : str) (w : World) :
  environ !! py "SNS_TOPIC_ARN" = Some topic ->
  sns_publish (sns_calls w) (issues_alert topic issues_list) = Ok message_id ->
  exists w',
    send_alert issues_list w = (Ok tt, w') /\
    sns_calls w'
    = sns_calls w ++ [(issues_alert topic issues_list, Ok message_id)].
Proof.
  intros Henv Hpub. unfold lambda_security_monitor.send_alert, publish, getitem.
  run. rewrite Henv. fold (issues_alert topic issues_list). rewrite Hpub.
  by eexists.
Qed.

Lemma not_nonempty (l : list str) : l <> [] -> not_ l = false.
Proof. by destruct l. Qed.

(** C7, as the code has it.  A scan whose enumerations succeed and whose
    resources are all inspectable.  The lines of the aggregate are written
    out here, not taken from the handler: for every issue of a bucket, in
    the order of the bucket enumeration, [S3 Bucket '<name>' <reason>], then
    for every table at issue, in the order of the table enumeration,
    [DynamoDB Table '<name>' is not encrypted.].  When there is no line the
    handler returns its result and publishes nothing, whatever the topic and
    the channel.  When there are lines, the topic is set and the channel
    accepts the message, the handler returns its result and publishes
    exactly one message: to the topic, under the audit subject, with the
    preamble, then the lines in that order, each after a bullet and a space
    and separated by newlines, then the postamble.  The result has status
    200, the number of lines, and the lines in its body. *)
Theorem alert_on_issues (buckets : ListBucketsOutput)
    (tables : ListTablesOutput) (w : World) :
  s3_list_buckets = Ok buckets ->
  Forall inspectable_bucket (default [] (Buckets buckets)) ->
  dynamodb_list_tables = Ok tables ->
  Forall inspectable_table (default [] (TableNames tables)) ->
  let lines :=
    map (fun issue => py "S3 Bucket '" ++ name issue ++ py "' " ++ reason issue)
      (flat_map (fun b => bucket_issues (Name b)) (default [] (Buckets buckets)))
    ++ map (fun table_name =>
              py "DynamoDB Table '" ++ table_name ++ py "' is not encrypted.")
         (flat_map table_issues (default [] (TableNames tables))) in
  let result :=
    {| statusCode := 200;
       issues_found := len lines;
       body := json_dumps
         (JDict [(py "message", JStr (py "Security scan completed"));
                 (py "issues", JList (map JStr lines))]) |} in
  (lines = [] ->
   exists w', handler w = (Ok result, w') /\ sns_calls w' = sns_calls w) /\
  (lines <> [] ->
   forall topic message_id,
     environ !! py "SNS_TOPIC_ARN" = Some topic ->
     let alert :=
       {| TopicArn := topic;
          Subject := py "Audit Complete: Resources Need KMS Encryption Review";
          Message :=
            message_intro
            ++ join newline (map (fun line => bullet ++ py " " ++ line) lines)
            ++ message_footer |} in
     sns_publish (sns_calls w) alert = Ok message_id ->
     (exists w',
        handler w = (Ok result, w') /\
        sns_calls w' = sns_calls w ++ [(alert, Ok message_id)]) /\
     (forall line, In line lines ->
        exists before after,
          Message alert = before ++ (bullet ++ py " " ++ line) ++ after)).
Proof.
  intros Hbl Hb Htl Ht lines result. split.
  - intros Hnil. subst result.
    unfold lambda_security_monitor.handler, lambda_security_monitor.scan.
    unfold try_except, bind. unfold logger_info at 1.
    match goal with
    | |- context [check_s3_encryption ?w0] =>
        destruct (check_s3_encryption_inspectable _ w0 Hbl Hb)
          as (w1 & -> & Hc1)
    end.
    destruct (check_dynamodb_encryption_inspectable _ w1 Htl Ht)
      as (w2 & -> & Hc2).
    cbn [app].
    set (all_issues := map format_bucket_issue _ ++ map format_table_issue _).
    change all_issues with lines. rewrite Hnil.
    cbn [not_ negb]. run. eexists. split; [reflexivity|].
    cbn [sns_calls]. by rewrite Hc2, Hc1.
  - intros Hne topic message_id Henv alert Hpub. split.
    + subst result.
      unfold lambda_security_monitor.handler, lambda_security_monitor.scan.
      unfold try_except, bind. unfold logger_info at 1.
      match goal with
      | |- context [check_s3_encryption ?w0] =>
          destruct (check_s3_encryption_inspectable _ w0 Hbl Hb)
            as (w1 & -> & Hc1)
      end.
      destruct (check_dynamodb_encryption_inspectable _ w1 Htl Ht)
        as (w2 & -> & Hc2).
      cbn [app].
      set (all_issues := map format_bucket_issue _ ++ map format_table_issue _).
      change all_issues with lines. rewrite (not_nonempty lines Hne).
      cbn [negb]. unfold logger_warning at 1.
      assert (Hbase : sns_calls w2 = sns_calls w).
      { rewrite Hc2, Hc1. reflexivity. }
      match goal with
      | |- context [send_alert ?l ?w0] =>
          destruct (send_alert_answered topic l message_id w0 Henv)
            as (w3 & -> & Hc3)
      end.
      { unfold emit, World_logger. cbn [sns_calls]. rewrite Hbase.
        exact Hpub. }
      run. eexists. split; [reflexivity|].
      rewrite Hc3. unfold emit, World_logger. cbn [sns_calls].
      rewrite Hbase. reflexivity.
    + intros line Hin. exact (issues_alert_lines topic line lines Hin).
Qed.

(** C9.  When the scan raises [e], the handler raises that same [e],
    whatever the notification channel answers: with the topic configured
    exactly one further publish is attempted, the "Security Scan FAILED"
    alert about [e], and its outcome, accepted or raised, does not change
    the result; without the topic nothing is attempted.  The scan raises in
    particular when the enumeration of buckets fails, and when the
    enumeration of tables fails after the buckets were checked. *)
Theorem scan_failure_propagates (w : World) (e : exn) :
  (forall w1,
      scan w = (Raise e, w1) ->
      exists w',
        handler w = (Raise e, w') /\
        match environ !! py "SNS_TOPIC_ARN" with
        | Some topic =>
            sns_calls w'
            = sns_calls w1
              ++ [(failure_alert topic e,
                   sns_publish (sns_calls w1) (failure_alert topic e))]
        | None => sns_calls w' = sns_calls w1
        end) /\
  (s3_list_buckets = Raise e ->
   exists w1, scan w = (Raise e, w1) /\ sns_calls w1 = sns_calls w) /\
  (forall buckets,
      s3_list_buckets = Ok buckets ->
      Forall inspectable_bucket (default [] (Buckets buckets)) ->
      dynamodb_list_tables = Raise e ->
      exists w1, scan w = (Raise e, w1) /\ sns_calls w1 = sns_calls w).
Proof.
  split; [|split].
  - intros w1 Hscan. unfold lambda_security_monitor.handler, try_except at 1.
    rewrite Hscan. unfold bind at 1. unfold logger_error at 1.
    unfold bind at 1, try_except, bind, lift, getitem.
    destruct (environ !! py "SNS_TOPIC_ARN") as [topic|].
    + unfold publish, emit, World_logger. cbn [sns_calls log].
      fold (failure_alert topic e).
      destruct (sns_publish (sns_calls w1) (failure_alert topic e));
        unfold ret, raise; eexists; by split.
    + unfold ret, raise. eexists; by split.
  - intros Hlist. unfold lambda_security_monitor.scan,
      lambda_security_monitor.check_s3_encryption.
    run. rewrite Hlist. destruct e; eexists; by split.
  - intros buckets Hbl Hb Hlist. unfold lambda_security_monitor.scan.
    unfold bind. unfold logger_info at 1.
    match goal with
    | |- context [check_s3_encryption ?w0] =>
        destruct (check_s3_encryption_inspectable _ w0 Hbl Hb)
          as (w1 & -> & Hc1)
    end.
    unfold lambda_security_monitor.check_dynamodb_encryption.
    run. rewrite Hlist. destruct e; eexists; (split; [reflexivity|]);
      cbn [sns_calls]; by rewrite Hc1.
Qed.

End Scanner.

(** The classification at the bucket on [AES256] and the table without
    [SSEDescription]. *)
Lemma scanner_classifies_resources_witness :
  (exists w',
      lambda_security_monitor.check_bucket Fixtures.get_bucket_encryption
        Fixtures.aes256_bucket [] Fixtures.monitor_world
      = (Ok ([] ++
             [{| lambda_security_monitor.name := py "non-compliant-bucket";
                 lambda_security_monitor.reason :=
                   py "is not encrypted with a KMS key (uses default "
                   ++ py "AES256" ++ py " encryption)." |}]), w') /\
      lambda_security_monitor.sns_calls w'
      = lambda_security_monitor.sns_calls Fixtures.monitor_world) /\
  (exists w',
      lambda_security_monitor.check_table Fixtures.describe_table
        (py "unencrypted-table") [] Fixtures.monitor_world
      = (Ok ([] ++ [py "unencrypted-table"]), w') /\
      lambda_security_monitor.sns_calls w'
      = lambda_security_monitor.sns_calls Fixtures.monitor_world).
Proof.
  destruct (scanner_classifies_resources Fixtures.get_bucket_encryption
              Fixtures.describe_table Fixtures.aes256_bucket []
              (py "unencrypted-table") [] Fixtures.monitor_world)
    as (Hbucket & _ & _ & Htable).
  split.
  - refine (proj2 (Hbucket _ {| lambda_security_monitor.SSEAlgorithm := py "AES256" |}
                     [] _ _) _).
    + vm_compute. reflexivity.
    + reflexivity.
    + vm_compute. discriminate.
  - refine (Htable None _ _).
    + vm_compute. reflexivity.
    + cbn. discriminate.
Defined.

(** The isolation theorem at a bucket whose inspection is denied, followed
    by the bucket on [AES256]. *)
Lemma client_errors_isolated_witness :
  exists w',
    lambda_security_monitor.check_s3_encryption
      (Fixtures.list_buckets
         ([] ++ Fixtures.denied_bucket :: [Fixtures.aes256_bucket]))
      Fixtures.get_bucket_encryption Fixtures.monitor_world
    = (Ok (flat_map
             (fun b => lambda_security_monitor.bucket_issues
                         Fixtures.get_bucket_encryption
                         (lambda_security_monitor.Name b)) []
           ++ flat_map
                (fun b => lambda_security_monitor.bucket_issues
                            Fixtures.get_bucket_encryption
                            (lambda_security_monitor.Name b))
                [Fixtures.aes256_bucket]), w').
Proof.
  destruct (client_errors_isolated
              (Fixtures.list_buckets
                 ([] ++ Fixtures.denied_bucket :: [Fixtures.aes256_bucket]))
              Fixtures.get_bucket_encryption
              (Fixtures.list_tables []) Fixtures.describe_table
              Fixtures.monitor_world)
    as (_ & Hscan & _).
  refine (Hscan [] Fixtures.denied_bucket [Fixtures.aes256_bucket]
            (py "AccessDenied") _ _ _ _ _ _).
  - reflexivity.
  - vm_compute. reflexivity.
  - vm_compute. discriminate.
  - constructor.
  - constructor; [|constructor].
    unfold lambda_security_monitor.inspectable_bucket. vm_compute.
    by eexists _, _.
Defined.

(** C4 fails on the code.  The inspection of the first bucket raises a
    connection error, which is not a [ClientError]: the examination of that
    bucket raises, the check of the buckets raises, and the handler raises.
    The bucket on [AES256] that follows is never classified: the only
    message published is the scan-failure alert. *)
Lemma unreachable_bucket_aborts_scan :
  let run :=
    Fixtures.monitor_handler
      [Fixtures.unreachable_bucket; Fixtures.aes256_bucket]
      [py "unencrypted-table"] in
  lambda_security_monitor.check_bucket Fixtures.get_bucket_encryption
    Fixtures.unreachable_bucket [] Fixtures.monitor_world
  = (Raise Fixtures.connection_error, Fixtures.monitor_world) /\
  (lambda_security_monitor.check_s3_encryption
     (Fixtures.list_buckets
        [Fixtures.unreachable_bucket; Fixtures.aes256_bucket])
     Fixtures.get_bucket_encryption Fixtures.monitor_world).1
  = Raise Fixtures.connection_error /\
  run.1 = Raise Fixtures.connection_error /\
  lambda_security_monitor.published run.2
  = [lambda_security_monitor.failure_alert
       (py "arn:aws:sns:eu-central-1:123456789012:test")
       Fixtures.connection_error].
Proof. vm_compute. repeat split; reflexivity. Qed.

(** The alerting claim, as stated, at one bucket on [AES256]: the aggregate
    has one issue, and no alert is published, when the topic is not set (the
    handler raises [KeyError] without a publish call) and when the channel
    is down (both attempts are refused). *)
Lemma alert_needs_topic_and_channel :
  let issues :=
    lambda_security_monitor.bucket_issues Fixtures.get_bucket_encryption
      (lambda_security_monitor.Name Fixtures.aes256_bucket) in
  let unset :=
    lambda_security_monitor.handler Fixtures.dumps (∅ : gmap str str)
      (Fixtures.list_buckets [Fixtures.aes256_bucket])
      Fixtures.get_bucket_encryption (Fixtures.list_tables [])
      Fixtures.describe_table Fixtures.publish_ok Fixtures.monitor_world in
  let down :=
    lambda_security_monitor.handler Fixtures.dumps Fixtures.monitor_environ
      (Fixtures.list_buckets [Fixtures.aes256_bucket])
      Fixtures.get_bucket_encryption (Fixtures.list_tables [])
      Fixtures.describe_table Fixtures.publish_down Fixtures.monitor_world in
  length issues = 1%nat /\
  unset.1 = Raise (KeyError (py "SNS_TOPIC_ARN")) /\
  lambda_security_monitor.sns_calls unset.2 = [] /\
  down.1 = Raise Fixtures.channel_down /\
  length (lambda_security_monitor.sns_calls down.2) = 2%nat /\
  lambda_security_monitor.published down.2 = [].
Proof. vm_compute. repeat split; reflexivity. Qed.

(** The alerting theorem at one bucket on [AES256] and one table without
    [SSEDescription]: two lines, one alert. *)
Lemma alert_on_issues_witness :
  let lines :=
    [py "S3 Bucket 'non-compliant-bucket' is not encrypted with a KMS key (uses default AES256 encryption).";
     py "DynamoDB Table 'unencrypted-table' is not encrypted."] in
  let alert :=
    {| lambda_security_monitor.TopicArn :=
         py "arn:aws:sns:eu-central-1:123456789012:test";
       lambda_security_monitor.Subject :=
         py "Audit Complete: Resources Need KMS Encryption Review";
       lambda_security_monitor.Message :=
         lambda_security_monitor.message_intro
         ++ join lambda_security_monitor.newline
              (map (fun line => lambda_security_monitor.bullet ++ py " " ++ line)
                 lines)
         ++ lambda_security_monitor.message_footer |} in
  exists w',
    Fixtures.monitor_handler [Fixtures.aes256_bucket] [py "unencrypted-table"]
    = (Ok {| lambda_security_monitor.statusCode := 200;
             lambda_security_monitor.issues_found := 2;
             lambda_security_monitor.body := Fixtures.dumps
               (JDict [(py "message", JStr (py "Security scan completed"));
                       (py "issues", JList (map JStr lines))]) |}, w') /\
    lambda_security_monitor.sns_calls w' = [(alert, Ok (py "12345"))].
Proof.
  intros lines alert.
  unshelve epose proof
    (alert_on_issues Fixtures.dumps Fixtures.monitor_environ
       (Fixtures.list_buckets [Fixtures.aes256_bucket])
       Fixtures.get_bucket_encryption
       (Fixtures.list_tables [py "unencrypted-table"])
       Fixtures.describe_table Fixtures.publish_ok
       {| lambda_security_monitor.Buckets := Some [Fixtures.aes256_bucket] |}
       {| lambda_security_monitor.TableNames :=
            Some [py "unencrypted-table"] |}
       Fixtures.monitor_world _ _ _ _) as [_ Hissues].
  - reflexivity.
  - constructor; [|constructor].
    unfold lambda_security_monitor.inspectable_bucket. vm_compute.
    by eexists _, _.
  - reflexivity.
  - constructor; [|constructor]. vm_compute. exact I.
  - unshelve epose proof
      (Hissues _ (py "arn:aws:sns:eu-central-1:123456789012:test")
         (py "12345") _ _) as [(w' & Hrun & Hcalls) _].
    + intros H. vm_compute in H. discriminate H.
    + vm_compute. reflexivity.
    + reflexivity.
    + exists w'. vm_compute in Hrun, Hcalls |- *. split; [exact Hrun|].
      exact Hcalls.
Defined.

(** The failure theorem at a scan that cannot list the buckets, on a
    channel that is down as well: the access error is what is raised. *)
Lemma scan_failure_propagates_witness :
  exists w1 w',
    lambda_security_monitor.scan Fixtures.dumps Fixtures.monitor_environ
      (Raise Fixtures.access_denied) Fixtures.get_bucket_encryption
      (Fixtures.list_tables []) Fixtures.describe_table Fixtures.publish_down
      Fixtures.monitor_world
    = (Raise Fixtures.access_denied, w1) /\
    lambda_security_monitor.handler Fixtures.dumps Fixtures.monitor_environ
      (Raise Fixtures.access_denied) Fixtures.get_bucket_encryption
      (Fixtures.list_tables []) Fixtures.describe_table Fixtures.publish_down
      Fixtures.monitor_world
    = (Raise Fixtures.access_denied, w') /\
    lambda_security_monitor.sns_calls w'
    = [(lambda_security_monitor.failure_alert
          (py "arn:aws:sns:eu-central-1:123456789012:test")
          Fixtures.access_denied,
        Raise Fixtures.channel_down)].
Proof.
  destruct (scan_failure_propagates Fixtures.dumps Fixtures.monitor_environ
              (Raise Fixtures.access_denied) Fixtures.get_bucket_encryption
              (Fixtures.list_tables []) Fixtures.describe_table
              Fixtures.publish_down Fixtures.monitor_world
              Fixtures.access_denied)
    as (Hhandler & Hbuckets & _).
  destruct (Hbuckets eq_refl) as (w1 & Hscan & Hcalls).
  destruct (Hhandler w1 Hscan) as (w' & Hrun & Hsns).
  exists w1, w'. split; [exact Hscan|]. split; [exact Hrun|].
  change (Fixtures.monitor_environ !! py "SNS_TOPIC_ARN")
    with (Some (py "arn:aws:sns:eu-central-1:123456789012:test")) in Hsns.
  rewrite Hsns, Hcalls. reflexivity.
Defined.

(** ** The repository's unit tests, on the embedding *)

Section UnitTests.

(** [tests/test_lambda_trigger.py] *)

Example test_invalid_key_null_bytes :
  (lambda_trigger.validate_s3_key (py "test" ++ [0%N] ++ py "file.txt")
     Fixtures.trigger_world).1
  = Raise (ValueError (py "Key contains null bytes: test" ++ [0%N]
                       ++ py "file.txt")).
Proof. vm_compute. reflexivity. Qed.

Example test_invalid_key_path_traversal :
  (lambda_trigger.validate_s3_key (py "../../../etc/passwd")
     Fixtures.trigger_world).1
  = Raise (ValueError (py "Invalid key path (path traversal attempt): ../../../etc/passwd")).
Proof. vm_compute. reflexivity. Qed.

Example test_invalid_key_too_long :
  (lambda_trigger.validate_s3_key (repeat 97%N 1025) Fixtures.trigger_world).1
  = Raise (ValueError (py "Key too long: 1025 characters (max: 1024)")).
Proof. vm_compute. reflexivity. Qed.

Example test_valid_key :
  (lambda_trigger.validate_s3_key (py "folder/subfolder/valid-file.txt")
     Fixtures.trigger_world).1
  = Ok true.
Proof. vm_compute. reflexivity. Qed.

Example test_successful_trigger :
  let run :=
    Fixtures.trigger_handler
      {| lambda_trigger.Records :=
           [{| lambda_trigger.s3_bucket_name := py "test-bucket";
               lambda_trigger.s3_object_key := py "test-file.txt";
               lambda_trigger.eventTime := py "2025-01-01T00:00:00Z" |}] |} in
  (exists body, run.1 = Ok {| lambda_trigger.statusCode := 200;
                              lambda_trigger.body := body |}) /\
  length (lambda_trigger.sfn_calls run.2) = 1%nat.
Proof. vm_compute. split; [by eexists | reflexivity]. Qed.

(** [tests/test_lambda_writer.py] *)

Example test_invalid_filename_empty :
  (lambda_writer.validate_filename [] Fixtures.writer_world).1
  = Raise (ValueError (py "Filename cannot be empty")).
Proof. vm_compute. reflexivity. Qed.

Example test_invalid_filename_path_traversal :
  (lambda_writer.validate_filename (py "../../../etc/passwd")
     Fixtures.writer_world).1
  = Raise (ValueError (py "Invalid filename (path traversal attempt): ../../../etc/passwd")).
Proof. vm_compute. reflexivity. Qed.

Example test_valid_filename :
  (lambda_writer.validate_filename (py "folder/valid-file.txt")
     Fixtures.writer_world).1
  = Ok true.
Proof. vm_compute. reflexivity. Qed.

Example test_successful_write :
  (Fixtures.writer_handler Fixtures.report_event Fixtures.writer_world).1
  = Ok {| lambda_writer.statusCode := 200;
          lambda_writer.filename := py "reports/q1.csv";
          lambda_writer.timestamp := py "2025-01-01T00:00:00";
          lambda_writer.bucket := Some (py "test-bucket");
          lambda_writer.message := py "Successfully written to DynamoDB" |}.
Proof. vm_compute. reflexivity. Qed.

(** The test makes [put_item] raise the conditional-check error itself. *)
Example test_duplicate_entry :
  (lambda_writer.handler Fixtures.dumps_dict Fixtures.dumps_dict
     Fixtures.writer_environ Fixtures.utcnow_isoformat
     (fun _ _ => Some (ClientError (py "ConditionalCheckFailedException")
                         (py "PutItem")))
     Fixtures.retry_event Fixtures.writer_world).1
  = Ok {| lambda_writer.statusCode := 409;
          lambda_writer.filename := py "reports/q1.csv";
          lambda_writer.timestamp := py "2025-01-01T00:00:00";
          lambda_writer.bucket := None;
          lambda_writer.message := py "Duplicate entry - item already exists" |}.
Proof. vm_compute. reflexivity. Qed.

(** [tests/test_security_monitor.py] *)

Example test_s3_non_compliant_aes256_bucket :
  (lambda_security_monitor.check_s3_encryption
     (Fixtures.list_buckets [Fixtures.aes256_bucket])
     Fixtures.get_bucket_encryption Fixtures.monitor_world).1
  = Ok [{| lambda_security_monitor.name := py "non-compliant-bucket";
           lambda_security_monitor.reason :=
             py "is not encrypted with a KMS key (uses default AES256 encryption)." |}].
Proof. vm_compute. reflexivity. Qed.

Example test_s3_truly_unencrypted_bucket :
  (lambda_security_monitor.check_s3_encryption
     (Fixtures.list_buckets
        [{| lambda_security_monitor.Name := py "legacy-unencrypted-bucket" |}])
     (fun _ => Raise (ClientError
                        (py "ServerSideEncryptionConfigurationNotFoundError")
                        (py "GetBucketEncryption")))
     Fixtures.monitor_world).1
  = Ok [{| lambda_security_monitor.name := py "legacy-unencrypted-bucket";
           lambda_security_monitor.reason :=
             py "has no encryption configuration at all." |}].
Proof. vm_compute. reflexivity. Qed.

Example test_check_dynamodb_encrypted_table :
  (lambda_security_monitor.check_dynamodb_encryption
     (Fixtures.list_tables [py "encrypted-table"])
     (fun _ => Ok {| lambda_security_monitor.SSEDescription :=
                       Some {[ py "Status" := py "ENABLED" ]} |})
     Fixtures.monitor_world).1
  = Ok [].
Proof. vm_compute. reflexivity. Qed.

Example test_check_dynamodb_unencrypted_table :
  (lambda_security_monitor.check_dynamodb_encryption
     (Fixtures.list_tables [py "unencrypted-table"])
     Fixtures.describe_table Fixtures.monitor_world).1
  = Ok [py "unencrypted-table"].
Proof. vm_compute. reflexivity. Qed.

End UnitTests.

(** * Further properties of the code *)

(** ** The Dispatch stage, further *)

Section DispatchMore.

Import lambda_trigger.

Variable json_dumps : json -> str.
Variable environ : gmap str str.
Variable utcnow_isoformat : nat -> str.
Variable stepfunctions_start_execution :
  list (StartExecutionInput * res str) -> StartExecutionInput -> res str.

#[local] Abbreviation handler_record :=
  (handler_record json_dumps environ utcnow_isoformat
     stepfunctions_start_execution).
#[local] Abbreviation handler :=
  (handler json_dumps environ utcnow_isoformat stepfunctions_start_execution).
#[local] Abbreviation execution_request := (execution_request json_dumps).
#[local] Abbreviation execution_requests :=
  (execution_requests json_dumps utcnow_isoformat).

(** X1.  A batch whose keys all pass validation, with the state machine
    configured and an orchestrator that accepts every request: the handler
    submits one execution per notification, in the order of the batch, each
    for the configured state machine and with an input that carries the
    notification's bucket, key and event time and a timestamp read off the
    clock for that notification alone; it returns status 200 with the
    handles the orchestrator answered, in that order; and it reads the
    clock once per notification. *)
Theorem dispatch_lists_every_handle (records : list S3EventRecord) (arn : str)
    (w : World) :
  environ !! py "STATE_MACHINE_ARN" = Some arn ->
  (forall calls request,
      raised (stepfunctions_start_execution calls request) = false) ->
  Forall (fun record => ~ unsafe_identifier (s3_object_key record)) records ->
  exists arns w',
    handler {| Records := records |} w
    = (Ok {| statusCode := 200;
             body := json_dumps
               (JDict [(py "message",
                        JStr (py "Successfully triggered Step Functions"));
                       (py "executions", JList (map JStr arns))]) |}, w') /\
    sfn_calls w'
    = sfn_calls w ++ zip (execution_requests arn (clock w) records)
                         (map Ok arns) /\
    length arns = length records /\
    clock w' = (clock w + length records)%nat.
Proof.
  intros Henv Hsfn Hsafe.
  unfold lambda_trigger.handler, try_except, bind. unfold logger_info at 1.
  cbn [Records].
  match goal with
  | |- context [for_in records _ [] ?w0] =>
      destruct (for_in_valid json_dumps environ utcnow_isoformat
                  stepfunctions_start_execution records arn Henv Hsfn Hsafe
                  [] w0)
        as (arns & w1 & -> & Hcalls & Hclock & Hlen)
  end.
  exists arns, w1. unfold ret. cbn [app]. by repeat split.
Qed.

(** What one notification does to the trace of calls, whatever the
    orchestrator: nothing, or one call; with a normal return exactly when
    that one call was answered. *)
Lemma handler_record_trace (record : S3EventRecord)
    (execution_arns : list str) (w w' : World) (r : res (list str)) :
  handler_record record execution_arns w = (r, w') ->
  match r with
  | Ok _ => exists request arn,
      sfn_calls w' = sfn_calls w ++ [(request, Ok arn)]
  | Raise e =>
      sfn_calls w' = sfn_calls w \/
      exists request, sfn_calls w' = sfn_calls w ++ [(request, Raise e)]
  end.
Proof.
  unfold lambda_trigger.handler_record, bind. unfold logger_info at 1.
  match goal with
  | |- context [validate_s3_key ?k ?w0] =>
      pose proof (validate_s3_key_run k w0) as Hval
  end.
  destruct (_ || _) in Hval.
  { destruct Hval as [msg ->]. intros [= <- <-]. by left. }
  rewrite Hval. unfold datetime_now_isoformat, lift, getitem.
  destruct (environ !! py "STATE_MACHINE_ARN") as [arn|];
    [|intros [= <- <-]; by left].
  unfold start_execution, emit, World_logger. cbn [sfn_calls clock log].
  destruct (stepfunctions_start_execution _ _) as [a | e];
    unfold logger_info, ret, emit, World_logger; intros [= <- <-];
    cbn [sfn_calls]; [by eexists _, _ | right; by eexists].
Qed.

Lemma for_in_trace (records : list S3EventRecord) :
  forall (execution_arns : list str) (w w' : World) (r : res (list str)),
  for_in records handler_record execution_arns w = (r, w') ->
  exists added,
    sfn_calls w' = sfn_calls w ++ added /\
    (length added <= length records)%nat /\
    match r with
    | Ok _ => Forall (fun call => raised call.2 = false) added
    | Raise e =>
        Forall (fun call => raised call.2 = false) added \/
        exists init request,
          added = init ++ [(request, Raise e)] /\
          Forall (fun call => raised call.2 = false) init
    end.
Proof.
  induction records as [|record records IH];
    intros execution_arns w w' r Hrun.
  - injection Hrun as <- <-. exists []. rewrite app_nil_r. by repeat split.
  - cbn [for_in] in Hrun. unfold bind in Hrun.
    destruct (handler_record record execution_arns w) as [[arns | e] w1]
      eqn:Hrec; pose proof (handler_record_trace _ _ _ _ _ Hrec) as Htrace.
    + destruct Htrace as (request & arn & Hcalls).
      destruct (IH _ _ _ _ Hrun) as (added & Hc & Hlen & Hok).
      exists ((request, Ok arn) :: added).
      rewrite Hc, Hcalls, <- app_assoc.
      split; [done|]. split; [cbn; lia|].
      destruct r as [arns' | e]; [by constructor|].
      destruct Hok as [Hok | (init & request' & -> & Hok)].
      * left. by constructor.
      * right. exists ((request, Ok arn) :: init), request'.
        split; [done | by constructor].
    + injection Hrun as <- <-.
      destruct Htrace as [-> | [request ->]].
      * exists []. rewrite app_nil_r.
        split; [done|]. split; [cbn; lia|]. left. constructor.
      * exists [(request, Raise e)].
        split; [done|]. split; [cbn; lia|]. right. by exists [], request.
Qed.

(** X2.  For every batch, every environment and every behaviour of the
    orchestrator: the handler never raises a [ValueError]; the calls made
    before the invocation are kept and what it adds is at most one call per
    notification; only the last call of an invocation can have failed, so a
    failed submission is not followed by another; and when it failed with
    [e], the handler raises [e], unless [e] is itself a [ValueError]. *)
Theorem dispatch_never_raises_ValueError (event : Event) (w : World) :
  (forall msg, (handler event w).1 <> Raise (ValueError msg)) /\
  exists added,
    sfn_calls (handler event w).2 = sfn_calls w ++ added /\
    (length added <= length (Records event))%nat /\
    (Forall (fun call => raised call.2 = false) added \/
     exists init request e,
       added = init ++ [(request, Raise e)] /\
       Forall (fun call => raised call.2 = false) init /\
       ((handler event w).1 = Raise e \/ exists msg, e = ValueError msg)).
Proof.
  destruct (handler event w) as [r w'] eqn:Hrun. cbn [fst snd].
  unfold lambda_trigger.handler, try_except, bind in Hrun.
  unfold logger_info at 1 in Hrun.
  match type of Hrun with
  | context [for_in ?rs _ [] ?w0] =>
      destruct (for_in rs handler_record [] w0) as [[arns | e] w1] eqn:Hloop;
      destruct (for_in_trace _ _ _ _ _ Hloop) as (added & Hcalls & Hlen & Hok)
  end.
  - unfold ret in Hrun. injection Hrun as <- <-. split; [done|].
    exists added. split; [done|]. split; [done|]. by left.
  - assert (Hw' : sfn_calls w' = sfn_calls w ++ added).
    { destruct e; unfold logger_error, ret, raise, emit, World_logger in Hrun;
        injection Hrun as <- <-; exact Hcalls. }
    assert (Hr : (exists msg, e = ValueError msg /\ raised r = false)
                 \/ r = Raise e /\ forall msg, e <> ValueError msg).
    { destruct e; unfold logger_error, ret, raise, emit, World_logger in Hrun;
        injection Hrun as <- <-; [left; by eexists | by right ..]. }
    split.
    + intros msg ->. destruct Hr as [(? & _ & ?) | [[= <-] Hne]];
        [done | by eapply Hne].
    + exists added. split; [done|]. split; [done|].
      destruct Hok as [Hok | (init & request & -> & Hok)]; [by left|].
      right. exists init, request, e. split; [done|]. split; [done|].
      destruct Hr as [(msg & -> & _) | [-> _]]; [right; by eexists | by left].
Qed.

(** One notification with a safe key, when the orchestrator answers the
    call made at this point of the trace. *)
Lemma handler_record_answered (record : S3EventRecord)
    (execution_arns : list str) (arn : str) (w : World) :
  environ !! py "STATE_MACHINE_ARN" = Some arn ->
  ~ unsafe_identifier (s3_object_key record) ->
  let request := execution_request arn record (utcnow_isoformat (clock w)) in
  exists w',
    handler_record record execution_arns w
    = (match stepfunctions_start_execution (sfn_calls w) request with
       | Ok execution_arn => Ok (execution_arns ++ [execution_arn])
       | Raise e => Raise e
       end, w') /\
    sfn_calls w'
    = sfn_calls w
      ++ [(request, stepfunctions_start_execution (sfn_calls w) request)] /\
    clock w' = S (clock w).
Proof.
  intros Henv Hsafe request. subst request.
  unfold lambda_trigger.handler_record, bind.
  unfold logger_info at 1.
  rewrite (validate_s3_key_safe _ _ Hsafe).
  unfold datetime_now_isoformat, lift, getitem. rewrite Henv.
  unfold start_execution, emit, World_logger. cbn [sfn_calls clock log].
  fold (execution_request arn record (utcnow_isoformat (clock w))).
  destruct (stepfunctions_start_execution _ _) as [a | e];
    unfold logger_info, ret, emit, World_logger; cbn [sfn_calls clock log];
    by eexists.
Qed.

Lemma for_in_accepted (records : list S3EventRecord) (arn : str) :
  environ !! py "STATE_MACHINE_ARN" = Some arn ->
  Forall (fun record => ~ unsafe_identifier (s3_object_key record)) records ->
  forall (execution_arns : list str) (w : World),
  (forall calls request,
      (length calls < length (sfn_calls w) + length records)%nat ->
      raised (stepfunctions_start_execution calls request) = false) ->
  exists arns w',
    for_in records handler_record execution_arns w
    = (Ok (execution_arns ++ arns), w') /\
    sfn_calls w'
    = sfn_calls w ++ zip (execution_requests arn (clock w) records)
                         (map Ok arns) /\
    clock w' = (clock w + length records)%nat /\
    length arns = length records.
Proof.
  intros Henv Hsafe.
  induction Hsafe as [|record records Hrec _ IH]; intros execution_arns w Hsfn.
  - exists [], w. cbn. rewrite !app_nil_r. repeat split; lia.
  - destruct (handler_record_answered record execution_arns arn w Henv Hrec)
      as (w1 & Hrun & Hcalls & Hclock).
    assert (Hok : raised (stepfunctions_start_execution (sfn_calls w)
                            (execution_request arn record
                               (utcnow_isoformat (clock w)))) = false)
      by (apply Hsfn; cbn; lia).
    destruct (stepfunctions_start_execution _ _) as [a | e]; [|done].
    destruct (IH (execution_arns ++ [a]) w1)
      as (arns & w2 & Hrest & Hc2 & Hk2 & Hlen).
    { intros calls request Hlt. apply Hsfn. rewrite Hcalls, length_app in Hlt.
      cbn in *. lia. }
    exists (a :: arns), w2. cbn [for_in]. unfold bind. rewrite Hrun, Hrest.
    rewrite <- app_assoc. split; [done|].
    rewrite Hc2, Hcalls, Hk2, Hclock, <- app_assoc. cbn.
    repeat split; try done; lia.
Qed.

(** X3.  A submission that fails is a system error: when the orchestrator
    accepts the executions of the first notifications of a batch and raises
    [e], not a [ValueError], on the next, the handler raises [e].  The
    executions started before stay started, the failed call is the last,
    and the notifications after it are not submitted. *)
Theorem orchestrator_failure_propagates (pre post : list S3EventRecord)
    (record : S3EventRecord) (arn : str) (e : exn) (w : World) :
  environ !! py "STATE_MACHINE_ARN" = Some arn ->
  Forall (fun record => ~ unsafe_identifier (s3_object_key record)) pre ->
  ~ unsafe_identifier (s3_object_key record) ->
  (forall msg, e <> ValueError msg) ->
  (forall calls request,
      (length calls < length (sfn_calls w) + length pre)%nat ->
      raised (stepfunctions_start_execution calls request) = false) ->
  (forall calls request,
      length calls = (length (sfn_calls w) + length pre)%nat ->
      stepfunctions_start_execution calls request = Raise e) ->
  exists arns w',
    handler {| Records := pre ++ record :: post |} w = (Raise e, w') /\
    sfn_calls w'
    = sfn_calls w
      ++ zip (execution_requests arn (clock w) pre) (map Ok arns)
      ++ [(execution_request arn record
             (utcnow_isoformat (clock w + length pre)), Raise e)] /\
    length arns = length pre.
Proof.
  intros Henv Hpre Hrec Hne Hacc Hfail.
  unfold lambda_trigger.handler, try_except, bind. unfold logger_info at 1.
  cbn [Records]. rewrite for_in_app. unfold bind.
  match goal with
  | |- context [for_in pre _ [] ?w0] =>
      destruct (for_in_accepted pre arn Henv Hpre [] w0 Hacc)
        as (arns & w1 & -> & Hcalls & Hclock & Hlen)
  end.
  unfold emit, World_logger in Hcalls, Hclock. cbn [sfn_calls clock] in *.
  cbn [for_in app]. unfold bind.
  destruct (handler_record_answered record arns arn w1 Henv Hrec)
    as (w2 & -> & Hc2 & _).
  assert (Hf : stepfunctions_start_execution (sfn_calls w1)
                 (execution_request arn record (utcnow_isoformat (clock w1)))
               = Raise e).
  { apply Hfail. rewrite Hcalls, length_app, length_zip, length_map,
      length_execution_requests. lia. }
  rewrite Hf in *. rewrite Hclock in Hc2. rewrite Hcalls, <- app_assoc in Hc2.
  exists arns.
  destruct e as [msg| | | |]; [by destruct (Hne msg)| ..];
    unfold logger_error, raise, emit, World_logger; eexists;
    (split; [reflexivity|]); cbn [sfn_calls]; by split.
Qed.

(** X4.  The state machine is looked up once per notification, after its
    key has passed validation: without [STATE_MACHINE_ARN] a batch that
    begins with a safe key raises [KeyError] with no call made and one clock
    read; the lookup is not reached by a batch that is empty or begins with
    an unsafe key, which returns status 200 all the same. *)
Theorem state_machine_looked_up_per_record (record : S3EventRecord)
    (rest : list S3EventRecord) (w : World) :
  environ !! py "STATE_MACHINE_ARN" = None ->
  (~ unsafe_identifier (s3_object_key record) ->
   exists w',
     handler {| Records := record :: rest |} w
     = (Raise (KeyError (py "STATE_MACHINE_ARN")), w') /\
     sfn_calls w' = sfn_calls w /\ clock w' = S (clock w)) /\
  (unsafe_identifier (s3_object_key record) ->
   exists body w',
     handler {| Records := record :: rest |} w
     = (Ok {| statusCode := 200; body := body |}, w') /\
     sfn_calls w' = sfn_calls w /\ clock w' = clock w) /\
  (exists w',
     handler {| Records := [] |} w
     = (Ok {| statusCode := 200;
              body := json_dumps
                (JDict [(py "message",
                         JStr (py "Successfully triggered Step Functions"));
                        (py "executions", JList [])]) |}, w') /\
     sfn_calls w' = sfn_calls w /\ clock w' = clock w).
Proof.
  intros Henv. split; [|split].
  - intros Hsafe.
    unfold lambda_trigger.handler, try_except, bind. unfold logger_info at 1.
    cbn [Records for_in]. unfold bind.
    unfold lambda_trigger.handler_record, bind. unfold logger_info at 1.
    rewrite (validate_s3_key_safe _ _ Hsafe).
    unfold datetime_now_isoformat, lift, getitem. rewrite Henv.
    unfold logger_error, raise, emit, World_logger. by eexists.
  - intros Hunsafe.
    unfold lambda_trigger.handler, try_except, bind. unfold logger_info at 1.
    cbn [Records for_in]. unfold bind.
    match goal with
    | |- context [handler_record record [] ?w0] =>
        destruct (handler_record_unsafe json_dumps environ utcnow_isoformat
                    stepfunctions_start_execution record [] w0 Hunsafe)
          as (msg & w1 & -> & Hcalls & Hclock)
    end.
    unfold logger_error, ret, emit, World_logger. eexists _, _.
    split; [reflexivity|]. cbn [sfn_calls clock]. by rewrite Hcalls, Hclock.
  - unfold lambda_trigger.handler, try_except, bind. unfold logger_info at 1.
    cbn [Records for_in]. unfold ret. by eexists.
Qed.

End DispatchMore.

(** ** The Metadata Writer, further *)

Section WriterMore.

Import lambda_writer.

Variable json_dumps : gmap str str -> str.
Variable dict_str : gmap str str -> str.
Variable environ : gmap str str.
Variable utcnow_isoformat : nat -> str.
Variable store_fault : list (gmap str str) -> gmap str str -> option exn.

#[local] Abbreviation handler :=
  (handler json_dumps dict_str environ utcnow_isoformat store_fault).
#[local] Abbreviation get_dynamodb_table := (get_dynamodb_table environ).
#[local] Abbreviation configured := (configured environ).
#[local] Abbreviation invocations :=
  (invocations json_dumps dict_str environ utcnow_isoformat store_fault).

(** X5.  The table is append-only: whatever the inputs and the faults of
    the store, a sequence of invocations keeps every record the table held,
    in place and unchanged, and adds at most one record per invocation; no
    record is updated or deleted. *)
Theorem table_append_only (events : list (gmap str str)) (w : World) :
  exists added,
    items (invocations events w) = items w ++ added /\
    (length added <= length events)%nat.
Proof.
  revert w; induction events as [|event events IH]; intros w.
  - exists []. cbn. by rewrite app_nil_r.
  - cbn [lambda_writer.invocations].
    destruct (IH (handler event w).2) as (added & -> & Hlen).
    destruct (handler event w) as [r w'] eqn:Hrun. cbn [snd].
    destruct (handler_cases _ _ _ _ _ _ _ _ _ Hrun)
      as [(e & _ & ->) | [(f & _ & _ & ->) | (f & b & _ & _ & Hput)]].
    + exists added. split; [done | cbn; lia].
    + exists added. split; [done | cbn; lia].
    + apply conditional_put_ok in Hput as [_ ->].
      eexists (_ :: added). rewrite <- app_assoc. split; [done | cbn; lia].
Qed.

Lemma find_appended (item : gmap str str) (stored : list (gmap str str)) :
  List.find (same_key item) stored = None ->
  List.find (same_key item) (stored ++ [item]) = Some item.
Proof.
  induction stored as [|old stored IH]; cbn.
  - intros _. unfold same_key. by rewrite bool_decide_eq_true_2.
  - destruct (same_key item old); [done | exact IH].
Qed.

(** What an invocation that returned 200 was given and did. *)
Lemma handler_written (event : gmap str str) (w w' : World) (r : Response) :
  handler event w = (Ok r, w') ->
  statusCode r = 200%Z ->
  exists f b,
    event !! py "key" = Some f /\ event !! py "bucket" = Some b /\
    ~ unsafe_identifier f /\
    let ts := default (utcnow_isoformat (clock w)) (event !! py "timestamp") in
    r = {| statusCode := 200; filename := f; timestamp := ts;
           bucket := Some b;
           message := py "Successfully written to DynamoDB" |} /\
    conditional_put (items w)
      (metadata_item f ts b (default ts (event !! py "event_time")))
      not_exists
    = (Ok tt, items w').
Proof.
  intros Hrun Hstatus.
  unfold lambda_writer.handler, try_except, bind in Hrun.
  pose proof (get_dynamodb_table_frame environ w) as (Hitems & Hclock & _).
  destruct (get_dynamodb_table w) as [[t | e] w0]; cbn [snd] in Hitems, Hclock.
  2: { by destruct e. }
  unfold logger_info at 1, lift, getitem in Hrun.
  destruct (event !! py "key") as [f|]; [|done].
  unfold datetime_now_isoformat, emit, World_logger in Hrun.
  cbn [items clock log table dynamodb] in Hrun.
  destruct (event !! py "bucket") as [b|]; [|done].
  match type of Hrun with
  | context [validate_filename f ?w1] =>
      pose proof (validate_filename_run f w1) as Hval
  end.
  destruct (_ || _) eqn:Htests in Hval.
  { destruct Hval as [msg Hval]. by rewrite Hval in Hrun. }
  rewrite Hval in Hrun. unfold logger_info at 1, emit, World_logger in Hrun.
  cbn [items clock log table dynamodb] in Hrun.
  unfold put_item in Hrun. cbn [items clock log table dynamodb] in Hrun.
  rewrite Hitems, Hclock in Hrun.
  exists f, b. split; [done|]. split; [done|]. split.
  { rewrite <- tests_unsafe. by rewrite Htests. }
  cbn zeta. unfold metadata_item, not_exists.
  destruct (store_fault _ _) as [e|].
  { destruct e as [| | |code msg|]; try done.
    destruct (bool_decide (code = _)); [|done].
    injection Hrun as <- <-. done. }
  destruct (conditional_put _ _ _) as [[[] | e] stored] eqn:Hput.
  - injection Hrun as <- <-. done.
  - exfalso. destruct e as [| | |code msg|]; try done.
    destruct (bool_decide (code = _)); [|done].
    injection Hrun as <- <-. done.
Qed.

Lemma metadata_item_lookup (f t b e : str) :
  metadata_item f t b e !! py "Filename" = Some f /\
  metadata_item f t b e !! py "UploadTimestamp" = Some t /\
  metadata_item f t b e !! py "Bucket" = Some b /\
  metadata_item f t b e !! py "EventTime" = Some e /\
  dom (metadata_item f t b e)
  = list_to_set [py "Filename"; py "UploadTimestamp"; py "Bucket";
                 py "EventTime"].
Proof.
  do 4 (split; [vm_compute; reflexivity|]).
  unfold metadata_item. rewrite !dom_insert_L, dom_empty_L. cbn.
  set_solver.
Qed.

(** X6.  What is written can be looked up.  An invocation that returns 200
    has appended exactly one record, whose [Filename] is the input's key as
    given, whose [UploadTimestamp] is the input's timestamp, or the clock's
    when the input has none, whose [Bucket] is the input's bucket and whose
    [EventTime] is the input's event time, or the upload timestamp when the
    input has none; the result echoes filename, timestamp and bucket; and a
    lookup of the table by the record's key, which found nothing before,
    now finds this record. *)
Theorem written_record_found (event : gmap str str) (w w' : World)
    (r : Response) :
  handler event w = (Ok r, w') ->
  statusCode r = 200%Z ->
  exists item,
    items w' = items w ++ [item] /\
    item !! py "Filename" = event !! py "key" /\
    item !! py "Filename" = Some (filename r) /\
    item !! py "UploadTimestamp" = Some (timestamp r) /\
    timestamp r
    = default (utcnow_isoformat (clock w)) (event !! py "timestamp") /\
    item !! py "Bucket" = event !! py "bucket" /\
    item !! py "Bucket" = bucket r /\
    item !! py "EventTime"
    = Some (default (timestamp r) (event !! py "event_time")) /\
    dom item = list_to_set [py "Filename"; py "UploadTimestamp";
                            py "Bucket"; py "EventTime"] /\
    List.find (same_key item) (items w) = None /\
    List.find (same_key item) (items w') = Some item.
Proof.
  intros Hrun Hstatus.
  destruct (handler_written _ _ _ _ Hrun Hstatus)
    as (f & b & Hkey & Hbucket & _ & -> & Hput).
  apply conditional_put_ok in Hput as [Hnone ->].
  destruct (metadata_item_lookup f
              (default (utcnow_isoformat (clock w)) (event !! py "timestamp"))
              b (default (default (utcnow_isoformat (clock w))
                            (event !! py "timestamp"))
                   (event !! py "event_time")))
    as (Hf & Ht & Hb & He & Hdom).
  eexists. split; [reflexivity|]. cbn [filename timestamp bucket].
  rewrite Hkey, Hbucket, Hf, Ht, Hb, He.
  do 8 (split; [done|]). split; [exact Hnone | by apply find_appended].
Qed.

(** A well-formed input with a safe key, as in [handler_run], with what the
    invocation does to the clock. *)
Lemma handler_run_clock (event : gmap str str) (w : World) (f b : str) :
  configured w ->
  event !! py "key" = Some f ->
  event !! py "bucket" = Some b ->
  ~ unsafe_identifier f ->
  let ts := default (utcnow_isoformat (clock w)) (event !! py "timestamp") in
  let item := metadata_item f ts b (default ts (event !! py "event_time")) in
  store_fault (items w) item = None ->
  List.find (same_key item) (items w) = None ->
  exists w',
    handler event w
    = (Ok {| statusCode := 200; filename := f; timestamp := ts;
             bucket := Some b;
             message := py "Successfully written to DynamoDB" |}, w') /\
    items w' = items w ++ [item] /\
    clock w' = S (clock w) /\ configured w'.
Proof.
  intros Hcfg Hkey Hbucket Hsafe ts item Hfault Hfind.
  destruct (get_dynamodb_table_ok environ w Hcfg)
    as (t & w0 & Hget & Hitems & Hclock & Htable).
  subst item ts. unfold metadata_item in *.
  unfold lambda_writer.handler, try_except, bind.
  rewrite Hget. unfold logger_info at 1, lift, getitem.
  rewrite Hkey. unfold datetime_now_isoformat.
  unfold emit, World_logger. cbn [items clock log table dynamodb].
  rewrite Hbucket, (validate_filename_safe _ _ Hsafe).
  unfold logger_info at 1, emit, World_logger.
  cbn [items clock log table dynamodb].
  unfold put_item. cbn [items clock log table dynamodb].
  rewrite Hitems, Hclock, Hfault.
  pose proof (conditional_put_absent _ _ not_exists Hfind) as Hput.
  unfold not_exists in Hput. rewrite Hput.
  unfold logger_info, ret, emit, World_logger.
  cbn [items clock log table dynamodb].
  eexists. split; [reflexivity|]. cbn [items clock].
  split; [done|]. split; [done|]. left. cbn [table]. by rewrite Htable.
Qed.

(** X7.  Idempotence rests on the timestamp the caller supplies.  An input
    without [timestamp] takes its upload timestamp from the clock at each
    invocation: the same input invoked twice, on a store without faults and
    with two different clock readings whose keys the table does not hold,
    returns 200 both times and leaves two records with the same
    [Filename]. *)
Theorem unstamped_retry_writes_twice (event : gmap str str) (f b : str)
    (w : World) :
  configured w ->
  (forall stored item, store_fault stored item = None) ->
  event !! py "key" = Some f ->
  event !! py "timestamp" = None ->
  event !! py "bucket" = Some b ->
  ~ unsafe_identifier f ->
  let t1 := utcnow_isoformat (clock w) in
  let t2 := utcnow_isoformat (S (clock w)) in
  t1 <> t2 ->
  Forall (fun old => primary_key old <> (Some f, Some t1)) (items w) ->
  Forall (fun old => primary_key old <> (Some f, Some t2)) (items w) ->
  exists w1 w2,
    handler event w
    = (Ok {| statusCode := 200; filename := f; timestamp := t1;
             bucket := Some b;
             message := py "Successfully written to DynamoDB" |}, w1) /\
    handler event w1
    = (Ok {| statusCode := 200; filename := f; timestamp := t2;
             bucket := Some b;
             message := py "Successfully written to DynamoDB" |}, w2) /\
    items w2
    = items w ++ [metadata_item f t1 b (default t1 (event !! py "event_time"));
                  metadata_item f t2 b (default t2 (event !! py "event_time"))].
Proof.
  intros Hcfg Hfault Hkey Hts Hbucket Hsafe t1 t2 Hne Habs1 Habs2.
  destruct (handler_run_clock event w f b Hcfg Hkey Hbucket Hsafe (Hfault _ _))
    as (w1 & Hrun1 & Hitems1 & Hclock1 & Hcfg1).
  { apply find_same_key_None. rewrite primary_key_metadata_item, Hts.
    exact Habs1. }
  destruct (handler_run_clock event w1 f b Hcfg1 Hkey Hbucket Hsafe
              (Hfault _ _)) as (w2 & Hrun2 & Hitems2 & _ & _).
  { apply find_same_key_None. rewrite primary_key_metadata_item, Hts, Hclock1.
    cbn [default from_option id]. rewrite Hitems1, Forall_app, Forall_singleton.
    split; [exact Habs2|]. rewrite primary_key_metadata_item, Hts.
    cbn [default from_option id]. fold t1 t2. congruence. }
  rewrite Hts in Hrun1, Hrun2, Hitems1, Hitems2.
  rewrite Hclock1 in Hrun2, Hitems2. cbn [default from_option id] in *.
  exists w1, w2. split; [exact Hrun1|]. split; [exact Hrun2|].
  rewrite Hitems2, Hitems1, <- app_assoc. reflexivity.
Qed.

(** X8.  A failure of the store other than the failed condition is raised
    to the caller and nothing is written; what is logged names the kind of
    failure.  A store that reports the failed condition itself yields the
    409 result. *)
Theorem store_failure_propagates (event : gmap str str) (f b : str) (e : exn)
    (w : World) :
  configured w ->
  event !! py "key" = Some f ->
  event !! py "bucket" = Some b ->
  ~ unsafe_identifier f ->
  let ts := default (utcnow_isoformat (clock w)) (event !! py "timestamp") in
  store_fault (items w)
    (metadata_item f ts b (default ts (event !! py "event_time")))
  = Some e ->
  exists w',
    items w' = items w /\
    match e with
    | ClientError code _ =>
        if bool_decide (code = py "ConditionalCheckFailedException") then
          handler event w
          = (Ok {| statusCode := 409; filename := f; timestamp := ts;
                   bucket := None;
                   message := py "Duplicate entry - item already exists" |},
             w')
        else
          handler event w = (Raise e, w') /\
          last (log w')
          = Some (ERROR, py "DynamoDB client error: " ++ str_of_exn e)
    | ValueError _ =>
        handler event w = (Raise e, w') /\
        last (log w') = Some (ERROR, py "Validation error: " ++ str_of_exn e)
    | _ =>
        handler event w = (Raise e, w') /\
        last (log w')
        = Some (ERROR, py "Unexpected error writing to DynamoDB: "
                       ++ str_of_exn e)
    end.
Proof.
  intros Hcfg Hkey Hbucket Hsafe ts Hfault. subst ts.
  destruct (get_dynamodb_table_ok environ w Hcfg)
    as (t & w0 & Hget & Hitems & Hclock & Htable).
  unfold metadata_item in Hfault.
  destruct (handler event w) as [r w'] eqn:Hrun.
  unfold lambda_writer.handler, try_except, bind in Hrun.
  rewrite Hget in Hrun. unfold logger_info at 1, lift, getitem in Hrun.
  rewrite Hkey in Hrun. unfold datetime_now_isoformat in Hrun.
  unfold emit, World_logger in Hrun.
  cbn [items clock log table dynamodb] in Hrun.
  rewrite Hbucket, (validate_filename_safe _ _ Hsafe) in Hrun.
  unfold logger_info at 1, emit, World_logger in Hrun.
  cbn [items clock log table dynamodb] in Hrun.
  unfold put_item in Hrun. cbn [items clock log table dynamodb] in Hrun.
  rewrite Hitems, Hclock, Hfault in Hrun.
  exists w'.
  destruct e as [msg|k|msg|code msg|msg];
    [| | | destruct (bool_decide (code = _)) |];
    unfold logger_error, logger_warning, raise, ret, emit, World_logger
      in Hrun;
    injection Hrun as <- <-; cbn [items log];
    rewrite ?last_snoc; by rewrite ?Hitems.
Qed.

(** X9.  The table handle is bound on first use and kept: once the lookup
    has succeeded, every later lookup in the process returns the same handle
    and changes nothing, whatever the environment says by then; a first
    lookup binds the handle to [TABLE_NAME]; and a lookup that fails for
    want of [TABLE_NAME] leaves the handle unbound, so that the next one
    looks again. *)
Theorem table_handle_cached (w : World) :
  (forall t w1,
      get_dynamodb_table w = (Ok t, w1) ->
      table w1 = Some t /\
      (table w = None -> environ !! py "TABLE_NAME" = Some t) /\
      forall environ', lambda_writer.get_dynamodb_table environ' w1 = (Ok t, w1)) /\
  (forall e w1,
      get_dynamodb_table w = (Raise e, w1) ->
      e = KeyError (py "TABLE_NAME") /\ table w1 = None /\
      environ !! py "TABLE_NAME" = None /\
      forall environ' t,
        environ' !! py "TABLE_NAME" = Some t ->
        exists w2, lambda_writer.get_dynamodb_table environ' w1 = (Ok t, w2)).
Proof.
  unfold lambda_writer.get_dynamodb_table, getitem. split.
  - intros t w1 Hget. destruct (table w) as [t0|] eqn:Htable.
    + injection Hget as <- <-. rewrite Htable. by repeat split.
    + destruct (environ !! py "TABLE_NAME") as [name|]; [|done].
      injection Hget as <- <-. cbn [table]. by repeat split.
  - intros e w1 Hget. destruct (table w) as [t0|] eqn:Htable; [done|].
    destruct (environ !! py "TABLE_NAME") as [name|] eqn:Henv; [done|].
    injection Hget as <- <-. cbn [table].
    split; [done|]. split; [done|]. split; [done|].
    intros environ' t ->. by eexists.
Qed.

(** X10.  The Writer's validation does not fire on what the Dispatch stage
    let through: for a key that [validate_s3_key] accepts, an input with
    that key and a bucket, in a process that can reach its table and on a
    put the store does not fail, returns 200 or 409 for that key and never
    raises. *)
Theorem writer_accepts_dispatched_keys (event : gmap str str) (f b : str)
    (wt : lambda_trigger.World) (w : World) :
  (lambda_trigger.validate_s3_key f wt).1 = Ok true ->
  configured w ->
  event !! py "key" = Some f ->
  event !! py "bucket" = Some b ->
  let ts := default (utcnow_isoformat (clock w)) (event !! py "timestamp") in
  store_fault (items w)
    (metadata_item f ts b (default ts (event !! py "event_time")))
  = None ->
  exists r w',
    handler event w = (Ok r, w') /\
    (statusCode r = 200%Z \/ statusCode r = 409%Z) /\
    filename r = f /\ timestamp r = ts.
Proof.
  intros Hok Hcfg Hkey Hbucket ts Hfault.
  assert (Hsafe : ~ unsafe_identifier f).
  { intros Hunsafe.
    destruct (validate_s3_key_unsafe f wt Hunsafe) as [msg Hraise].
    by rewrite Hraise in Hok. }
  destruct (handler_run json_dumps dict_str environ utcnow_isoformat
              store_fault event w f b Hcfg Hkey Hbucket Hsafe Hfault)
    as (w' & _ & Hrun).
  destruct (List.find _ (items w)); destruct Hrun as [-> _];
    eexists _, _; (split; [reflexivity|]); cbn; tauto.
Qed.

(** X11.  Every outcome of the handler, and what it did to the table: a
    result has status 200, and then the table has one record more, or
    status 409 with no bucket in it, and then the table is as it was; an
    exception leaves the table as it was.  The table changes exactly on
    200. *)
Theorem table_changes_only_on_200 (event : gmap str str) (w : World) :
  match (handler event w).1 with
  | Ok r =>
      (statusCode r = 200%Z /\
       exists item, items (handler event w).2 = items w ++ [item]) \/
      (statusCode r = 409%Z /\ bucket r = None /\
       items (handler event w).2 = items w)
  | Raise e => items (handler event w).2 = items w
  end.
Proof.
  destruct (handler event w) as [r w'] eqn:Hrun. cbn [fst snd].
  destruct (handler_cases _ _ _ _ _ _ _ _ _ Hrun)
    as [(e & -> & Hitems) | [(f & _ & -> & Hitems) | (f & b & _ & -> & Hput)]].
  - exact Hitems.
  - right. by repeat split.
  - left. split; [done|]. apply conditional_put_ok in Hput as [_ ->].
    by eexists.
Qed.

(** X12.  The two stages agree on the fields of the workflow input.  The
    input the Dispatch stage builds for a record whose key its validator
    accepted, handed to the Writer as its event, is complete: the Writer
    raises neither [KeyError] nor [ValueError] on it, and on a put the store
    does not fail it writes the record's key, the dispatch timestamp, the
    bucket and the record's event time, or returns 409 when that key and
    timestamp are in the table already. *)
Theorem dispatched_input_is_written (record : lambda_trigger.S3EventRecord)
    (dispatch_timestamp : str) (wt : lambda_trigger.World) (w : World) :
  (lambda_trigger.validate_s3_key (lambda_trigger.s3_object_key record) wt).1
  = Ok true ->
  configured w ->
  let event :=
    as_event
      (lambda_trigger.step_function_input
         (lambda_trigger.s3_bucket_name record)
         (lambda_trigger.s3_object_key record)
         dispatch_timestamp (lambda_trigger.eventTime record)) in
  let item :=
    metadata_item (lambda_trigger.s3_object_key record) dispatch_timestamp
      (lambda_trigger.s3_bucket_name record)
      (lambda_trigger.eventTime record) in
  store_fault (items w) item = None ->
  exists w',
    match List.find (same_key item) (items w) with
    | None =>
        handler event w
        = (Ok {| statusCode := 200;
                 filename := lambda_trigger.s3_object_key record;
                 timestamp := dispatch_timestamp;
                 bucket := Some (lambda_trigger.s3_bucket_name record);
                 message := py "Successfully written to DynamoDB" |}, w') /\
        items w' = items w ++ [item]
    | Some _ =>
        handler event w
        = (Ok {| statusCode := 409;
                 filename := lambda_trigger.s3_object_key record;
                 timestamp := dispatch_timestamp;
                 bucket := None;
                 message := py "Duplicate entry - item already exists" |},
           w') /\
        items w' = items w
    end.
Proof.
  intros Hok Hcfg event item Hfault.
  destruct record as [b f et]. cbn [lambda_trigger.s3_object_key
    lambda_trigger.s3_bucket_name lambda_trigger.eventTime] in *.
  assert (Hsafe : ~ unsafe_identifier f).
  { intros Hunsafe.
    destruct (validate_s3_key_unsafe f wt Hunsafe) as [msg Hraise].
    by rewrite Hraise in Hok. }
  assert (Hkey : event !! py "key" = Some f) by (vm_compute; reflexivity).
  assert (Hbucket : event !! py "bucket" = Some b)
    by (vm_compute; reflexivity).
  assert (Hts : event !! py "timestamp" = Some dispatch_timestamp)
    by (vm_compute; reflexivity).
  assert (Het : event !! py "event_time" = Some et)
    by (vm_compute; reflexivity).
  pose proof (handler_run json_dumps dict_str environ utcnow_isoformat
                store_fault event w f b Hcfg Hkey Hbucket Hsafe) as Hrun.
  rewrite Hts, Het in Hrun. cbn [default from_option id] in Hrun.
  destruct (Hrun Hfault) as (w' & _ & Hcase). by exists w'.
Qed.

End WriterMore.

(** ** The scanner, whatever its collaborators answer *)

Section ScannerMore.

Import lambda_security_monitor.

Variable json_dumps : json -> str.
Variable environ : gmap str str.
Variable s3_list_buckets : res ListBucketsOutput.
Variable s3_get_bucket_encryption : str -> res GetBucketEncryptionOutput.
Variable dynamodb_list_tables : res ListTablesOutput.
Variable dynamodb_describe_table : str -> res DescribeTableOutput.
Variable sns_publish : list (PublishInput * res str) -> PublishInput -> res str.

#[local] Abbreviation check_bucket := (check_bucket s3_get_bucket_encryption).
#[local] Abbreviation check_table := (check_table dynamodb_describe_table).
#[local] Abbreviation check_s3_encryption :=
  (check_s3_encryption s3_list_buckets s3_get_bucket_encryption).
#[local] Abbreviation check_dynamodb_encryption :=
  (check_dynamodb_encryption dynamodb_list_tables dynamodb_describe_table).
#[local] Abbreviation send_alert := (send_alert environ sns_publish).
#[local] Abbreviation scan :=
  (scan json_dumps environ s3_list_buckets s3_get_bucket_encryption
     dynamodb_list_tables dynamodb_describe_table sns_publish).
#[local] Abbreviation handler :=
  (handler json_dumps environ s3_list_buckets s3_get_bucket_encryption
     dynamodb_list_tables dynamodb_describe_table sns_publish).
#[local] Abbreviation bucket_issues := (bucket_issues s3_get_bucket_encryption).
#[local] Abbreviation table_issues := (table_issues dynamodb_describe_table).
#[local] Abbreviation inspectable_bucket :=
  (inspectable_bucket s3_get_bucket_encryption).
#[local] Abbreviation inspectable_table :=
  (inspectable_table dynamodb_describe_table).

Ltac step :=
  unfold try_except, bind, lift, ret, raise, logger_info, logger_warning,
    logger_error, emit, World_logger;
  cbn [sns_calls log fst snd].

(** *** The checks publish nothing *)

Lemma check_bucket_calls (bucket : Bucket) (s3_issues : list Issue) (w : World) :
  sns_calls (check_bucket bucket s3_issues w).2 = sns_calls w.
Proof.
  unfold lambda_security_monitor.check_bucket. step.
  destruct (s3_get_bucket_encryption (Name bucket)) as [[rules] | e].
  - cbn [Rules]. destruct rules as [|[[by_default|]] rest];
      cbn [first_rule default_encryption ApplyServerSideEncryptionByDefault];
      try done.
    by destruct (bool_decide _).
  - destruct e; try done. by destruct (bool_decide _).
Qed.

Lemma check_table_calls (table_name : str) (unencrypted_tables : list str)
    (w : World) :
  sns_calls (check_table table_name unencrypted_tables w).2 = sns_calls w.
Proof.
  unfold lambda_security_monitor.check_table. step.
  destruct (dynamodb_describe_table table_name) as [[sse_desc] | e].
  - cbn [SSEDescription]. by destruct (_ || _).
  - by destruct e.
Qed.

Lemma for_in_calls {X L} (body : X -> L -> M World L) (xs : list X) :
  (forall x locals w, sns_calls (body x locals w).2 = sns_calls w) ->
  forall locals w, sns_calls (for_in xs body locals w).2 = sns_calls w.
Proof.
  intros Hbody. induction xs as [|x xs IH]; intros locals w; [done|].
  cbn [for_in]. unfold bind. pose proof (Hbody x locals w) as Hx.
  destruct (body x locals w) as [[l | e] w1]; cbn [snd] in Hx.
  - rewrite IH. exact Hx.
  - exact Hx.
Qed.

Lemma check_s3_encryption_calls (w : World) :
  sns_calls (check_s3_encryption w).2 = sns_calls w.
Proof.
  unfold lambda_security_monitor.check_s3_encryption. step.
  destruct s3_list_buckets as [response | e]; [|by destruct e].
  match goal with
  | |- context [for_in ?xs ?f [] ?w0] =>
      pose proof (for_in_calls f xs check_bucket_calls [] w0) as Hloop;
      destruct (for_in xs f [] w0) as [[l | e] w1]
  end; cbn [snd sns_calls] in Hloop; [done|]. by destruct e.
Qed.

Lemma check_dynamodb_encryption_calls (w : World) :
  sns_calls (check_dynamodb_encryption w).2 = sns_calls w.
Proof.
  unfold lambda_security_monitor.check_dynamodb_encryption. step.
  destruct dynamodb_list_tables as [response | e]; [|by destruct e].
  match goal with
  | |- context [for_in ?xs ?f [] ?w0] =>
      pose proof (for_in_calls f xs check_table_calls [] w0) as Hloop;
      destruct (for_in xs f [] w0) as [[l | e] w1]
  end; cbn [snd sns_calls] in Hloop; [done|]. by destruct e.
Qed.

(** What a scan publishes, by its outcome. *)
Lemma scan_outcome (w : World) (r : res Response) (w' : World) :
  scan w = (r, w') ->
  exists added,
    sns_calls w' = sns_calls w ++ added /\
    match r with
    | Ok response =>
        exists all_issues,
          response
          = {| statusCode := 200;
               issues_found := len all_issues;
               body := json_dumps
                 (JDict [(py "message", JStr (py "Security scan completed"));
                         (py "issues", JList (map JStr all_issues))]) |} /\
          match all_issues with
          | [] => added = []
          | _ :: _ =>
              exists topic message_id,
                environ !! py "SNS_TOPIC_ARN" = Some topic /\
                added = [(issues_alert topic all_issues, Ok message_id)]
          end
    | Raise e =>
        added = [] \/
        exists topic all_issues,
          environ !! py "SNS_TOPIC_ARN" = Some topic /\ all_issues <> [] /\
          added = [(issues_alert topic all_issues, Raise e)]
    end.
Proof.
  unfold lambda_security_monitor.scan. unfold bind. unfold logger_info at 1.
  match goal with
  | |- context [check_s3_encryption ?w0] =>
      pose proof (check_s3_encryption_calls w0) as Hc1;
      destruct (check_s3_encryption w0) as [[s3_results | e1] w1]
  end; unfold emit, World_logger in Hc1; cbn [snd sns_calls] in Hc1.
  2: { intros [= <- <-]. exists []. rewrite app_nil_r. split; [done | by left]. }
  pose proof (check_dynamodb_encryption_calls w1) as Hc2.
  destruct (check_dynamodb_encryption w1) as [[dynamo_results | e2] w2];
    cbn [snd] in Hc2.
  2: { intros [= <- <-]. exists []. rewrite app_nil_r.
       split; [congruence | by left]. }
  cbn [app].
  set (all_issues := map format_bucket_issue s3_results
                     ++ map format_table_issue dynamo_results).
  destruct all_issues as [|issue issues] eqn:Hall.
  - cbn [not_ negb]. step. intros [= <- <-]. exists [].
    rewrite app_nil_r. cbn [sns_calls]. split; [congruence|].
    by exists [].
  - cbn [not_ negb]. unfold logger_warning at 1.
    unfold lambda_security_monitor.send_alert, publish, getitem. step.
    destruct (environ !! py "SNS_TOPIC_ARN") as [topic|] eqn:Henv.
    + fold (issues_alert topic (issue :: issues)).
      destruct (sns_publish (sns_calls w2) _) as [message_id | e] eqn:Hpub.
      * intros [= <- <-]. cbn [sns_calls]. eexists. split.
        { rewrite Hc2, Hc1. reflexivity. }
        exists (issue :: issues). split; [done|]. by exists topic, message_id.
      * intros [= <- <-]. cbn [sns_calls]. eexists. split.
        { rewrite Hc2, Hc1. reflexivity. }
        right. by exists topic, (issue :: issues).
    + intros [= <- <-]. cbn [sns_calls]. exists []. rewrite app_nil_r.
      split; [congruence | by left].
Qed.

(** The handler's [except] clause: the scan's exception is raised again,
    after one attempt, if the topic is set, to publish the failure alert. *)
Lemma handler_reraises (w w1 : World) (e : exn) :
  scan w = (Raise e, w1) ->
  exists w',
    handler w = (Raise e, w') /\
    sns_calls w'
    = sns_calls w1
      ++ match environ !! py "SNS_TOPIC_ARN" with
         | Some topic =>
             [(failure_alert topic e,
               sns_publish (sns_calls w1) (failure_alert topic e))]
         | None => []
         end /\
    exists more,
      log w' = log w1 ++ (ERROR, py "Security scan failed: " ++ str_of_exn e)
                      :: more.
Proof.
  intros Hscan. unfold lambda_security_monitor.handler, try_except at 1.
  rewrite Hscan. unfold bind at 1. unfold logger_error at 1.
  unfold bind at 1, try_except, bind, lift, getitem.
  destruct (environ !! py "SNS_TOPIC_ARN") as [topic|].
  - unfold publish, emit, World_logger. cbn [sns_calls log].
    fold (failure_alert topic e).
    destruct (sns_publish (sns_calls w1) (failure_alert topic e));
      unfold ret, raise; eexists; (split; [reflexivity|]); cbn [sns_calls log];
      (split; [reflexivity|]); by exists [].
  - unfold ret, raise, emit, World_logger. eexists. split; [reflexivity|].
    cbn [sns_calls log]. rewrite app_nil_r. split; [done|]. by exists [].
Qed.

Lemma handler_returns (w w1 : World) (response : Response) :
  scan w = (Ok response, w1) -> handler w = (Ok response, w1).
Proof.
  intros Hscan. unfold lambda_security_monitor.handler, try_except.
  by rewrite Hscan.
Qed.

(** X13.  What one invocation publishes, whatever the stores and the
    channel answer.  A result, if there is one, has status 200 and the
    number of the issues in its body; with no issue nothing was published,
    with issues exactly one message, the alert on them, which the channel
    accepted.  An exception [e] comes with the failure alert about [e] as
    the last publish attempt when the topic is set, preceded by at most one
    attempt, the alert on the issues that the channel refused with [e];
    without the topic nothing is published.  So one invocation never
    publishes more than two messages, and never two alerts on issues. *)
Theorem publish_discipline (w : World) :
  exists added,
    sns_calls (handler w).2 = sns_calls w ++ added /\
    match (handler w).1 with
    | Ok response =>
        exists all_issues,
          response
          = {| statusCode := 200;
               issues_found := len all_issues;
               body := json_dumps
                 (JDict [(py "message", JStr (py "Security scan completed"));
                         (py "issues", JList (map JStr all_issues))]) |} /\
          match all_issues with
          | [] => added = []
          | _ :: _ =>
              exists topic message_id,
                environ !! py "SNS_TOPIC_ARN" = Some topic /\
                added = [(issues_alert topic all_issues, Ok message_id)]
          end
    | Raise e =>
        match environ !! py "SNS_TOPIC_ARN" with
        | None => added = []
        | Some topic =>
            exists answer,
              added = [(failure_alert topic e, answer)] \/
              exists all_issues,
                all_issues <> [] /\
                added = [(issues_alert topic all_issues, Raise e);
                         (failure_alert topic e, answer)]
        end
    end.
Proof.
  destruct (scan w) as [[response | e] w1] eqn:Hscan.
  - rewrite (handler_returns _ _ _ Hscan). cbn [fst snd].
    exact (scan_outcome _ _ _ Hscan).
  - destruct (handler_reraises _ _ _ Hscan) as (w' & -> & Hcalls & _).
    destruct (scan_outcome _ _ _ Hscan) as (added & Hadded & Hcase).
    cbn [fst snd]. rewrite Hcalls, Hadded, <- app_assoc.
    eexists. split; [reflexivity|].
    destruct Hcase as [-> | (topic & all_issues & Henv & Hne & ->)].
    + destruct (environ !! py "SNS_TOPIC_ARN") as [topic|]; [|done].
      rewrite app_nil_r. eexists. by left.
    + rewrite Henv. eexists. right. exists all_issues. by split.
Qed.

(** *** Inspections the per-resource handlers do not catch *)

Lemma for_in_raises {X L} (body : X -> L -> M World L) (pre post : list X)
    (x : X) (locals l1 : L) (e : exn) (w w1 w2 : World) :
  for_in pre body locals w = (Ok l1, w1) ->
  body x l1 w1 = (Raise e, w2) ->
  for_in (pre ++ x :: post) body locals w = (Raise e, w2).
Proof.
  intros Hpre Hx. rewrite for_in_app. unfold bind at 1. rewrite Hpre.
  cbn [for_in]. unfold bind. by rewrite Hx.
Qed.

(** An answer on a bucket's encryption that the loop body does not handle:
    a configuration without rules, a first rule without the default
    encryption block, or an exception that is not a [ClientError]. *)
Lemma check_bucket_raises (bucket : Bucket) (s3_issues : list Issue)
    (e : exn) (w : World) :
  match s3_get_bucket_encryption (Name bucket) with
  | Ok encryption =>
      match Rules encryption with
      | [] => e = IndexError (py "list index out of range")
      | {| ApplyServerSideEncryptionByDefault := None |} :: _ =>
          e = KeyError (py "ApplyServerSideEncryptionByDefault")
      | _ => False
      end
  | Raise e' => e' = e /\ is_ClientError e = false
  end ->
  check_bucket bucket s3_issues w = (Raise e, w).
Proof.
  unfold lambda_security_monitor.check_bucket. step.
  destruct (s3_get_bucket_encryption (Name bucket)) as [[rules] | e'].
  - cbn [Rules]. destruct rules as [|[[by_default|]] rest];
      cbn [first_rule default_encryption ApplyServerSideEncryptionByDefault];
      first [by intros -> | by intros []].
  - intros [-> Hkind]. by destruct e.
Qed.

(** X14.  The bucket loop survives only what its handler names.  When the
    answer on one bucket is a configuration without rules, a first rule
    without the default-encryption block, or an exception that is not a
    [ClientError], the check of the buckets raises ([IndexError], [KeyError]
    or that exception) and logs it as unexpected; the buckets after it are
    not examined, the issues found before it are dropped, and the handler
    raises the same exception having published nothing but, if the topic is
    set, the failure alert. *)
Theorem unhandled_bucket_answer_aborts (pre post : list Bucket)
    (bucket : Bucket) (e : exn) (w : World) :
  s3_list_buckets = Ok {| Buckets := Some (pre ++ bucket :: post) |} ->
  Forall inspectable_bucket pre ->
  match s3_get_bucket_encryption (Name bucket) with
  | Ok encryption =>
      match Rules encryption with
      | [] => e = IndexError (py "list index out of range")
      | {| ApplyServerSideEncryptionByDefault := None |} :: _ =>
          e = KeyError (py "ApplyServerSideEncryptionByDefault")
      | _ => False
      end
  | Raise e' => e' = e /\ is_ClientError e = false
  end ->
  exists w1 w',
    check_s3_encryption w = (Raise e, w1) /\
    last (log w1)
    = Some (ERROR, py "Unexpected error checking S3 encryption: "
                   ++ str_of_exn e) /\
    handler w = (Raise e, w') /\
    sns_calls w'
    = sns_calls w
      ++ match environ !! py "SNS_TOPIC_ARN" with
         | Some topic =>
             [(failure_alert topic e,
               sns_publish (sns_calls w) (failure_alert topic e))]
         | None => []
         end.
Proof.
  intros Hlist Hpre Hbad.
  assert (Hkind : is_ClientError e = false).
  { destruct (s3_get_bucket_encryption (Name bucket)) as [[rules] | e'].
    - cbn [Rules] in Hbad. destruct rules as [|[[by_default|]] rest];
        try done; by subst e.
    - by destruct Hbad. }
  assert (Hcheck : forall w0, exists w1,
             check_s3_encryption w0 = (Raise e, w1) /\
             sns_calls w1 = sns_calls w0 /\
             last (log w1)
             = Some (ERROR, py "Unexpected error checking S3 encryption: "
                            ++ str_of_exn e)).
  { intros w0. unfold lambda_security_monitor.check_s3_encryption. step.
    rewrite Hlist. cbn [Buckets default from_option id].
    match goal with
    | |- context [for_in _ _ [] ?w2] =>
        destruct (for_in_buckets s3_get_bucket_encryption pre Hpre [] w2)
          as (w3 & Hloop & Hcalls);
        rewrite (for_in_raises _ pre post bucket [] _ e w2 w3 w3 Hloop
                   (check_bucket_raises bucket _ e w3 Hbad))
    end.
    destruct e; try done;
      eexists; (split; [reflexivity|]); cbn [sns_calls log];
      by rewrite last_snoc. }
  destruct (Hcheck w) as (w1 & Hrun & _ & Hlog).
  assert (Hscan : exists w2, scan w = (Raise e, w2) /\ sns_calls w2 = sns_calls w).
  { unfold lambda_security_monitor.scan. unfold bind at 1.
    unfold logger_info at 1. unfold bind at 1.
    destruct (Hcheck (emit (INFO, py "Starting security scan...") w))
      as (w2 & -> & Hcalls & _).
    by exists w2. }
  destruct Hscan as (w2 & Hscan & Hcalls).
  destruct (handler_reraises _ _ _ Hscan) as (w' & Hhandler & Hpub & _).
  exists w1, w'. rewrite Hcalls in Hpub. by repeat split.
Qed.

(** X15.  The same for the table loop, which runs after the buckets: when
    the description of one table raises an exception that is not a
    [ClientError], the check of the tables raises it and logs it as
    unexpected, and the handler raises it.  The issues the buckets gave are
    dropped with the scan: no alert on them is published, only, if the
    topic is set, the failure alert. *)
Theorem unhandled_table_answer_aborts (buckets : ListBucketsOutput)
    (pre post : list str) (table_name : str) (e : exn) (w : World) :
  s3_list_buckets = Ok buckets ->
  Forall inspectable_bucket (default [] (Buckets buckets)) ->
  dynamodb_list_tables
  = Ok {| TableNames := Some (pre ++ table_name :: post) |} ->
  Forall inspectable_table pre ->
  dynamodb_describe_table table_name = Raise e ->
  is_ClientError e = false ->
  exists w1 w',
    check_dynamodb_encryption w = (Raise e, w1) /\
    last (log w1)
    = Some (ERROR, py "Unexpected error checking DynamoDB encryption: "
                   ++ str_of_exn e) /\
    handler w = (Raise e, w') /\
    sns_calls w'
    = sns_calls w
      ++ match environ !! py "SNS_TOPIC_ARN" with
         | Some topic =>
             [(failure_alert topic e,
               sns_publish (sns_calls w) (failure_alert topic e))]
         | None => []
         end.
Proof.
  intros Hbl Hb Hlist Hpre Hbad Hkind.
  assert (Hbody : forall unencrypted_tables w0,
             check_table table_name unencrypted_tables w0 = (Raise e, w0)).
  { intros unencrypted_tables w0.
    unfold lambda_security_monitor.check_table. step. rewrite Hbad.
    by destruct e. }
  assert (Hcheck : forall w0, exists w1,
             check_dynamodb_encryption w0 = (Raise e, w1) /\
             sns_calls w1 = sns_calls w0 /\
             last (log w1)
             = Some (ERROR,
                     py "Unexpected error checking DynamoDB encryption: "
                     ++ str_of_exn e)).
  { intros w0. unfold lambda_security_monitor.check_dynamodb_encryption. step.
    rewrite Hlist. cbn [TableNames default from_option id].
    match goal with
    | |- context [for_in _ _ [] ?w2] =>
        destruct (for_in_tables dynamodb_describe_table pre Hpre [] w2)
          as (w3 & Hloop & Hcalls);
        rewrite (for_in_raises _ pre post table_name [] _ e w2 w3 w3 Hloop
                   (Hbody _ w3))
    end.
    destruct e; try done;
      eexists; (split; [reflexivity|]); cbn [sns_calls log];
      by rewrite last_snoc. }
  destruct (Hcheck w) as (w1 & Hrun & _ & Hlog).
  assert (Hscan : exists w2, scan w = (Raise e, w2) /\ sns_calls w2 = sns_calls w).
  { unfold lambda_security_monitor.scan. unfold bind at 1.
    unfold logger_info at 1. unfold bind at 1.
    match goal with
    | |- context [check_s3_encryption ?w0] =>
        destruct (check_s3_encryption_inspectable s3_list_buckets
                    s3_get_bucket_encryption _ w0 Hbl Hb)
          as (w2 & -> & Hc1)
    end.
    unfold bind at 1.
    destruct (Hcheck w2) as (w3 & -> & Hc2 & _).
    exists w3. split; [done|]. by rewrite Hc2, Hc1. }
  destruct Hscan as (w2 & Hscan & Hcalls).
  destruct (handler_reraises _ _ _ Hscan) as (w' & Hhandler & Hpub & _).
  exists w1, w'. rewrite Hcalls in Hpub. by repeat split.
Qed.

(** *** Delivery of the alert *)

(** A scan of inspectable resources up to the alert. *)
Lemma scan_checks (buckets : ListBucketsOutput) (tables : ListTablesOutput)
    (w : World) :
  s3_list_buckets = Ok buckets ->
  Forall inspectable_bucket (default [] (Buckets buckets)) ->
  dynamodb_list_tables = Ok tables ->
  Forall inspectable_table (default [] (TableNames tables)) ->
  let all_issues :=
    map format_bucket_issue
      (flat_map (fun b => bucket_issues (Name b)) (default [] (Buckets buckets)))
    ++ map format_table_issue
         (flat_map table_issues (default [] (TableNames tables))) in
  exists w2,
    sns_calls w2 = sns_calls w /\
    scan w
    = (do_ (if negb (not_ all_issues) then
              do_ logger_warning (py "Found " ++ str_of_int (len all_issues)
                                  ++ py " security issues");
              send_alert all_issues
            else
              logger_info (py "Security scan completed. No issues found."));
       ret {| statusCode := 200;
              issues_found := len all_issues;
              body := json_dumps
                (JDict [(py "message", JStr (py "Security scan completed"));
                        (py "issues", JList (map JStr all_issues))]) |}) w2.
Proof.
  intros Hbl Hb Htl Ht all_issues.
  unfold lambda_security_monitor.scan.
  unfold bind at 1. unfold logger_info at 1. unfold bind at 1.
  match goal with
  | |- context [check_s3_encryption ?w0] =>
      destruct (check_s3_encryption_inspectable s3_list_buckets
                  s3_get_bucket_encryption _ w0 Hbl Hb)
        as (w1 & -> & Hc1)
  end.
  unfold bind at 1.
  destruct (check_dynamodb_encryption_inspectable dynamodb_list_tables
              dynamodb_describe_table _ w1 Htl Ht) as (w2 & -> & Hc2).
  exists w2. split; [by rewrite Hc2, Hc1 | reflexivity].
Qed.

(** X16.  The scan's result depends on the delivery of its alert.  A scan
    that completes with issues, with the topic set, on a channel that
    refuses the alert with [e]: the handler raises [e] instead of returning
    the issues, and then attempts the failure alert about [e]; the two
    attempts are all it publishes. *)
Theorem alert_refused (buckets : ListBucketsOutput) (tables : ListTablesOutput)
    (topic : str) (e : exn) (w : World) :
  s3_list_buckets = Ok buckets ->
  Forall inspectable_bucket (default [] (Buckets buckets)) ->
  dynamodb_list_tables = Ok tables ->
  Forall inspectable_table (default [] (TableNames tables)) ->
  environ !! py "SNS_TOPIC_ARN" = Some topic ->
  let all_issues :=
    map format_bucket_issue
      (flat_map (fun b => bucket_issues (Name b)) (default [] (Buckets buckets)))
    ++ map format_table_issue
         (flat_map table_issues (default [] (TableNames tables))) in
  all_issues <> [] ->
  sns_publish (sns_calls w) (issues_alert topic all_issues) = Raise e ->
  exists w',
    handler w = (Raise e, w') /\
    sns_calls w'
    = sns_calls w
      ++ [(issues_alert topic all_issues, Raise e);
          (failure_alert topic e,
           sns_publish (sns_calls w ++ [(issues_alert topic all_issues, Raise e)])
             (failure_alert topic e))].
Proof.
  intros Hbl Hb Htl Ht Henv all_issues Hne Hpub.
  destruct (scan_checks buckets tables w Hbl Hb Htl Ht) as (w2 & Hc & Hscan).
  fold all_issues in Hscan.
  assert (Hraise : exists w3,
             scan w = (Raise e, w3) /\
             sns_calls w3
             = sns_calls w ++ [(issues_alert topic all_issues, Raise e)]).
  { rewrite Hscan. destruct all_issues as [|issue issues]; [done|].
    cbn [not_ negb]. unfold bind at 1. unfold bind at 1.
    unfold logger_warning at 1.
    unfold lambda_security_monitor.send_alert, publish, getitem. step.
    rewrite Henv. fold (issues_alert topic (issue :: issues)).
    rewrite Hc, Hpub. eexists. split; [reflexivity|]. done. }
  destruct Hraise as (w3 & Hrun & Hcalls).
  destruct (handler_reraises _ _ _ Hrun) as (w' & Hhandler & Hpub' & _).
  exists w'. split; [done|]. rewrite Hpub', Henv, Hcalls, <- app_assoc.
  reflexivity.
Qed.

(** X17.  The topic is read only when there is something to report.  With
    [SNS_TOPIC_ARN] unset, a scan that finds no issue returns its result as
    usual; a scan that finds issues raises [KeyError] for the variable, and
    neither the alert nor the failure alert is published. *)
Theorem topic_read_only_on_issues (buckets : ListBucketsOutput)
    (tables : ListTablesOutput) (w : World) :
  s3_list_buckets = Ok buckets ->
  Forall inspectable_bucket (default [] (Buckets buckets)) ->
  dynamodb_list_tables = Ok tables ->
  Forall inspectable_table (default [] (TableNames tables)) ->
  environ !! py "SNS_TOPIC_ARN" = None ->
  let all_issues :=
    map format_bucket_issue
      (flat_map (fun b => bucket_issues (Name b)) (default [] (Buckets buckets)))
    ++ map format_table_issue
         (flat_map table_issues (default [] (TableNames tables))) in
  exists w',
    sns_calls w' = sns_calls w /\
    handler w
    = (match all_issues with
       | [] =>
           Ok {| statusCode := 200;
                 issues_found := 0;
                 body := json_dumps
                   (JDict [(py "message", JStr (py "Security scan completed"));
                           (py "issues", JList [])]) |}
       | _ :: _ => Raise (KeyError (py "SNS_TOPIC_ARN"))
       end, w').
Proof.
  intros Hbl Hb Htl Ht Henv all_issues.
  destruct (scan_checks buckets tables w Hbl Hb Htl Ht) as (w2 & Hc & Hscan).
  fold all_issues in Hscan.
  destruct all_issues as [|issue issues].
  - cbn [not_ negb] in Hscan. unfold bind, logger_info, ret in Hscan.
    rewrite (handler_returns _ _ _ Hscan). eexists. split; [|reflexivity].
    unfold emit, World_logger. cbn [sns_calls]. exact Hc.
  - cbn [not_ negb] in Hscan. unfold bind at 1 in Hscan.
    unfold bind at 1 in Hscan. unfold logger_warning at 1 in Hscan.
    unfold lambda_security_monitor.send_alert, getitem in Hscan.
    rewrite Henv in Hscan. unfold bind, lift in Hscan.
    destruct (handler_reraises _ _ _ Hscan) as (w' & Hhandler & Hpub & _).
    exists w'. split; [|exact Hhandler].
    rewrite Hpub, Henv, app_nil_r. unfold emit, World_logger.
    cbn [sns_calls]. exact Hc.
Qed.

End ScannerMore.

(** ** The further properties at concrete inputs *)

(** Two safe records on a working orchestrator: two handles, two clock
    readings. *)
Lemma dispatch_lists_every_handle_witness :
  exists arns w',
    lambda_trigger.handler Fixtures.dumps Fixtures.trigger_environ
      Fixtures.utcnow_isoformat Fixtures.start_execution_ok
      {| lambda_trigger.Records :=
           [Fixtures.report_record; Scenarios.invoice_record] |}
      Fixtures.trigger_world
    = (Ok {| lambda_trigger.statusCode := 200;
             lambda_trigger.body := Fixtures.dumps
               (JDict [(py "message",
                        JStr (py "Successfully triggered Step Functions"));
                       (py "executions", JList (map JStr arns))]) |}, w') /\
    length arns = 2%nat /\ lambda_trigger.clock w' = 2%nat.
Proof.
  unshelve epose proof
    (dispatch_lists_every_handle Fixtures.dumps Fixtures.trigger_environ
       Fixtures.utcnow_isoformat Fixtures.start_execution_ok
       [Fixtures.report_record; Scenarios.invoice_record]
       (py "arn:aws:states:eu-central-1:123456789012:stateMachine:test")
       Fixtures.trigger_world _ _ _) as (arns & w' & Hrun & _ & Hlen & Hclock).
  - vm_compute. reflexivity.
  - intros calls request. reflexivity.
  - constructor; [|constructor; [|constructor]];
      intros H; apply tests_unsafe in H; vm_compute in H; discriminate H.
  - exists arns, w'. split; [exact Hrun|]. split; [exact Hlen | exact Hclock].
Defined.

(** An orchestrator that accepts one execution and refuses the second: the
    handler raises the refusal at the second of three records. *)
Lemma orchestrator_failure_propagates_witness :
  exists (arns : list str) w',
    lambda_trigger.handler Fixtures.dumps Fixtures.trigger_environ
      Fixtures.utcnow_isoformat Scenarios.start_execution_once
      {| lambda_trigger.Records :=
           [Fixtures.report_record]
           ++ Scenarios.invoice_record :: [Fixtures.report_record] |}
      Fixtures.trigger_world
    = (Raise Scenarios.execution_limit, w') /\
    length (lambda_trigger.sfn_calls w') = 2%nat /\
    length arns = 1%nat.
Proof.
  unshelve epose proof
    (orchestrator_failure_propagates Fixtures.dumps Fixtures.trigger_environ
       Fixtures.utcnow_isoformat Scenarios.start_execution_once
       [Fixtures.report_record] [Fixtures.report_record]
       Scenarios.invoice_record
       (py "arn:aws:states:eu-central-1:123456789012:stateMachine:test")
       Scenarios.execution_limit Fixtures.trigger_world _ _ _ _ _ _)
    as (arns & w' & Hrun & Hcalls & Hlen).
  - vm_compute. reflexivity.
  - constructor; [|constructor].
    intros H. apply tests_unsafe in H. vm_compute in H. discriminate H.
  - intros H. apply tests_unsafe in H. vm_compute in H. discriminate H.
  - intros msg H. discriminate H.
  - intros calls request Hlt. destruct calls as [|call calls]; [reflexivity|].
    exfalso. unfold Fixtures.trigger_world in Hlt. cbn in Hlt. lia.
  - intros calls request Hlen. unfold Scenarios.start_execution_once.
    unfold Fixtures.trigger_world in Hlen. cbn in Hlen. rewrite Hlen.
    reflexivity.
  - exists arns, w'. split; [exact Hrun|]. split; [|exact Hlen].
    rewrite Hcalls. rewrite !length_app, length_zip, length_map, Hlen.
    reflexivity.
Defined.

(** Without [STATE_MACHINE_ARN], a batch that begins with a safe key raises
    [KeyError] before any call. *)
Lemma state_machine_looked_up_per_record_witness :
  exists w',
    lambda_trigger.handler Fixtures.dumps (∅ : gmap str str)
      Fixtures.utcnow_isoformat Fixtures.start_execution_ok
      {| lambda_trigger.Records :=
           Fixtures.report_record :: [Scenarios.invoice_record] |}
      Fixtures.trigger_world
    = (Raise (KeyError (py "STATE_MACHINE_ARN")), w') /\
    lambda_trigger.sfn_calls w' = [].
Proof.
  unshelve epose proof
    (state_machine_looked_up_per_record Fixtures.dumps (∅ : gmap str str)
       Fixtures.utcnow_isoformat Fixtures.start_execution_ok
       Fixtures.report_record [Scenarios.invoice_record]
       Fixtures.trigger_world _) as (Hsafe & _ & _).
  - vm_compute. reflexivity.
  - destruct Hsafe as (w' & Hrun & Hcalls & _).
    + intros H. apply tests_unsafe in H. vm_compute in H. discriminate H.
    + exists w'. split; [exact Hrun | exact Hcalls].
Defined.

(** The first write of the report: the record is in the table, under the
    key of the input. *)
Lemma written_record_found_witness :
  let run :=
    Fixtures.writer_handler Fixtures.report_event Fixtures.writer_world in
  exists item,
    lambda_writer.items run.2 = [item] /\
    item !! py "Filename" = Some (py "reports/q1.csv") /\
    item !! py "UploadTimestamp" = Some (py "2025-01-01T00:00:00") /\
    List.find (lambda_writer.same_key item) (lambda_writer.items run.2)
    = Some item.
Proof.
  intros run.
  unshelve epose proof
    (written_record_found Fixtures.dumps_dict Fixtures.dumps_dict
       Fixtures.writer_environ Fixtures.utcnow_isoformat Fixtures.no_fault
       Fixtures.report_event Fixtures.writer_world run.2
       {| lambda_writer.statusCode := 200;
          lambda_writer.filename := py "reports/q1.csv";
          lambda_writer.timestamp := py "2025-01-01T00:00:00";
          lambda_writer.bucket := Some (py "test-bucket");
          lambda_writer.message := py "Successfully written to DynamoDB" |}
       _ _)
    as (item & Hitems & _ & Hf & Ht & _ & _ & _ & _ & _ & _ & Hfind).
  - vm_compute. reflexivity.
  - reflexivity.
  - exists item. split; [exact Hitems|]. split; [exact Hf|].
    split; [exact Ht | exact Hfind].
Defined.

(** The same unstamped input twice on an empty table: two records. *)
Lemma unstamped_retry_writes_twice_witness :
  exists w1 w2,
    Fixtures.writer_handler Scenarios.unstamped_event Fixtures.writer_world
    = (Ok {| lambda_writer.statusCode := 200;
             lambda_writer.filename := py "reports/q1.csv";
             lambda_writer.timestamp := Fixtures.utcnow_isoformat 0;
             lambda_writer.bucket := Some (py "test-bucket");
             lambda_writer.message := py "Successfully written to DynamoDB" |},
       w1) /\
    Fixtures.writer_handler Scenarios.unstamped_event w1
    = (Ok {| lambda_writer.statusCode := 200;
             lambda_writer.filename := py "reports/q1.csv";
             lambda_writer.timestamp := Fixtures.utcnow_isoformat 1;
             lambda_writer.bucket := Some (py "test-bucket");
             lambda_writer.message := py "Successfully written to DynamoDB" |},
       w2) /\
    length (lambda_writer.items w2) = 2%nat.
Proof.
  unshelve epose proof
    (unstamped_retry_writes_twice Fixtures.dumps_dict Fixtures.dumps_dict
       Fixtures.writer_environ Fixtures.utcnow_isoformat Fixtures.no_fault
       Scenarios.unstamped_event (py "reports/q1.csv") (py "test-bucket")
       Fixtures.writer_world _ _ _ _ _ _ _ _ _)
    as (w1 & w2 & Hrun1 & Hrun2 & Hitems).
  - right. exists (py "test-table"). vm_compute. reflexivity.
  - intros stored item. reflexivity.
  - vm_compute. reflexivity.
  - vm_compute. reflexivity.
  - vm_compute. reflexivity.
  - intros H. apply tests_unsafe in H. vm_compute in H. discriminate H.
  - intros H. vm_compute in H. discriminate H.
  - constructor.
  - constructor.
  - exists w1, w2. split; [exact Hrun1|]. split; [exact Hrun2|].
    rewrite Hitems. reflexivity.
Defined.

(** A store out of capacity: the handler raises the store's error, logs it
    as a client error, and the table stays empty. *)
Lemma store_failure_propagates_witness :
  exists w',
    lambda_writer.items w' = [] /\
    lambda_writer.handler Fixtures.dumps_dict Fixtures.dumps_dict
      Fixtures.writer_environ Fixtures.utcnow_isoformat
      Scenarios.store_out_of_capacity Fixtures.report_event
      Fixtures.writer_world
    = (Raise Scenarios.out_of_capacity, w') /\
    last (lambda_writer.log w')
    = Some (ERROR, py "DynamoDB client error: "
                   ++ str_of_exn Scenarios.out_of_capacity).
Proof.
  unshelve epose proof
    (store_failure_propagates Fixtures.dumps_dict Fixtures.dumps_dict
       Fixtures.writer_environ Fixtures.utcnow_isoformat
       Scenarios.store_out_of_capacity Fixtures.report_event
       (py "reports/q1.csv") (py "test-bucket") Scenarios.out_of_capacity
       Fixtures.writer_world _ _ _ _ _) as (w' & Hitems & Hcase).
  - right. exists (py "test-table"). vm_compute. reflexivity.
  - vm_compute. reflexivity.
  - vm_compute. reflexivity.
  - intros H. apply tests_unsafe in H. vm_compute in H. discriminate H.
  - reflexivity.
  - exists w'. split; [exact Hitems|].
    unfold Scenarios.out_of_capacity in Hcase at 1.
    rewrite bool_decide_eq_false_2 in Hcase; [exact Hcase|].
    intros H. vm_compute in H. discriminate H.
Defined.

(** A handle bound under one environment is returned under another. *)
Lemma table_handle_cached_witness :
  let w1 :=
    (lambda_writer.get_dynamodb_table Fixtures.writer_environ
       Fixtures.writer_world).2 in
  lambda_writer.table w1 = Some (py "test-table") /\
  lambda_writer.get_dynamodb_table (∅ : gmap str str) w1
  = (Ok (py "test-table"), w1).
Proof.
  intros w1.
  destruct (table_handle_cached Fixtures.writer_environ Fixtures.writer_world)
    as [Hbound _].
  destruct (Hbound (py "test-table") w1) as (Htable & _ & Hkept).
  - vm_compute. reflexivity.
  - split; [exact Htable | exact (Hkept ∅)].
Defined.

(** The report's key passes the Dispatch validator and is written. *)
Lemma writer_accepts_dispatched_keys_witness :
  exists r w',
    Fixtures.writer_handler Fixtures.report_event Fixtures.writer_world
    = (Ok r, w') /\
    (lambda_writer.statusCode r = 200%Z \/ lambda_writer.statusCode r = 409%Z) /\
    lambda_writer.filename r = py "reports/q1.csv".
Proof.
  unshelve epose proof
    (writer_accepts_dispatched_keys Fixtures.dumps_dict Fixtures.dumps_dict
       Fixtures.writer_environ Fixtures.utcnow_isoformat Fixtures.no_fault
       Fixtures.report_event (py "reports/q1.csv") (py "test-bucket")
       Fixtures.trigger_world Fixtures.writer_world _ _ _ _ _)
    as (r & w' & Hrun & Hstatus & Hf & _).
  - vm_compute. reflexivity.
  - right. exists (py "test-table"). vm_compute. reflexivity.
  - vm_compute. reflexivity.
  - vm_compute. reflexivity.
  - reflexivity.
  - exists r, w'. split; [exact Hrun|]. split; [exact Hstatus | exact Hf].
Defined.

(** A bucket on [AES256], then a bucket whose configuration has no rule:
    the scan raises [IndexError], and the first bucket's issue is never
    reported. *)
Lemma unhandled_bucket_answer_aborts_witness :
  exists w1 w',
    lambda_security_monitor.check_s3_encryption
      (Fixtures.list_buckets
         ([Fixtures.aes256_bucket]
          ++ Scenarios.ruleless_bucket :: [Scenarios.blockless_bucket]))
      Scenarios.get_bucket_encryption Fixtures.monitor_world
    = (Raise (IndexError (py "list index out of range")), w1) /\
    lambda_security_monitor.handler Fixtures.dumps Fixtures.monitor_environ
      (Fixtures.list_buckets
         ([Fixtures.aes256_bucket]
          ++ Scenarios.ruleless_bucket :: [Scenarios.blockless_bucket]))
      Scenarios.get_bucket_encryption (Fixtures.list_tables [])
      Fixtures.describe_table Fixtures.publish_ok Fixtures.monitor_world
    = (Raise (IndexError (py "list index out of range")), w') /\
    length (lambda_security_monitor.sns_calls w') = 1%nat.
Proof.
  unshelve epose proof
    (unhandled_bucket_answer_aborts Fixtures.dumps Fixtures.monitor_environ
       (Fixtures.list_buckets
          ([Fixtures.aes256_bucket]
           ++ Scenarios.ruleless_bucket :: [Scenarios.blockless_bucket]))
       Scenarios.get_bucket_encryption (Fixtures.list_tables [])
       Fixtures.describe_table Fixtures.publish_ok
       [Fixtures.aes256_bucket] [Scenarios.blockless_bucket]
       Scenarios.ruleless_bucket
       (IndexError (py "list index out of range"))
       Fixtures.monitor_world _ _ _)
    as (w1 & w' & Hcheck & _ & Hrun & Hcalls).
  - reflexivity.
  - constructor; [|constructor].
    unfold lambda_security_monitor.inspectable_bucket. vm_compute.
    by eexists _, _.
  - vm_compute. reflexivity.
  - exists w1, w'. split; [exact Hcheck|]. split; [exact Hrun|].
    rewrite Hcalls.
    change (Fixtures.monitor_environ !! py "SNS_TOPIC_ARN")
      with (Some (py "arn:aws:sns:eu-central-1:123456789012:test")).
    reflexivity.
Defined.

(** A bucket on [AES256] and a table the scan cannot reach: the handler
    raises the connection error, and only the failure alert goes out. *)
Lemma unhandled_table_answer_aborts_witness :
  exists w',
    lambda_security_monitor.handler Fixtures.dumps Fixtures.monitor_environ
      (Fixtures.list_buckets [Fixtures.aes256_bucket])
      Fixtures.get_bucket_encryption
      (Fixtures.list_tables
         ([py "unencrypted-table"]
          ++ py "unreachable-table" :: [py "throttled-table"]))
      Scenarios.describe_table Fixtures.publish_ok Fixtures.monitor_world
    = (Raise Fixtures.connection_error, w') /\
    lambda_security_monitor.published w'
    = [lambda_security_monitor.failure_alert
         (py "arn:aws:sns:eu-central-1:123456789012:test")
         Fixtures.connection_error].
Proof.
  unshelve epose proof
    (unhandled_table_answer_aborts Fixtures.dumps Fixtures.monitor_environ
       (Fixtures.list_buckets [Fixtures.aes256_bucket])
       Fixtures.get_bucket_encryption
       (Fixtures.list_tables
          ([py "unencrypted-table"]
           ++ py "unreachable-table" :: [py "throttled-table"]))
       Scenarios.describe_table Fixtures.publish_ok
       {| lambda_security_monitor.Buckets := Some [Fixtures.aes256_bucket] |}
       [py "unencrypted-table"] [py "throttled-table"]
       (py "unreachable-table") Fixtures.connection_error
       Fixtures.monitor_world _ _ _ _ _ _)
    as (w1 & w' & _ & _ & Hrun & Hcalls).
  - reflexivity.
  - constructor; [|constructor].
    unfold lambda_security_monitor.inspectable_bucket. vm_compute.
    by eexists _, _.
  - reflexivity.
  - constructor; [|constructor]. vm_compute. exact I.
  - vm_compute. reflexivity.
  - reflexivity.
  - exists w'. split; [exact Hrun|].
    unfold lambda_security_monitor.published. rewrite Hcalls.
    change (Fixtures.monitor_environ !! py "SNS_TOPIC_ARN")
      with (Some (py "arn:aws:sns:eu-central-1:123456789012:test")).
    reflexivity.
Defined.

(** One bucket on [AES256] and a channel that is down: the handler raises
    the channel's error after two attempts. *)
Lemma alert_refused_witness :
  exists w',
    lambda_security_monitor.handler Fixtures.dumps Fixtures.monitor_environ
      (Fixtures.list_buckets [Fixtures.aes256_bucket])
      Fixtures.get_bucket_encryption (Fixtures.list_tables [])
      Fixtures.describe_table Fixtures.publish_down Fixtures.monitor_world
    = (Raise Fixtures.channel_down, w') /\
    length (lambda_security_monitor.sns_calls w') = 2%nat /\
    lambda_security_monitor.published w' = [].
Proof.
  unshelve epose proof
    (alert_refused Fixtures.dumps Fixtures.monitor_environ
       (Fixtures.list_buckets [Fixtures.aes256_bucket])
       Fixtures.get_bucket_encryption (Fixtures.list_tables [])
       Fixtures.describe_table Fixtures.publish_down
       {| lambda_security_monitor.Buckets := Some [Fixtures.aes256_bucket] |}
       {| lambda_security_monitor.TableNames := Some [] |}
       (py "arn:aws:sns:eu-central-1:123456789012:test")
       Fixtures.channel_down Fixtures.monitor_world _ _ _ _ _ _ _)
    as (w' & Hrun & Hcalls).
  - reflexivity.
  - constructor; [|constructor].
    unfold lambda_security_monitor.inspectable_bucket. vm_compute.
    by eexists _, _.
  - reflexivity.
  - constructor.
  - vm_compute. reflexivity.
  - intros H. vm_compute in H. discriminate H.
  - reflexivity.
  - exists w'. split; [exact Hrun|].
    unfold lambda_security_monitor.published. rewrite Hcalls.
    split; reflexivity.
Defined.

(** One bucket on [AES256] and no topic: [KeyError], nothing published. *)
Lemma topic_read_only_on_issues_witness :
  exists w',
    lambda_security_monitor.sns_calls w' = [] /\
    lambda_security_monitor.handler Fixtures.dumps (∅ : gmap str str)
      (Fixtures.list_buckets [Fixtures.aes256_bucket])
      Fixtures.get_bucket_encryption (Fixtures.list_tables [])
      Fixtures.describe_table Fixtures.publish_ok Fixtures.monitor_world
    = (Raise (KeyError (py "SNS_TOPIC_ARN")), w').
Proof.
  unshelve epose proof
    (topic_read_only_on_issues Fixtures.dumps (∅ : gmap str str)
       (Fixtures.list_buckets [Fixtures.aes256_bucket])
       Fixtures.get_bucket_encryption (Fixtures.list_tables [])
       Fixtures.describe_table Fixtures.publish_ok
       {| lambda_security_monitor.Buckets := Some [Fixtures.aes256_bucket] |}
       {| lambda_security_monitor.TableNames := Some [] |}
       Fixtures.monitor_world _ _ _ _ _) as (w' & Hcalls & Hrun).
  - reflexivity.
  - constructor; [|constructor].
    unfold lambda_security_monitor.inspectable_bucket. vm_compute.
    by eexists _, _.
  - reflexivity.
  - constructor.
  - vm_compute. reflexivity.
  - exists w'. split; [exact Hcalls | exact Hrun].
Defined.

(** The report's record, dispatched and handed to the Writer on an empty
    table: written under the dispatch timestamp. *)
Lemma dispatched_input_is_written_witness :
  exists w',
    lambda_writer.handler Fixtures.dumps_dict Fixtures.dumps_dict
      Fixtures.writer_environ Fixtures.utcnow_isoformat Fixtures.no_fault
      (as_event
         (lambda_trigger.step_function_input (py "test-bucket")
            (py "reports/q1.csv") (Fixtures.utcnow_isoformat 0)
            (py "2025-01-01T00:00:00Z")))
      Fixtures.writer_world
    = (Ok {| lambda_writer.statusCode := 200;
             lambda_writer.filename := py "reports/q1.csv";
             lambda_writer.timestamp := Fixtures.utcnow_isoformat 0;
             lambda_writer.bucket := Some (py "test-bucket");
             lambda_writer.message := py "Successfully written to DynamoDB" |},
       w') /\
    lambda_writer.items w'
    = [lambda_writer.metadata_item (py "reports/q1.csv")
         (Fixtures.utcnow_isoformat 0) (py "test-bucket")
         (py "2025-01-01T00:00:00Z")].
Proof.
  unshelve epose proof
    (dispatched_input_is_written Fixtures.dumps_dict Fixtures.dumps_dict
       Fixtures.writer_environ Fixtures.utcnow_isoformat Fixtures.no_fault
       Fixtures.report_record (Fixtures.utcnow_isoformat 0)
       Fixtures.trigger_world Fixtures.writer_world _ _ _) as (w' & Hrun).
  - vm_compute. reflexivity.
  - right. exists (py "test-table"). vm_compute. reflexivity.
  - reflexivity.
  - exists w'. exact Hrun.
Defined.
